(** * Customer support ticket system

    A shallow embedding of the ticket schema and its row-level policies
    (supabase/migrations/20250810152024_black_reef.sql), of the data hooks
    and handlers of the React client (src/hooks/useTickets.ts,
    src/components/CreateTicket.tsx, src/components/TicketModal.tsx) and of
    the dashboard aggregates (src/components/Dashboard.tsx).

    Conventions.
    - SQL [text] and [uuid] columns are [string]s; a nullable column is an
      [option].  [timestamptz] values are integers: milliseconds since the
      epoch, the resolution at which the client reads them back
      ([new Date(s).getTime()]).
    - [now()] and [gen_random_uuid()] are inputs of every statement.
    - JavaScript numbers that take part in a division are IEEE-754 binary64
      values ([spec_float] at precision 53). *)

From Stdlib Require Import ZArith List String Ascii Bool Lia SpecFloat.
Import ListNotations.
Local Open Scope string_scope.
Local Open Scope list_scope.
Local Open Scope Z_scope.

(** ** Schema *)

Definition uuid := string.
Definition timestamptz := Z.

(** [CREATE TABLE users]. *)
Record User := mkUser {
  u_id : uuid;
  u_email : string;
  u_full_name : string;
  u_role : string;
  u_avatar_url : option string;
  u_created_at : option timestamptz
}.

(** [CREATE TABLE tickets].  [title], [description], [priority] and
    [status] are [NOT NULL]; every other column but the key is nullable. *)
Record Ticket := mkTicket {
  id : uuid;
  title : string;
  description : string;
  priority : string;
  status : string;
  category : option string;
  created_by : option uuid;
  assigned_to : option uuid;
  created_at : option timestamptz;
  updated_at : option timestamptz;
  resolved_at : option timestamptz
}.

(** [CREATE TABLE ticket_comments]. *)
Record TicketComment := mkComment {
  c_id : uuid;
  c_ticket_id : option uuid;
  c_user_id : option uuid;
  c_comment : string;
  c_created_at : option timestamptz
}.

Record Db := mkDb {
  users : list User;
  tickets : list Ticket;
  ticket_comments : list TicketComment
}.

(** SQL equality on nullable values used as a condition: a comparison with
    NULL is not true. *)
Definition sql_eq (a b : option string) : bool :=
  match a, b with
  | Some x, Some y => String.eqb x y
  | _, _ => false
  end.

Definition is_null {A : Type} (v : option A) : bool :=
  match v with None => true | Some _ => false end.

(** [CHECK (priority IN ('low', 'medium', 'high', 'urgent'))]. *)
Definition priority_check (p : string) : bool :=
  String.eqb p "low" || String.eqb p "medium" || String.eqb p "high"
  || String.eqb p "urgent".

(** [CHECK (status IN ('open', 'in_progress', 'resolved', 'closed'))]. *)
Definition status_check (s : string) : bool :=
  String.eqb s "open" || String.eqb s "in_progress" || String.eqb s "resolved"
  || String.eqb s "closed".

(** [REFERENCES users(id)]: a non-null reference names an existing user. *)
Definition references_user (us : list User) (r : option uuid) : bool :=
  match r with
  | None => true
  | Some x => existsb (fun u => String.eqb (u_id u) x) us
  end.

Definition ticket_constraints (us : list User) (t : Ticket) : bool :=
  priority_check (priority t) && status_check (status t)
  && references_user us (created_by t) && references_user us (assigned_to t).

(** ** Row-level security *)

(** [EXISTS (SELECT 1 FROM users WHERE users.id = auth.uid()
    AND users.role = 'admin')]. *)
Definition is_admin (us : list User) (uid : option uuid) : bool :=
  existsb (fun u => sql_eq (Some (u_id u)) uid && String.eqb (u_role u) "admin") us.

(** "Users can read tickets they created or are assigned to". *)
Definition tickets_select_policy (us : list User) (uid : option uuid) (t : Ticket) : bool :=
  sql_eq (created_by t) uid || sql_eq (assigned_to t) uid || is_admin us uid.

(** "Users can create tickets". *)
Definition tickets_insert_policy (uid : option uuid) (t : Ticket) : bool :=
  sql_eq (created_by t) uid.

(** "Admins can update any ticket, users can update their own tickets". *)
Definition tickets_update_policy (us : list User) (uid : option uuid) (t : Ticket) : bool :=
  sql_eq (created_by t) uid || is_admin us uid.

(** "Admins can delete tickets". *)
Definition tickets_delete_policy (us : list User) (uid : option uuid) : bool :=
  is_admin us uid.

(** The sub-query shared by both comment policies: the parent ticket exists
    and is readable by the caller. *)
Definition parent_ticket_readable (d : Db) (uid : option uuid) (tid : option uuid) : bool :=
  existsb (fun t => sql_eq (Some (id t)) tid
                    && (sql_eq (created_by t) uid || sql_eq (assigned_to t) uid
                        || is_admin (users d) uid))
          (tickets d).

(** "Users can read comments on tickets they have access to". *)
Definition comments_select_policy (d : Db) (uid : option uuid) (c : TicketComment) : bool :=
  parent_ticket_readable d uid (c_ticket_id c).

(** "Users can create comments on tickets they have access to". *)
Definition comments_insert_policy (d : Db) (uid : option uuid) (c : TicketComment) : bool :=
  sql_eq (c_user_id c) uid && parent_ticket_readable d uid (c_ticket_id c).

(** ** UPDATE of a ticket row *)

(** The [SET] list of an [UPDATE tickets]: the JSON body sent by
    [supabase.from('tickets').update(updates)], a [Partial<Ticket>].  A
    column absent from the body is [None]; a nullable column present in the
    body carries its new value, possibly NULL.  The key [id] is a column
    like the others; the embedded [user] and [assignee] of the TypeScript
    type are not columns of the table and are left out. *)
Record TicketPatch := mkPatch {
  p_id : option uuid;
  p_title : option string;
  p_description : option string;
  p_priority : option string;
  p_status : option string;
  p_category : option (option string);
  p_created_by : option (option uuid);
  p_assigned_to : option (option uuid);
  p_created_at : option (option timestamptz);
  p_updated_at : option (option timestamptz);
  p_resolved_at : option (option timestamptz)
}.

Definition set_col {A : Type} (new : option A) (old : A) : A :=
  match new with Some v => v | None => old end.

(** The row proposed by the [SET] list, before any trigger runs. *)
Definition apply_patch (p : TicketPatch) (OLD : Ticket) : Ticket :=
  mkTicket (set_col (p_id p) (id OLD))
           (set_col (p_title p) (title OLD))
           (set_col (p_description p) (description OLD))
           (set_col (p_priority p) (priority OLD))
           (set_col (p_status p) (status OLD))
           (set_col (p_category p) (category OLD))
           (set_col (p_created_by p) (created_by OLD))
           (set_col (p_assigned_to p) (assigned_to OLD))
           (set_col (p_created_at p) (created_at OLD))
           (set_col (p_updated_at p) (updated_at OLD))
           (set_col (p_resolved_at p) (resolved_at OLD)).

Definition with_updated_at (v : option timestamptz) (t : Ticket) : Ticket :=
  mkTicket (id t) (title t) (description t) (priority t) (status t) (category t)
           (created_by t) (assigned_to t) (created_at t) v (resolved_at t).

Definition with_resolved_at (v : option timestamptz) (t : Ticket) : Ticket :=
  mkTicket (id t) (title t) (description t) (priority t) (status t) (category t)
           (created_by t) (assigned_to t) (created_at t) (updated_at t) v.

(** [update_updated_at_column()], the body of the
    [BEFORE UPDATE ON tickets FOR EACH ROW] trigger:
<<
  NEW.updated_at = now();
  IF OLD.status != NEW.status AND NEW.status IN ('resolved', 'closed')
     AND OLD.resolved_at IS NULL THEN
    NEW.resolved_at = now();
  END IF;
  RETURN NEW;
>> *)
Definition update_updated_at_column (OLD NEW : Ticket) (now : timestamptz) : Ticket :=
  let NEW := with_updated_at (Some now) NEW in
  if negb (String.eqb (status OLD) (status NEW))
     && (String.eqb (status NEW) "resolved" || String.eqb (status NEW) "closed")
     && is_null (resolved_at OLD)
  then with_resolved_at (Some now) NEW
  else NEW.

(** The row written by an [UPDATE]: the [SET] list, then the trigger. *)
Definition update_row (p : TicketPatch) (now : timestamptz) (OLD : Ticket) : Ticket :=
  update_updated_at_column OLD (apply_patch p OLD) now.

(** A successful [UPDATE] of row [OLD] issued by [uid] at time [now].  The
    update policy has a [USING] clause only, which PostgreSQL applies to the
    existing row and, for want of a [WITH CHECK], to the new row as well; the
    new row must satisfy the table constraints.  [None]: the row is left as
    it was. *)
Definition ticket_update (us : list User) (uid : option uuid) (p : TicketPatch)
    (now : timestamptz) (OLD : Ticket) : option Ticket :=
  if tickets_update_policy us uid OLD then
    let NEW := update_row p now OLD in
    if tickets_update_policy us uid NEW && ticket_constraints us NEW
    then Some NEW else None
  else None.

(** One update of a history: who issued it, its [SET] list, its [now()]. *)
Record Update := mkUpdate {
  upd_uid : option uuid;
  upd_set : TicketPatch;
  upd_now : timestamptz
}.

(** [updates us t ups t']: the successful updates [ups], applied in order to
    the row [t], leave the row [t']. *)
Inductive updates (us : list User) : Ticket -> list Update -> Ticket -> Prop :=
| updates_nil : forall t, updates us t [] t
| updates_cons : forall t u t' ups t'',
    ticket_update us (upd_uid u) (upd_set u) (upd_now u) t = Some t' ->
    updates us t' ups t'' ->
    updates us t (u :: ups) t''.

(** The status transition the trigger looks for. *)
Definition enters_resolved (old new : string) : bool :=
  negb (String.eqb old new) && (String.eqb new "resolved" || String.eqb new "closed").

(** The [now()] of the first update of a history whose status transitions
    into resolved or closed, starting from status [st]; NULL if there is
    none. *)
Fixpoint first_resolution (st : string) (ups : list Update) : option timestamptz :=
  match ups with
  | [] => None
  | u :: rest =>
      let st' := set_col (p_status (upd_set u)) st in
      if enters_resolved st st' then Some (upd_now u)
      else first_resolution st' rest
  end.

(** A [SET] list that leaves every column alone, and single-column lists. *)
Definition no_patch : TicketPatch :=
  mkPatch None None None None None None None None None None None.

Definition patch_status (s : string) : TicketPatch :=
  mkPatch None None None None (Some s) None None None None None None.

Definition patch_resolved_at (v : option timestamptz) : TicketPatch :=
  mkPatch None None None None None None None None None None (Some v).

(** ** Statements on the tables, as the client issues them *)

(** What a request returns: [{ data, error }] with exactly one of the two. *)
Inductive Resp (A : Type) : Type :=
| Ok (data : A)
| Err (error : string).
Arguments Ok {A} data.
Arguments Err {A} error.

(** The row of an [INSERT INTO tickets]: the columns the statement lists.
    [None]: the column is not listed (or, for a nullable column, NULL).  The
    client's type leaves [id], [created_at] and [updated_at] out, and so
    does the seed [INSERT] of the migration; they take their defaults. *)
Record TicketBody := mkBody {
  b_title : option string;
  b_description : option string;
  b_priority : option string;
  b_status : option string;
  b_category : option string;
  b_created_by : option uuid;
  b_assigned_to : option uuid;
  b_resolved_at : option timestamptz
}.

(** The row an [INSERT] builds: column defaults ([priority] 'medium',
    [status] 'open', [id] [gen_random_uuid()], [created_at] and [updated_at]
    [now()]); no trigger runs on insert.  [None]: a [NOT NULL] column without
    default is missing. *)
Definition insert_row (b : TicketBody) (new_id : uuid) (now : timestamptz) : option Ticket :=
  match b_title b, b_description b with
  | Some ti, Some de =>
      Some (mkTicket new_id ti de
                     (set_col (b_priority b) "medium"%string)
                     (set_col (b_status b) "open"%string)
                     (b_category b) (b_created_by b) (b_assigned_to b)
                     (Some now) (Some now) (b_resolved_at b))
  | _, _ => None
  end.

(** [supabase.from('tickets').insert([body]).select().single()].  The
    insert policy is checked first, then [NOT NULL] and [CHECK], the key,
    and the foreign keys.  A row that passes the insert policy is readable
    by its creator, so [RETURNING] adds no condition. *)
Definition tickets_insert (uid : option uuid) (new_id : uuid) (now : timestamptz)
    (b : TicketBody) (d : Db) : Resp Ticket * Db :=
  if negb (sql_eq (b_created_by b) uid)
  then (Err "42501 row-level security policy", d)
  else
    match insert_row b new_id now with
    | None => (Err "23502 not_null_violation", d)
    | Some t =>
        if negb (priority_check (priority t) && status_check (status t))
        then (Err "23514 check_violation", d)
        else if existsb (fun t' => String.eqb (id t') new_id) (tickets d)
        then (Err "23505 unique_violation", d)
        else if negb (references_user (users d) (created_by t)
                      && references_user (users d) (assigned_to t))
        then (Err "23503 foreign_key_violation", d)
        else (Ok t, mkDb (users d) (tickets d ++ [t]) (ticket_comments d))
    end.

(** What the keys ask of an [UPDATE] that turns the key [i] into the key of
    [NEW]: [id uuid PRIMARY KEY] wants the new key unused, and
    [ticket_id uuid REFERENCES tickets(id) ON DELETE CASCADE], which names no
    action for an update, wants no comment to refer to the old one.  An
    update that keeps the key passes. *)
Definition key_constraints (d : Db) (i : uuid) (NEW : Ticket) : bool :=
  String.eqb (id NEW) i
  || (negb (existsb (fun t => String.eqb (id t) (id NEW)) (tickets d))
      && negb (existsb (fun c => sql_eq (c_ticket_id c) (Some i)) (ticket_comments d))).

(** A body without any column. *)
Definition empty_patch (p : TicketPatch) : bool :=
  is_null (p_id p) && is_null (p_title p) && is_null (p_description p)
  && is_null (p_priority p) && is_null (p_status p) && is_null (p_category p)
  && is_null (p_created_by p) && is_null (p_assigned_to p) && is_null (p_created_at p)
  && is_null (p_updated_at p) && is_null (p_resolved_at p).

(** [supabase.from('tickets').update(patch).eq('id', i).select().single()].
    For a body without columns there is no [SET] list to write: no
    [UPDATE] is run and no row comes back.  Rows the update policy hides
    are not updated; [single()] fails unless exactly one row comes back, and
    a failed request changes nothing. *)
Definition tickets_update (uid : option uuid) (now : timestamptz) (i : uuid)
    (p : TicketPatch) (d : Db) : Resp Ticket * Db :=
  if empty_patch p then (Err "PGRST116 not a single row", d) else
  match filter (fun t => String.eqb (id t) i && tickets_update_policy (users d) uid t)
               (tickets d) with
  | [OLD] =>
      match ticket_update (users d) uid p now OLD with
      | Some NEW =>
          if key_constraints d i NEW then
            (Ok NEW,
             mkDb (users d)
                  (map (fun t => if String.eqb (id t) i then NEW else t) (tickets d))
                  (ticket_comments d))
          else (Err "new row violates a policy or constraint", d)
      | None => (Err "new row violates a policy or constraint", d)
      end
  | _ => (Err "PGRST116 not a single row", d)
  end.

(** [supabase.from('tickets').delete().eq('id', i)].  Rows the delete policy
    hides are not deleted and no error is raised for them; comments go with
    their ticket ([ON DELETE CASCADE]). *)
Definition tickets_delete (uid : option uuid) (i : uuid) (d : Db) : Resp unit * Db :=
  if tickets_delete_policy (users d) uid then
    (Ok tt,
     mkDb (users d)
          (filter (fun t => negb (String.eqb (id t) i)) (tickets d))
          (filter (fun c => negb (sql_eq (c_ticket_id c) (Some i))) (ticket_comments d)))
  else (Ok tt, d).

(** [supabase.from('ticket_comments').insert([{ ticket_id, user_id,
    comment }])]: no [select()], so nothing is returned. *)
Definition comments_insert (uid : option uuid) (new_id : uuid) (now : timestamptz)
    (tid : option uuid) (author : option uuid) (body : string) (d : Db) : Resp unit * Db :=
  let c := mkComment new_id tid author body (Some now) in
  if negb (comments_insert_policy d uid c)
  then (Err "42501 row-level security policy", d)
  else if negb (references_user (users d) author)
  then (Err "23503 foreign_key_violation", d)
  else (Ok tt, mkDb (users d) (tickets d) (ticket_comments d ++ [c])).

(** Ascending order on [created_at], NULLs last, as [ORDER BY ... ASC]. *)
Definition created_leb (a b : option timestamptz) : bool :=
  match a, b with
  | Some x, Some y => x <=? y
  | Some _, None => true
  | None, Some _ => false
  | None, None => true
  end.

Section OrderBy.
Context {A : Type} (le : A -> A -> bool).

Fixpoint insert_sorted (x : A) (l : list A) : list A :=
  match l with
  | [] => [x]
  | y :: l' => if le x y then x :: l else y :: insert_sorted x l'
  end.

Fixpoint order_by (l : list A) : list A :=
  match l with
  | [] => []
  | x :: l' => insert_sorted x (order_by l')
  end.
End OrderBy.

(** [supabase.from('ticket_comments').select(...).eq('ticket_id', i)
    .order('created_at', { ascending: true })]. *)
Definition comments_select (uid : option uuid) (i : uuid) (d : Db) : list TicketComment :=
  order_by (fun a b => created_leb (c_created_at a) (c_created_at b))
           (filter (fun c => comments_select_policy d uid c
                             && sql_eq (c_ticket_id c) (Some i))
                   (ticket_comments d)).

(** ** Filters of a [select] on tickets *)

(** Characters are code units below 256; [ILIKE] folds the ASCII letters. *)
Definition lower_ascii (c : ascii) : ascii :=
  let n := nat_of_ascii c in
  if (Nat.leb 65 n && Nat.leb n 90)%bool then ascii_of_nat (n + 32) else c.

Fixpoint lower (s : string) : string :=
  match s with
  | EmptyString => EmptyString
  | String c s' => String (lower_ascii c) (lower s')
  end.

(** [%] of a [LIKE] pattern; PostgREST also reads [*] as [%]. *)
Definition is_percent (c : ascii) : bool :=
  Ascii.eqb c "%" || Ascii.eqb c "*".

Definition is_underscore (c : ascii) : bool := Ascii.eqb c "_".

Definition is_escape (c : ascii) : bool := Ascii.eqb c "\".

(** SQL [LIKE]: [%] matches any run of characters, [_] any one character,
    a backslash takes the next pattern character literally. *)
Fixpoint like (pat : string) : string -> bool :=
  match pat with
  | EmptyString => fun s => match s with EmptyString => true | _ => false end
  | String c pat' =>
      if is_percent c then
        fix any (s : string) : bool :=
          like pat' s
          || match s with EmptyString => false | String _ s' => any s' end
      else if is_underscore c then
        fun s => match s with EmptyString => false | String _ s' => like pat' s' end
      else if is_escape c then
        match pat' with
        | EmptyString => fun _ => false
        | String e pat'' =>
            fun s => match s with
                     | EmptyString => false
                     | String d s' => Ascii.eqb e d && like pat'' s'
                     end
        end
      else
        fun s => match s with
                 | EmptyString => false
                 | String d s' => Ascii.eqb c d && like pat' s'
                 end
  end.

(** [text ILIKE pat]. *)
Definition ilike (text pat : string) : bool := like (lower pat) (lower text).

(** The text columns a filter may name. *)
Inductive Column : Type :=
| col_id | col_title | col_description | col_priority | col_status
| col_category | col_created_by | col_assigned_to.

Definition column (c : Column) (t : Ticket) : option string :=
  match c with
  | col_id => Some (id t)
  | col_title => Some (title t)
  | col_description => Some (description t)
  | col_priority => Some (priority t)
  | col_status => Some (status t)
  | col_category => category t
  | col_created_by => created_by t
  | col_assigned_to => assigned_to t
  end.

(** One filter of the query builder: [.eq(column, value)], or
    [.or('c1.ilike.p1,c2.ilike.p2')] read as the disjunction of its
    [ilike] conditions. *)
Inductive Filter : Type :=
| Feq (c : Column) (v : string)
| For_ilike (conds : list (Column * string)).

Definition eval_filter (t : Ticket) (f : Filter) : bool :=
  match f with
  | Feq c v => sql_eq (column c t) (Some v)
  | For_ilike conds =>
      existsb (fun cp => match column (fst cp) t with
                         | Some text => ilike text (snd cp)
                         | None => false
                         end) conds
  end.

(** [supabase.from('tickets').select(...)] with the filters [fs]: the rows
    the select policy shows to [uid] that pass every filter.  The embedded
    [user] and [assignee] summaries are display data and are left out. *)
Definition tickets_rows (uid : option uuid) (fs : list Filter) (d : Db) : list Ticket :=
  filter (fun t => tickets_select_policy (users d) uid t && forallb (eval_filter t) fs)
         (tickets d).

(** The same with [.order('created_at', { ascending: false })]: newest
    first. *)
Definition tickets_select (uid : option uuid) (fs : list Filter) (d : Db) : list Ticket :=
  order_by (fun a b => created_leb (created_at b) (created_at a))
           (tickets_rows uid fs d).

(** ** useTickets: the query the hook builds *)

(** [UseTicketsProps]; [None] is [undefined]. *)
Record UseTicketsProps := mkFilters {
  f_status : option string;
  f_priority : option string;
  f_assignee : option string;
  f_search : option string
}.

(** JavaScript truthiness of an optional string. *)
Definition truthy (v : option string) : bool :=
  match v with
  | None => false
  | Some s => negb (String.eqb s "")
  end.

Definition str (v : option string) : string :=
  match v with Some s => s | None => EmptyString end.

(** The filters [fetchTickets] chains onto the query, in source order. *)
Definition fetchTickets_filters (user : option User) (filters : UseTicketsProps) : list Filter :=
  (match user with
   | Some u => if String.eqb (u_role u) "user" then [Feq col_created_by (u_id u)] else []
   | None => []
   end)
  ++ (if truthy (f_status filters) && negb (String.eqb (str (f_status filters)) "all")
      then [Feq col_status (str (f_status filters))] else [])
  ++ (if truthy (f_priority filters) && negb (String.eqb (str (f_priority filters)) "all")
      then [Feq col_priority (str (f_priority filters))] else [])
  ++ (if truthy (f_assignee filters) && negb (String.eqb (str (f_assignee filters)) "all")
      then [Feq col_assigned_to (str (f_assignee filters))] else [])
  ++ (if truthy (f_search filters)
      then [For_ilike [(col_title, ("%" ++ str (f_search filters) ++ "%")%string);
                       (col_description, ("%" ++ str (f_search filters) ++ "%")%string)]]
      else []).

(** The condition the role of the signed-in user contributes:
    [if (user?.role === 'user') query = query.eq('created_by', user.id)]. *)
Definition role_scope (user : option User) : list Filter :=
  match user with
  | Some u => if String.eqb (u_role u) "user" then [Feq col_created_by (u_id u)] else []
  | None => []
  end.

(** ** The client: hooks and handlers *)

(** [Omit<Ticket, 'id' | 'created_at' | 'updated_at'>], the argument of
    [createTicket], columns only. *)
Record TicketData := mkData {
  td_title : string;
  td_description : string;
  td_priority : string;
  td_status : string;
  td_category : string;
  td_created_by : string;
  td_assigned_to : option uuid;
  td_resolved_at : option timestamptz
}.

(** The form state of [CreateTicket]. *)
Record FormData := mkForm {
  fd_title : string;
  fd_description : string;
  fd_priority : string;
  fd_category : string
}.

(** What a call of an async function ends in: a value, or a thrown error. *)
Inductive Outcome (A : Type) : Type :=
| Returned (a : A)
| Thrown (e : string).
Arguments Returned {A} a.
Arguments Thrown {A} e.

(** One [console.error(message, error)]. *)
Definition LogEntry : Type := string * string.

(** [String.prototype.trim] on code units below 256: the white space and
    line terminators of that range. *)
Definition js_whitespace (c : ascii) : bool :=
  let n := nat_of_ascii c in
  (Nat.leb 9 n && Nat.leb n 13) || Nat.eqb n 32 || Nat.eqb n 160.

Fixpoint trim_start (s : string) : string :=
  match s with
  | EmptyString => EmptyString
  | String c s' => if js_whitespace c then trim_start s' else s
  end.

Fixpoint trim_end (s : string) : string :=
  match s with
  | EmptyString => EmptyString
  | String c s' =>
      match trim_end s' with
      | EmptyString => if js_whitespace c then EmptyString else String c EmptyString
      | r => String c r
      end
  end.

Definition trim (s : string) : string := trim_end (trim_start s).

Section Client.

(** The backend as the client sees it: each request takes the backend from
    one state to the next and answers with data or an error. *)
Variable World : Type.

Record Supabase := mkSupabase {
  sb_tickets_select : list Filter -> World -> Resp (list Ticket) * World;
  sb_tickets_insert : TicketBody -> World -> Resp Ticket * World;
  sb_tickets_update : uuid -> TicketPatch -> World -> Resp Ticket * World;
  sb_tickets_delete : uuid -> World -> Resp unit * World;
  sb_comments_select : uuid -> World -> Resp (list TicketComment) * World;
  sb_comments_insert : option uuid -> option uuid -> string -> World -> Resp unit * World
}.

Variable supabase : Supabase.

(** Backend, console and the React state of the components. *)
Record St := mkSt {
  world : World;
  console : list LogEntry;
  (* useTickets *)
  h_tickets : list Ticket;
  h_loading : bool;
  (* CreateTicket *)
  formData : FormData;
  f_loading : bool;
  success : bool;
  (* TicketModal *)
  comments : list TicketComment;
  newComment : string;
  editMode : bool;
  editData : TicketPatch;
  m_loading : bool;
  (* AppContent *)
  selectedTicket : option Ticket;
  isModalOpen : bool
}.

Definition M (A : Type) : Type := St -> Outcome A * St.

Definition ret {A : Type} (a : A) : M A := fun s => (Returned a, s).

Definition bind {A B : Type} (m : M A) (k : A -> M B) : M B :=
  fun s => match m s with
           | (Returned a, s') => k a s'
           | (Thrown e, s') => (Thrown e, s')
           end.

Definition throw {A : Type} (e : string) : M A := fun s => (Thrown e, s).

(** [try { body } catch (error) { handler }]. *)
Definition try_catch {A : Type} (body : M A) (handler : string -> M A) : M A :=
  fun s => match body s with
           | (Returned a, s') => (Returned a, s')
           | (Thrown e, s') => handler e s'
           end.

(** [try { body } finally { fin }]. *)
Definition try_finally {A : Type} (body : M A) (fin : M unit) : M A :=
  fun s => match body s with
           | (r, s') => match fin s' with
                        | (Returned _, s'') => (r, s'')
                        | (Thrown e, s'') => (Thrown e, s'')
                        end
           end.

Definition modify (f : St -> St) : M unit := fun s => (Returned tt, f s).

(** [await] a request: the backend moves on and the response comes back. *)
Definition request {A : Type} (op : World -> Resp A * World) : M (Resp A) :=
  fun s => match op (world s) with
           | (r, w) =>
               (Returned r,
                mkSt w (console s) (h_tickets s) (h_loading s) (formData s)
                     (f_loading s) (success s) (comments s) (newComment s)
                     (editMode s) (editData s) (m_loading s) (selectedTicket s)
                     (isModalOpen s))
           end.

Definition console_error (message error : string) : M unit :=
  modify (fun s =>
    mkSt (world s) (console s ++ [(message, error)]) (h_tickets s) (h_loading s)
         (formData s) (f_loading s) (success s) (comments s) (newComment s)
         (editMode s) (editData s) (m_loading s) (selectedTicket s) (isModalOpen s)).

Definition setTickets (v : list Ticket) : M unit :=
  modify (fun s =>
    mkSt (world s) (console s) v (h_loading s) (formData s) (f_loading s)
         (success s) (comments s) (newComment s) (editMode s) (editData s)
         (m_loading s) (selectedTicket s) (isModalOpen s)).

Definition setLoading (v : bool) : M unit :=
  modify (fun s =>
    mkSt (world s) (console s) (h_tickets s) v (formData s) (f_loading s)
         (success s) (comments s) (newComment s) (editMode s) (editData s)
         (m_loading s) (selectedTicket s) (isModalOpen s)).

Definition setFormData (v : FormData) : M unit :=
  modify (fun s =>
    mkSt (world s) (console s) (h_tickets s) (h_loading s) v (f_loading s)
         (success s) (comments s) (newComment s) (editMode s) (editData s)
         (m_loading s) (selectedTicket s) (isModalOpen s)).

Definition setFormLoading (v : bool) : M unit :=
  modify (fun s =>
    mkSt (world s) (console s) (h_tickets s) (h_loading s) (formData s) v
         (success s) (comments s) (newComment s) (editMode s) (editData s)
         (m_loading s) (selectedTicket s) (isModalOpen s)).

Definition setSuccess (v : bool) : M unit :=
  modify (fun s =>
    mkSt (world s) (console s) (h_tickets s) (h_loading s) (formData s)
         (f_loading s) v (comments s) (newComment s) (editMode s) (editData s)
         (m_loading s) (selectedTicket s) (isModalOpen s)).

Definition setComments (v : list TicketComment) : M unit :=
  modify (fun s =>
    mkSt (world s) (console s) (h_tickets s) (h_loading s) (formData s)
         (f_loading s) (success s) v (newComment s) (editMode s) (editData s)
         (m_loading s) (selectedTicket s) (isModalOpen s)).

Definition setNewComment (v : string) : M unit :=
  modify (fun s =>
    mkSt (world s) (console s) (h_tickets s) (h_loading s) (formData s)
         (f_loading s) (success s) (comments s) v (editMode s) (editData s)
         (m_loading s) (selectedTicket s) (isModalOpen s)).

Definition setEditMode (v : bool) : M unit :=
  modify (fun s =>
    mkSt (world s) (console s) (h_tickets s) (h_loading s) (formData s)
         (f_loading s) (success s) (comments s) (newComment s) v (editData s)
         (m_loading s) (selectedTicket s) (isModalOpen s)).

Definition setModalLoading (v : bool) : M unit :=
  modify (fun s =>
    mkSt (world s) (console s) (h_tickets s) (h_loading s) (formData s)
         (f_loading s) (success s) (comments s) (newComment s) (editMode s)
         (editData s) v (selectedTicket s) (isModalOpen s)).

Definition setSelectedTicket (v : option Ticket) : M unit :=
  modify (fun s =>
    mkSt (world s) (console s) (h_tickets s) (h_loading s) (formData s)
         (f_loading s) (success s) (comments s) (newComment s) (editMode s)
         (editData s) (m_loading s) v (isModalOpen s)).

Definition setIsModalOpen (v : bool) : M unit :=
  modify (fun s =>
    mkSt (world s) (console s) (h_tickets s) (h_loading s) (formData s)
         (f_loading s) (success s) (comments s) (newComment s) (editMode s)
         (editData s) (m_loading s) (selectedTicket s) v).

Definition get : M St := fun s => (Returned s, s).

Notation "x <- m ;; k" := (bind m (fun x => k))
(at level 61, m at next level, right associativity).
Notation "m ;;; k" := (bind m (fun _ => k))
(at level 61, right associativity).

(** *** hooks/useTickets.ts *)

(** [fetchTickets]: a failed fetch is logged and the list is left as it
  was. *)
Definition fetchTickets (user : option User) (filters : UseTicketsProps) : M unit :=
try_finally
  (try_catch
     (resp <- request (sb_tickets_select supabase (fetchTickets_filters user filters)) ;;
      match resp with
      | Err error => throw error
      | Ok data => setTickets data
      end)
     (fun error => console_error "Error fetching tickets:" error))
  (setLoading false).

(** [{ ...ticketData, created_by: user?.id }]: the caller's id replaces the
  creator of the argument; with no user the key is undefined and is
  dropped from the body. *)
Definition insert_body (ticketData : TicketData) (user : option User) : TicketBody :=
mkBody (Some (td_title ticketData)) (Some (td_description ticketData))
       (Some (td_priority ticketData)) (Some (td_status ticketData))
       (Some (td_category ticketData))
       (option_map u_id user)
       (td_assigned_to ticketData) (td_resolved_at ticketData).

Definition createTicket (user : option User) (filters : UseTicketsProps)
  (ticketData : TicketData) : M Ticket :=
try_catch
  (resp <- request (sb_tickets_insert supabase (insert_body ticketData user)) ;;
   match resp with
   | Err error => throw error
   | Ok data => fetchTickets user filters ;;; ret data
   end)
  (fun error => console_error "Error creating ticket:" error ;;; throw error).

Definition updateTicket (user : option User) (filters : UseTicketsProps)
  (i : uuid) (updates : TicketPatch) : M Ticket :=
try_catch
  (resp <- request (sb_tickets_update supabase i updates) ;;
   match resp with
   | Err error => throw error
   | Ok data => fetchTickets user filters ;;; ret data
   end)
  (fun error => console_error "Error updating ticket:" error ;;; throw error).

Definition deleteTicket (user : option User) (filters : UseTicketsProps)
  (i : uuid) : M unit :=
try_catch
  (resp <- request (sb_tickets_delete supabase i) ;;
   match resp with
   | Err error => throw error
   | Ok _ => fetchTickets user filters
   end)
  (fun error => console_error "Error deleting ticket:" error ;;; throw error).

(** *** components/CreateTicket.tsx *)

(** [useTickets()] without filters. *)
Definition no_filters : UseTicketsProps := mkFilters None None None None.

Definition empty_form : FormData := mkForm "" "" "medium" "".

(** The argument [handleSubmit] passes: [{ ...formData, status: 'open',
  created_by: '', assigned_to: null }]. *)
Definition form_ticket (fd : FormData) : TicketData :=
mkData (fd_title fd) (fd_description fd) (fd_priority fd) "open" (fd_category fd)
       "" None None.

(** [handleSubmit]; the timer that clears [success] after three seconds is
  left out. *)
Definition handleSubmit (user : option User) : M unit :=
setFormLoading true ;;;
try_finally
  (try_catch
     (s <- get ;;
      createTicket user no_filters (form_ticket (formData s)) ;;;
      setFormData empty_form ;;;
      setSuccess true)
     (fun error => console_error "Error creating ticket:" error))
  (setFormLoading false).

(** *** components/TicketModal.tsx and App.tsx *)

Definition fetchComments (ticket : option Ticket) : M unit :=
match ticket with
| None => ret tt
| Some t =>
    try_catch
      (resp <- request (sb_comments_select supabase (id t)) ;;
       match resp with
       | Err error => throw error
       | Ok data => setComments data
       end)
      (fun error => console_error "Error fetching comments:" error)
end.

(** [addComment]: [if (!ticket || !newComment.trim()) return;] then the
  insert, whose error is caught and logged. *)
Definition addComment (user : option User) (ticket : option Ticket) : M unit :=
s <- get ;;
match ticket with
| None => ret tt
| Some t =>
    if String.eqb (trim (newComment s)) "" then ret tt
    else
      try_catch
        (resp <- request (sb_comments_insert supabase (Some (id t))
                            (option_map u_id user) (newComment s)) ;;
         match resp with
         | Err error => throw error
         | Ok _ => setNewComment "" ;;; fetchComments ticket
         end)
        (fun error => console_error "Error adding comment:" error)
end.

(** [handleTicketUpdate] of [AppContent], the modal's [onUpdate]. *)
Definition handleTicketUpdate (user : option User) (i : uuid) (updates : TicketPatch) : M unit :=
updateTicket user no_filters i updates ;;;
setIsModalOpen false ;;;
setSelectedTicket None.

Definition handleUpdate (user : option User) (ticket : option Ticket) : M unit :=
match ticket with
| None => ret tt
| Some t =>
    setModalLoading true ;;;
    try_finally
      (try_catch
         (s <- get ;;
          handleTicketUpdate user (id t) (editData s) ;;;
          setEditMode false)
         (fun error => console_error "Error updating ticket:" error))
      (setModalLoading false)
end.

End Client.

Arguments world {World} s.
Arguments console {World} s.
Arguments h_tickets {World} s.
Arguments h_loading {World} s.
Arguments formData {World} s.
Arguments f_loading {World} s.
Arguments success {World} s.
Arguments comments {World} s.
Arguments newComment {World} s.
Arguments editMode {World} s.
Arguments editData {World} s.
Arguments m_loading {World} s.
Arguments selectedTicket {World} s.
Arguments isModalOpen {World} s.
Arguments mkSt {World}.
Arguments mkSupabase {World}.
Arguments sb_tickets_select {World} s.
Arguments sb_tickets_insert {World} s.
Arguments sb_tickets_update {World} s.
Arguments sb_tickets_delete {World} s.
Arguments sb_comments_select {World} s.
Arguments sb_comments_insert {World} s.

(** ** The backend of the migration behind the client *)

(** The database, the session of the caller ([auth.uid()]) and the two
    sources of fresh values, [now()] and [gen_random_uuid()], indexed by the
    number of requests served so far. *)
Record PgWorld := mkWorld {
  pg_db : Db;
  pg_uid : option uuid;
  pg_clock : nat -> timestamptz;
  pg_uuid : nat -> uuid;
  pg_tick : nat
}.

Definition pg_next (w : PgWorld) (d : Db) : PgWorld :=
  mkWorld d (pg_uid w) (pg_clock w) (pg_uuid w) (S (pg_tick w)).

Definition pg_now (w : PgWorld) : timestamptz := pg_clock w (pg_tick w).

Definition pg_new_id (w : PgWorld) : uuid := pg_uuid w (pg_tick w).

Definition pg_answer {A : Type} (w : PgWorld) (r : Resp A * Db) : Resp A * PgWorld :=
  (fst r, pg_next w (snd r)).

Definition postgres : Supabase PgWorld :=
  mkSupabase
    (fun fs w => (Ok (tickets_select (pg_uid w) fs (pg_db w)), pg_next w (pg_db w)))
    (fun b w => pg_answer w (tickets_insert (pg_uid w) (pg_new_id w) (pg_now w) b (pg_db w)))
    (fun i p w => pg_answer w (tickets_update (pg_uid w) (pg_now w) i p (pg_db w)))
    (fun i w => pg_answer w (tickets_delete (pg_uid w) i (pg_db w)))
    (fun i w => (Ok (comments_select (pg_uid w) i (pg_db w)), pg_next w (pg_db w)))
    (fun tid author body w =>
       pg_answer w (comments_insert (pg_uid w) (pg_new_id w) (pg_now w) tid author body (pg_db w))).

(** The state of a freshly mounted client: the initial values of every
    [useState]. *)
Definition initial_state {World : Type} (w : World) : St World :=
  mkSt w [] [] true empty_form false false [] "" false no_patch false None false.

Fixpoint fresh_id (n : nat) : uuid :=
  match n with
  | O => "new"
  | S k => String "+" (fresh_id k)
  end.

(** ** components/Dashboard.tsx *)

(** JavaScript numbers: binary64. *)
Definition number : Type := spec_float.

Definition prec : Z := 53.
Definition emax : Z := 1024.

(** The number an integer literal or a length denotes. *)
Definition num (z : Z) : number := binary_normalize prec emax z 0 false.

Definition js_add : number -> number -> number := SFadd prec emax.
Definition js_sub : number -> number -> number := SFsub prec emax.
Definition js_mul : number -> number -> number := SFmul prec emax.
Definition js_div : number -> number -> number := SFdiv prec emax.


(** [new Date(column).getTime()]: the milliseconds of a timestamp; [null]
    reads as the epoch. *)
Definition getTime (v : option timestamptz) : number :=
  match v with Some ms => num ms | None => num 0 end.

(** The scalar fields of [DashboardStats]. *)
Record DashboardStats := mkStats {
  totalTickets : nat;
  openTickets : nat;
  inProgressTickets : nat;
  resolvedTickets : nat;
  avgResolutionTime : number
}.

Definition has_status (s : string) (t : Ticket) : bool := String.eqb (status t) s.

(** [t.status === 'resolved' || t.status === 'closed']. *)
Definition resolved_or_closed (t : Ticket) : bool :=
  has_status "resolved" t || has_status "closed" t.

(** [tickets?.filter(p).length || 0] and [tickets?.length || 0]; [None] is a
    null [data]. *)
Definition length_or_0 (p : Ticket -> bool) (data : option (list Ticket)) : nat :=
  match data with
  | Some ts =>
      if Nat.eqb (List.length (filter p ts)) 0 then 0%nat else List.length (filter p ts)
  | None => 0%nat
  end.

(** The filter of [resolvedTicketsWithTime]. *)
Definition resolved_with_time (t : Ticket) : bool :=
  resolved_or_closed t && negb (is_null (resolved_at t)).

(** [(1000 * 60 * 60 * 24)]. *)
Definition ms_per_day : number :=
  js_mul (js_mul (js_mul (num 1000) (num 60)) (num 60)) (num 24).

(** The statistics [fetchDashboardData] computes from the fetched rows. *)
Definition dashboard_stats (data : option (list Ticket)) : DashboardStats :=
  let resolvedTicketsWithTime :=
    match data with Some ts => filter resolved_with_time ts | None => [] end in
  mkStats
    (length_or_0 (fun _ => true) data)
    (length_or_0 (has_status "open") data)
    (length_or_0 (has_status "in_progress") data)
    (length_or_0 resolved_or_closed data)
    (if Nat.ltb 0 (List.length resolvedTicketsWithTime)
     then js_div
            (js_div
               (fold_left
                  (fun sum ticket =>
                     let created := getTime (created_at ticket) in
                     let resolved := getTime (resolved_at ticket) in
                     js_add sum (js_sub resolved created))
                  resolvedTicketsWithTime (num 0))
               (num (Z.of_nat (List.length resolvedTicketsWithTime))))
            ms_per_day
     else num 0).



(** ** The seed data of the migration *)

Definition admin_id : uuid := "550e8400-e29b-41d4-a716-446655440001".
Definition user_id : uuid := "550e8400-e29b-41d4-a716-446655440002".

Definition demo_admin : User :=
  mkUser admin_id "admin@demo.com" "Admin User" "admin" None (Some 0).

Definition demo_user : User :=
  mkUser user_id "user@demo.com" "Regular User" "user" None (Some 0).

Definition demo_users : list User := [demo_admin; demo_user].

Definition demo_bodies : list TicketBody :=
  [ mkBody (Some "Computer won't start")
           (Some "My computer suddenly stopped working this morning. When I press the power button, nothing happens at all. No lights, no fan noise, nothing.")
           (Some "high") (Some "open") (Some "Hardware")
           (Some user_id) (Some admin_id) None;
    mkBody (Some "Can't access email")
           (Some "I'm unable to log into my email account. It keeps saying my password is incorrect, but I'm sure it's right.")
           (Some "medium") (Some "in_progress") (Some "Email")
           (Some user_id) (Some admin_id) None;
    mkBody (Some "Software installation help")
           (Some "I need help installing the new accounting software on my machine. I have the installer but I'm not sure about the configuration steps.")
           (Some "low") (Some "resolved") (Some "Software")
           (Some user_id) (Some admin_id) None ].

(** The rows the seed [INSERT] leaves, for given keys and [now()]. *)
Definition seed_rows (ids : list uuid) (now : timestamptz) : list Ticket :=
  flat_map (fun bi => match insert_row (fst bi) (snd bi) now with
                      | Some t => [t]
                      | None => []
                      end)
           (combine demo_bodies ids).

Definition demo_db : Db :=
  mkDb demo_users (seed_rows ["t1"; "t2"; "t3"]%string 1000) [].

(** The seed database with [uid] signed in, the clock at 2000. *)
Definition demo_world (uid : option uuid) : PgWorld :=
  mkWorld demo_db uid (fun n => 2000 + Z.of_nat n) fresh_id 0.

(** The third seed ticket: status 'resolved' from the start. *)
Definition demo_resolved : Ticket :=
  mkTicket "t3" "Software installation help"
           "I need help installing the new accounting software on my machine. I have the installer but I'm not sure about the configuration steps."
           "low" "resolved" (Some "Software"%string) (Some user_id) (Some admin_id)
           (Some 1000) (Some 1000) None.

(** The first seed ticket: status 'open'. *)
Definition demo_open : Ticket :=
  mkTicket "t1" "Computer won't start"
           "My computer suddenly stopped working this morning. When I press the power button, nothing happens at all. No lights, no fan noise, nothing."
           "high" "open" (Some "Hardware"%string) (Some user_id) (Some admin_id)
           (Some 1000) (Some 1000) None.


(** The first seed ticket resolved by the administrator at 2000 and
    reopened at 3000, and the same ticket closed two days after its
    creation. *)
Definition demo_reopened : Ticket :=
  update_row (patch_status "open") 3000
             (update_row (patch_status "resolved") 2000 demo_open).

Definition demo_closed : Ticket :=
  update_row (patch_status "closed") 172801000 demo_open.

(** A client whose session has expired at the backend, with a comment
    typed into the modal of the first seed ticket. *)
Definition comment_state : St PgWorld :=
  mkSt (demo_world None) [] [] false empty_form false false [] "hello" false
       no_patch false (Some demo_open) true.

(** A record for [createTicket] that names another creator, a final status
    and a resolution time. *)
Definition resolved_data : TicketData :=
  mkData "Printer jam" "Paper stuck in tray 2" "low" "resolved" "Printer" admin_id
         None (Some 5).

(** The record of the scenario of the specification, as the form builds
    it. *)
Definition printer_form : FormData := mkForm "Printer jam" "..." "low" "Printer".

(** A comment body that is empty or white space only. *)
Fixpoint blank (s : string) : bool :=
  match s with
  | EmptyString => true
  | String c s' => js_whitespace c && blank s'
  end.

(** ** The dashboard figures in the words of the specification *)





(** The mean of a list of durations in milliseconds, converted to days; 0
    for the empty list. *)
Definition mean_days (ds : list number) : number :=
  match ds with
  | [] => num 0
  | _ :: _ =>
      js_div (js_div (fold_left js_add ds (num 0)) (num (Z.of_nat (List.length ds))))
             (num 86400000)
  end.

(** [resolved_at - created_at] of the tickets that have both set. *)
Definition timed_durations (ts : list Ticket) : list number :=
  flat_map (fun t => match created_at t, resolved_at t with
                     | Some c, Some r => [js_sub (num r) (num c)]
                     | _, _ => []
                     end) ts.

(** Average resolution time as the specification words it: over the
    tickets that have both [created_at] and [resolved_at] set. *)
Definition spec_avg_resolution_time (ts : list Ticket) : number :=
  mean_days (timed_durations ts).

(** The durations of the tickets the dashboard does average over: those
    among the former whose status is resolved or closed. *)
Definition resolved_durations (ts : list Ticket) : list number :=
  timed_durations (filter resolved_or_closed ts).

(** ** Search in the words of the specification *)

(** [s] occurs in [t]. *)
Definition substring_of (s t : string) : Prop :=
  exists pre post : string, t = (pre ++ s ++ post)%string.

(** [s] occurs in [t], letter case aside. *)
Definition ci_substring (s t : string) : Prop :=
  substring_of (lower s) (lower t).

(** The characters PostgREST reserves in the argument of [.or(...)]: comma,
    period, colon, parentheses and the double quote.  The reading of the
    search condition as two [ilike] conditions ([fetchTickets_filters]) is
    that of a search string free of them. *)
Definition or_reserved (c : ascii) : bool :=
  Ascii.eqb c "," || Ascii.eqb c "." || Ascii.eqb c ":" || Ascii.eqb c "("
  || Ascii.eqb c ")" || Ascii.eqb c (ascii_of_nat 34).

(** The characters with a meaning of their own in the search condition. *)
Definition special (c : ascii) : bool :=
  is_percent c || is_underscore c || is_escape c || or_reserved c.

(** No character of [s] is special. *)
Fixpoint plain (s : string) : bool :=
  match s with
  | EmptyString => true
  | String c s' => negb (special c) && plain s'
  end.

Definition prefixb : string -> string -> bool :=
  fix go (s t : string) : bool :=
    match s, t with
    | EmptyString, _ => true
    | String _ _, EmptyString => false
    | String a s', String b t' => Ascii.eqb a b && go s' t'
    end.

(** Decides [substring_of]. *)
Fixpoint containsb (s t : string) : bool :=
  prefixb s t
  || match t with
     | EmptyString => false
     | String _ t' => containsb s t'
     end.

(** [filters'] is [filters] with some of its values emptied or left out. *)
Definition relaxed (v' v : option string) : Prop :=
  truthy v' = false \/ v' = v.

Definition relaxes (filters' filters : UseTicketsProps) : Prop :=
  relaxed (f_status filters') (f_status filters)
  /\ relaxed (f_priority filters') (f_priority filters)
  /\ relaxed (f_assignee filters') (f_assignee filters)
  /\ relaxed (f_search filters') (f_search filters).

From Stdlib Require Import Permutation.

(** ** The users table and AuthContext.tsx *)

(** "Users can read own data": [USING (auth.uid() = id)]. *)
Definition users_select_policy (uid : option uuid) (u : User) : bool :=
  sql_eq uid (Some (u_id u)).

(** The policies of the migration [FOR INSERT] on [users]: there is none.
    With row level security enabled a row is accepted when one of the
    permissive policies of the command accepts it. *)
Definition users_insert_policies : list (option uuid -> User -> bool) := [].

(** [supabase.from('users').insert([row])]: the policies first, then
    [CHECK (role IN ('user', 'admin'))], the key and [email UNIQUE]. *)
Definition users_insert (uid : option uuid) (u : User) (d : Db) : Resp unit * Db :=
  if negb (existsb (fun policy => policy uid u) users_insert_policies)
  then (Err "42501 row-level security policy", d)
  else if negb (String.eqb (u_role u) "user" || String.eqb (u_role u) "admin")
  then (Err "23514 check_violation", d)
  else if existsb (fun u' => String.eqb (u_id u') (u_id u)
                             || String.eqb (u_email u') (u_email u)) (users d)
  then (Err "23505 unique_violation", d)
  else (Ok tt, mkDb (users d ++ [u]) (tickets d) (ticket_comments d)).

(** [supabase.from('users').select('*')] with one more condition on the
    rows. *)
Definition users_select (uid : option uuid) (cond : User -> bool) (d : Db) : list User :=
  filter (fun u => users_select_policy uid u && cond u) (users d).

(** The rows [fetchAdmins] of the ticket modal asks for:
    [.eq('role', 'admin')]. *)
Definition fetchAdmins_rows (uid : option uuid) (d : Db) : list User :=
  users_select uid (fun u => String.eqb (u_role u) "admin") d.

(** The state of [AuthProvider]. *)
Record AuthState := mkAuth {
  auth_user : option User;
  auth_loading : bool;
  auth_console : list LogEntry
}.

(** [fetchUserProfile(userId)]: [.eq('id', userId).single()], then
    [setUser(data)]; an error is logged; [setLoading(false)] in any case. *)
Definition fetchUserProfile (uid : option uuid) (d : Db) (userId : uuid)
    (a : AuthState) : AuthState :=
  match users_select uid (fun u => String.eqb (u_id u) userId) d with
  | [data] => mkAuth (Some data) false (auth_console a)
  | _ =>
      mkAuth (auth_user a) false
             (auth_console a
              ++ [("Error fetching user profile:", "PGRST116 not a single row")])
  end.

(** The callback of [onAuthStateChange]: [session] is the id of the
    session's user, which is also what [auth.uid()] answers. *)
Definition onAuthStateChange (session : option uuid) (d : Db) (a : AuthState) : AuthState :=
  match session with
  | Some userId => fetchUserProfile session d userId a
  | None => mkAuth None false (auth_console a)
  end.

(** What [supabase.auth.signUp] hands back in [data.user]. *)
Record AuthUser := mkAuthUser {
  au_id : uuid;
  au_email : string
}.

(** [signUp]: [auth] is the answer of [supabase.auth.signUp], [uid] the
    session the profile insert runs under. *)
Definition signUp (auth : Resp (option AuthUser)) (uid : option uuid)
    (fullName : string) (now : timestamptz) (d : Db) : Outcome unit * Db :=
  match auth with
  | Err error => (Thrown error, d)
  | Ok None => (Returned tt, d)
  | Ok (Some user) =>
      match users_insert uid
              (mkUser (au_id user) (au_email user) fullName "user" None (Some now)) d with
      | (Err profileError, d') => (Thrown profileError, d')
      | (Ok _, d') => (Returned tt, d')
      end
  end.

(** ** App.tsx *)

(** What [AppContent] renders. *)
Inductive View : Type :=
| Spinner
| AuthFormView
| TicketListView
| CreateTicketView
| DashboardView
| UsersManagementView.

(** [renderContent], the [switch (activeTab)]. *)
Definition renderContent (user : User) (activeTab : string) : View :=
  if String.eqb activeTab "tickets" then TicketListView
  else if String.eqb activeTab "create" then CreateTicketView
  else if String.eqb activeTab "dashboard" then
    if String.eqb (u_role user) "admin" then DashboardView else TicketListView
  else if String.eqb activeTab "users" then
    if String.eqb (u_role user) "admin" then UsersManagementView else TicketListView
  else TicketListView.

(** [AppContent]: the spinner while the profile loads, the sign-in form
    without a user, the tab otherwise. *)
Definition AppContent (a : AuthState) (activeTab : string) : View :=
  if auth_loading a then Spinner
  else match auth_user a with
       | None => AuthFormView
       | Some user => renderContent user activeTab
       end.

(** ** TicketModal.tsx: the edit form *)

(** [setEditData({ status, priority, assigned_to })] of the effect that runs
    when the modal receives a ticket. *)
Definition initial_editData (ticket : Ticket) : TicketPatch :=
  mkPatch None None None (Some (priority ticket)) (Some (status ticket)) None None
          (Some (assigned_to ticket)) None None None.

(** The [onChange] handlers of the three selects, each
    [setEditData({ ...editData, field: value })]; the assignee select sends
    [e.target.value || null]. *)
Definition change_status (v : string) (e : TicketPatch) : TicketPatch :=
  mkPatch (p_id e) (p_title e) (p_description e) (p_priority e) (Some v) (p_category e)
          (p_created_by e) (p_assigned_to e) (p_created_at e) (p_updated_at e)
          (p_resolved_at e).

Definition change_priority (v : string) (e : TicketPatch) : TicketPatch :=
  mkPatch (p_id e) (p_title e) (p_description e) (Some v) (p_status e) (p_category e)
          (p_created_by e) (p_assigned_to e) (p_created_at e) (p_updated_at e)
          (p_resolved_at e).

Definition change_assignee (v : string) (e : TicketPatch) : TicketPatch :=
  mkPatch (p_id e) (p_title e) (p_description e) (p_priority e) (p_status e)
          (p_category e)
          (p_created_by e)
          (Some (if String.eqb v "" then None else Some v))
          (p_created_at e) (p_updated_at e) (p_resolved_at e).

(** One use of a select of the edit form. *)
Inductive Edit : Type :=
| EditStatus (v : string)
| EditPriority (v : string)
| EditAssignee (v : string).

Definition apply_edit (e : TicketPatch) (c : Edit) : TicketPatch :=
  match c with
  | EditStatus v => change_status v e
  | EditPriority v => change_priority v e
  | EditAssignee v => change_assignee v e
  end.

(** The [editData] of the modal of [ticket] after the edits [cs]. *)
Definition edited (ticket : Ticket) (cs : list Edit) : TicketPatch :=
  fold_left apply_edit cs (initial_editData ticket).

(** ** Dashboard.tsx: the groupings *)

(** A [Record<string, number>] built by [acc[key] = (acc[key] || 0) + 1]:
    the keys in the order they were first written, each with its count.
    The reading is that of keys which are not property names of
    [Object.prototype] ([own_key]). *)
Definition Counts : Type := list (string * nat).

Fixpoint bump (key : string) (acc : Counts) : Counts :=
  match acc with
  | [] => [(key, 1%nat)]
  | (k, n) :: rest =>
      if String.eqb k key then (k, S n) :: rest else (k, n) :: bump key rest
  end.

(** [acc[key]], 0 standing for [undefined]. *)
Fixpoint count_of (key : string) (acc : Counts) : nat :=
  match acc with
  | [] => 0%nat
  | (k, n) :: rest => if String.eqb k key then n else count_of key rest
  end.

(** The sum of the counts. *)
Fixpoint total_count (acc : Counts) : nat :=
  match acc with
  | [] => 0%nat
  | (_, n) :: rest => (n + total_count rest)%nat
  end.

Definition own_key (key : string) : bool :=
  negb (existsb (String.eqb key)
          ["constructor"; "toString"; "toLocaleString"; "valueOf"; "hasOwnProperty";
           "isPrototypeOf"; "propertyIsEnumerable"; "__proto__"; "__defineGetter__";
           "__defineSetter__"; "__lookupGetter__"; "__lookupSetter__"]).

(** [tickets?.reduce((acc, ticket) => { acc[ticket.priority] = ...;
    return acc; }, {}) || {}]. *)
Definition ticketsByPriority (data : option (list Ticket)) : Counts :=
  match data with
  | Some ts => fold_left (fun acc ticket => bump (priority ticket) acc) ts []
  | None => []
  end.

(** [ticket.category || 'Uncategorized']. *)
Definition category_or_default (ticket : Ticket) : string :=
  match category ticket with
  | Some c => if String.eqb c "" then "Uncategorized" else c
  | None => "Uncategorized"
  end.

Definition ticketsByCategory (data : option (list Ticket)) : Counts :=
  match data with
  | Some ts => fold_left (fun acc ticket => bump (category_or_default ticket) acc) ts []
  | None => []
  end.

(** The categories the component lists, from the entries of
    [stats.ticketsByCategory]: [.sort(([,a], [,b]) => b - a).slice(0, 6)],
    the sort being stable. *)
Definition top_categories (entries : Counts) : Counts :=
  firstn 6 (order_by (fun a b => Nat.leb (snd b) (snd a)) entries).

(** "Active Tickets": [stats.openTickets + stats.inProgressTickets]. *)
Definition activeTickets (stats : DashboardStats) : nat :=
  (openTickets stats + inProgressTickets stats)%nat.

(** The number of tickets with a given priority, and with a given category
    label. *)
Definition with_priority (p : string) (ts : list Ticket) : nat :=
  List.length (filter (fun t => String.eqb (priority t) p) ts).

Definition with_category (c : string) (ts : list Ticket) : nat :=
  List.length (filter (fun t => String.eqb (category_or_default t) c) ts).

(** The tickets the category chart files under 'Uncategorized'. *)
Definition uncategorized (t : Ticket) : bool :=
  match category t with
  | None => true
  | Some c => String.eqb c "" || String.eqb c "Uncategorized"
  end.

(** ** Invariants of the database *)

(** What the constraints of the schema promise of the ticket and comment
    tables: the keys are unique, the [CHECK]s hold, and every reference
    names an existing row. *)
Definition ticket_ok (d : Db) (t : Ticket) : Prop :=
  priority_check (priority t) = true
  /\ status_check (status t) = true
  /\ references_user (users d) (created_by t) = true
  /\ references_user (users d) (assigned_to t) = true.

Definition comment_ok (d : Db) (c : TicketComment) : Prop :=
  (match c_ticket_id c with
   | Some i => existsb (fun t => String.eqb (id t) i) (tickets d)
   | None => true
   end) = true
  /\ references_user (users d) (c_user_id c) = true.

Definition db_ok (d : Db) : Prop :=
  NoDup (map id (tickets d))
  /\ Forall (ticket_ok d) (tickets d)
  /\ Forall (comment_ok d) (ticket_comments d).

(** One request of a client on the ticket and comment tables, whoever
    sends it and whatever it answers. *)
Inductive db_step : Db -> Db -> Prop :=
| step_insert : forall uid new_id now b d,
    db_step d (snd (tickets_insert uid new_id now b d))
| step_update : forall uid now i p d,
    db_step d (snd (tickets_update uid now i p d))
| step_delete : forall uid i d,
    db_step d (snd (tickets_delete uid i d))
| step_comment : forall uid new_id now tid author body d,
    db_step d (snd (comments_insert uid new_id now tid author body d)).

Inductive db_steps : Db -> Db -> Prop :=
| steps_refl : forall d, db_steps d d
| steps_more : forall d d' d'', db_step d d' -> db_steps d' d'' -> db_steps d d''.

(** Lists in the order of [created_at]: newest first, NULLs first, and
    oldest first, NULLs last. *)
Fixpoint sorted_by {A : Type} (le : A -> A -> bool) (l : list A) : Prop :=
  match l with
  | [] => True
  | x :: rest => Forall (fun y => le x y = true) rest /\ sorted_by le rest
  end.

(** * Properties *)

(** ** The update trigger *)

Lemma update_row_updated_at (p : TicketPatch) (now : timestamptz) (OLD : Ticket) :
  updated_at (update_row p now OLD) = Some now.
Proof.
  unfold update_row, update_updated_at_column.
  destruct (negb _ && _ && _); reflexivity.
Qed.

Lemma update_row_status (p : TicketPatch) (now : timestamptz) (OLD : Ticket) :
  status (update_row p now OLD) = set_col (p_status p) (status OLD).
Proof.
  unfold update_row, update_updated_at_column.
  destruct (negb _ && _ && _); reflexivity.
Qed.

(** What an update leaves in [resolved_at]: the trigger's [now()] on a
    transition into resolved or closed from a row whose stamp is NULL, and
    otherwise whatever the [SET] list proposes. *)
Lemma update_row_resolved_at (p : TicketPatch) (now : timestamptz) (OLD : Ticket) :
  resolved_at (update_row p now OLD) =
  if enters_resolved (status OLD) (set_col (p_status p) (status OLD))
     && is_null (resolved_at OLD)
  then Some now
  else set_col (p_resolved_at p) (resolved_at OLD).
Proof.
  unfold update_row, update_updated_at_column, enters_resolved. cbn.
  destruct (negb _ && _ && _); reflexivity.
Qed.

Lemma ticket_update_row (us : list User) (uid : option uuid) (p : TicketPatch)
    (now : timestamptz) (OLD NEW : Ticket) :
  ticket_update us uid p now OLD = Some NEW -> NEW = update_row p now OLD.
Proof.
  unfold ticket_update.
  destruct (tickets_update_policy us uid OLD); [|discriminate].
  destruct (_ && _); [|discriminate].
  intros H. injection H as <-. reflexivity.
Qed.

(** Once set, the stamp survives every update that does not assign it. *)
Lemma resolved_at_kept (us : list User) (t : Ticket) (ups : list Update) (t' : Ticket) :
  updates us t ups t' ->
  forall r, resolved_at t = Some r ->
  Forall (fun u => p_resolved_at (upd_set u) = None) ups ->
  resolved_at t' = Some r.
Proof.
  induction 1 as [t | t u t' ups t'' Hstep _ IH]; intros r Hr Hall.
  - exact Hr.
  - inversion Hall as [| ? ? Hu Hrest]; subst.
    apply IH; [|exact Hrest].
    rewrite (ticket_update_row _ _ _ _ _ _ Hstep), update_row_resolved_at.
    rewrite Hr, Hu. cbn. rewrite andb_false_r. reflexivity.
Qed.

(** C1 (amended).  For a ticket created with a NULL [resolved_at] and any
    sequence of successful updates none of which assigns [resolved_at]
    itself, [resolved_at] is NULL until the first update whose status
    transitions into resolved or closed, is the [now()] of that update from
    then on, and is not altered by any later update of the sequence. *)
Theorem resolved_at_first_resolution (us : list User) (t : Ticket)
    (ups : list Update) (t' : Ticket) :
  resolved_at t = None ->
  Forall (fun u => p_resolved_at (upd_set u) = None) ups ->
  updates us t ups t' ->
  resolved_at t' = first_resolution (status t) ups.
Proof.
  intros Hnull Hall Hrun. revert Hnull Hall.
  induction Hrun as [t | t u t' ups t'' Hstep Hrest IH]; intros Hnull Hall.
  - exact Hnull.
  - inversion Hall as [| ? ? Hu Hall']; subst.
    pose proof (ticket_update_row _ _ _ _ _ _ Hstep) as Ht'.
    assert (Hres := update_row_resolved_at (upd_set u) (upd_now u) t).
    assert (Hst := update_row_status (upd_set u) (upd_now u) t).
    rewrite <- Ht' in Hres, Hst.
    rewrite Hnull, Hu in Hres. cbn in Hres. rewrite andb_true_r in Hres.
    cbn [first_resolution].
    destruct (enters_resolved (status t) (set_col (p_status (upd_set u)) (status t))).
    + exact (resolved_at_kept _ _ _ _ Hrest _ Hres Hall').
    + rewrite <- Hst. apply IH; assumption.
Qed.

(** C2.  Every successful update of a ticket row, whatever its [SET] list
    and whoever issues it, leaves [updated_at] at the [now()] of the update:
    the trigger runs before the row is written, on every [UPDATE]. *)
Theorem updated_at_refreshed (us : list User) (uid : option uuid) (p : TicketPatch)
    (now : timestamptz) (OLD NEW : Ticket) :
  ticket_update us uid p now OLD = Some NEW ->
  updated_at NEW = Some now.
Proof.
  intros Hup. rewrite (ticket_update_row _ _ _ _ _ _ Hup).
  apply update_row_updated_at.
Qed.

(** The same through the request of [updateTicket]: the row returned and the
    row stored both carry the new [updated_at]. *)
Lemma tickets_update_updated_at (uid : option uuid) (now : timestamptz) (i : uuid)
    (p : TicketPatch) (d : Db) (NEW : Ticket) (d' : Db) :
  tickets_update uid now i p d = (Ok NEW, d') ->
  updated_at NEW = Some now
  /\ forall t, In t (tickets d') -> id t = i -> updated_at t = Some now.
Proof.
  unfold tickets_update.
  destruct (empty_patch p); [discriminate|].
  destruct (filter _ (tickets d)) as [| OLD [| ? ?]]; try discriminate.
  destruct (ticket_update (users d) uid p now OLD) as [N |] eqn:Hup; [|discriminate].
  destruct (key_constraints d i N); [|discriminate].
  intros H. injection H as <- <-.
  assert (HN : updated_at N = Some now).
  { rewrite (ticket_update_row _ _ _ _ _ _ Hup). apply update_row_updated_at. }
  split; [exact HN|].
  cbn. intros t Hin Hid. apply in_map_iff in Hin as [t0 [Ht0 _]].
  destruct (String.eqb (id t0) i) eqn:E.
  - subst t. exact HN.
  - subst t. apply String.eqb_neq in E. contradiction.
Qed.

Lemma updated_at_refreshed_witness :
  ticket_update demo_users (Some admin_id) (patch_status "closed") 2000 demo_open
  = Some (update_row (patch_status "closed") 2000 demo_open)
  /\ updated_at (update_row (patch_status "closed") 2000 demo_open) = Some 2000.
Proof.
  split; [reflexivity|].
  apply (updated_at_refreshed demo_users (Some admin_id) (patch_status "closed") 2000
           demo_open).
  reflexivity.
Defined.

(** C1 as stated fails: an administrator resolves the first seed ticket at
    time 2000, and a later update that assigns [resolved_at] itself moves
    the stamp to 5. *)
Lemma resolved_at_altered_by_later_update :
  let u1 := mkUpdate (Some admin_id) (patch_status "resolved") 2000 in
  let u2 := mkUpdate (Some admin_id) (patch_resolved_at (Some 5)) 3000 in
  let t1 := update_row (upd_set u1) 2000 demo_open in
  let t2 := update_row (upd_set u2) 3000 t1 in
  updates demo_users demo_open [u1; u2] t2
  /\ resolved_at demo_open = None
  /\ first_resolution (status demo_open) [u1; u2] = Some 2000
  /\ resolved_at t1 = Some 2000
  /\ resolved_at t2 = Some 5.
Proof.
  cbv zeta. split; [|repeat split; reflexivity].
  eapply updates_cons; [reflexivity|].
  eapply updates_cons; [reflexivity|].
  apply updates_nil.
Qed.

Lemma resolved_at_first_resolution_witness :
  let u1 := mkUpdate (Some user_id) (patch_status "in_progress") 2000 in
  let u2 := mkUpdate (Some admin_id) (patch_status "resolved") 3000 in
  let u3 := mkUpdate (Some admin_id) (patch_status "closed") 4000 in
  let t3 := update_row (upd_set u3) 4000
              (update_row (upd_set u2) 3000 (update_row (upd_set u1) 2000 demo_open)) in
  updates demo_users demo_open [u1; u2; u3] t3 /\ resolved_at t3 = Some 3000.
Proof.
  cbv zeta.
  assert (H : updates demo_users demo_open
                [mkUpdate (Some user_id) (patch_status "in_progress") 2000;
                 mkUpdate (Some admin_id) (patch_status "resolved") 3000;
                 mkUpdate (Some admin_id) (patch_status "closed") 4000]
                (update_row (patch_status "closed") 4000
                   (update_row (patch_status "resolved") 3000
                      (update_row (patch_status "in_progress") 2000 demo_open)))).
  { eapply updates_cons; [reflexivity|].
    eapply updates_cons; [reflexivity|].
    eapply updates_cons; [reflexivity|].
    apply updates_nil. }
  split; [exact H|].
  assert (Hall : Forall (fun u => p_resolved_at (upd_set u) = None)
                   [mkUpdate (Some user_id) (patch_status "in_progress") 2000;
                    mkUpdate (Some admin_id) (patch_status "resolved") 3000;
                    mkUpdate (Some admin_id) (patch_status "closed") 4000]).
  { repeat (apply Forall_cons; [reflexivity|]). apply Forall_nil. }
  exact (resolved_at_first_resolution demo_users demo_open _ _ eq_refl Hall H).
Defined.

(** The trigger leaves [resolved_at] as proposed whenever the status is
    unchanged. *)
Lemma trigger_idle_on_same_status (OLD NEW : Ticket) (now : timestamptz) :
  status OLD = status NEW ->
  resolved_at (update_updated_at_column OLD NEW now) = resolved_at NEW.
Proof.
  intros H. unfold update_updated_at_column. cbn.
  rewrite H, String.eqb_refl. reflexivity.
Qed.

(** C9 (amended).  A ticket inserted without a [resolved_at] value of its
    own has a NULL [resolved_at] whatever its status, resolved and closed
    included, and a later successful update that neither changes the status
    nor assigns [resolved_at] leaves it NULL: no trigger runs on INSERT, and
    on UPDATE the trigger writes [resolved_at] only when the new status
    differs from the old one. *)
Theorem resolved_at_null_without_transition (b : TicketBody) (new_id : uuid)
    (now : timestamptz) (t : Ticket) :
  insert_row b new_id now = Some t ->
  b_resolved_at b = None ->
  resolved_at t = None
  /\ (forall us uid p now' t',
        ticket_update us uid p now' t = Some t' ->
        status t' = status t ->
        p_resolved_at p = None ->
        resolved_at t' = None)
  /\ (forall OLD NEW now',
        status OLD = status NEW ->
        resolved_at (update_updated_at_column OLD NEW now') = resolved_at NEW).
Proof.
  intros Hins Hb.
  assert (Hnull : resolved_at t = None).
  { unfold insert_row in Hins.
    destruct (b_title b); [|discriminate].
    destruct (b_description b); [|discriminate].
    injection Hins as <-. exact Hb. }
  split; [exact Hnull|]. split.
  - intros us uid p now' t' Hup Hst Hp.
    pose proof (ticket_update_row _ _ _ _ _ _ Hup) as Ht'.
    assert (Hsame : status (apply_patch p t) = status t).
    { rewrite <- Hst, Ht', update_row_status. reflexivity. }
    rewrite Ht'. unfold update_row.
    rewrite trigger_idle_on_same_status by (symmetry; exact Hsame).
    cbn. rewrite Hp. exact Hnull.
  - intros OLD NEW now'. apply trigger_idle_on_same_status.
Qed.

Lemma resolved_at_null_without_transition_witness :
  let b := nth 2 demo_bodies (mkBody None None None None None None None None) in
  insert_row b "t3" 1000 = Some demo_resolved
  /\ b_status b = Some "resolved"
  /\ b_resolved_at b = None
  /\ resolved_at demo_resolved = None
  /\ (forall us uid p now' t',
        ticket_update us uid p now' demo_resolved = Some t' ->
        status t' = status demo_resolved ->
        p_resolved_at p = None ->
        resolved_at t' = None).
Proof.
  cbv zeta. do 3 (split; [reflexivity|]).
  pose proof (resolved_at_null_without_transition
                (nth 2 demo_bodies (mkBody None None None None None None None None))
                "t3" 1000 demo_resolved eq_refl eq_refl) as [H1 [H2 _]].
  split; [exact H1 | exact H2].
Defined.

(** C9 as stated fails: the third seed ticket is inserted resolved with a
    NULL stamp, and an update by the administrator that leaves the status
    alone but assigns [resolved_at] makes the stamp non-null. *)
Lemma resolved_at_assigned_without_status_change :
  let t' := update_row (patch_resolved_at (Some 5)) 2000 demo_resolved in
  In demo_resolved (tickets demo_db)
  /\ resolved_at demo_resolved = None
  /\ fst (tickets_update (Some admin_id) 2000 "t3" (patch_resolved_at (Some 5)) demo_db)
     = Ok t'
  /\ status t' = status demo_resolved
  /\ resolved_at t' = Some 5.
Proof.
  cbv zeta. repeat split; try reflexivity.
  right. right. left. reflexivity.
Qed.

(** ** The ticket list *)

Lemma In_insert_sorted {A : Type} (le : A -> A -> bool) (x y : A) (l : list A) :
  In y (insert_sorted le x l) <-> y = x \/ In y l.
Proof.
  induction l as [| z l IH]; cbn.
  - intuition congruence.
  - destruct (le x z); cbn; [intuition congruence|].
    rewrite IH. intuition congruence.
Qed.

Lemma In_order_by {A : Type} (le : A -> A -> bool) (y : A) (l : list A) :
  In y (order_by le l) <-> In y l.
Proof.
  induction l as [| x l IH]; cbn; [tauto|].
  rewrite In_insert_sorted, IH. intuition congruence.
Qed.

Lemma In_tickets_select (uid : option uuid) (fs : list Filter) (d : Db) (t : Ticket) :
  In t (tickets_select uid fs d) <->
  In t (tickets d)
  /\ tickets_select_policy (users d) uid t = true
  /\ forallb (eval_filter t) fs = true.
Proof.
  unfold tickets_select, tickets_rows.
  rewrite In_order_by, filter_In, andb_true_iff. tauto.
Qed.

Lemma sql_eq_true (a b : option string) :
  sql_eq a b = true -> exists x, a = Some x /\ b = Some x.
Proof.
  destruct a as [x |], b as [y |]; cbn; try discriminate.
  intros H. apply String.eqb_eq in H. subst. eauto.
Qed.

(** Whatever filters a query carries, the rows it returns to a caller who
    is not an administrator were created by or are assigned to that
    caller. *)
Lemma select_policy_scope (uid : option uuid) (fs : list Filter) (d : Db) (t : Ticket) :
  is_admin (users d) uid = false ->
  In t (tickets_select uid fs d) ->
  created_by t = uid \/ assigned_to t = uid.
Proof.
  intros Hna Hin. apply In_tickets_select in Hin as (_ & Hpol & _).
  unfold tickets_select_policy in Hpol. rewrite Hna, orb_false_r in Hpol.
  apply orb_true_iff in Hpol as [H | H];
    apply sql_eq_true in H as (x & -> & ->); auto.
Qed.

Lemma fetchTickets_filters_scope (user : option User) (filters : UseTicketsProps) :
  exists rest, fetchTickets_filters user filters = role_scope user ++ rest.
Proof.
  unfold fetchTickets_filters. eexists. reflexivity.
Qed.

Lemma role_scope_holds (u : User) (filters : UseTicketsProps) (t : Ticket) :
  u_role u = "user" ->
  forallb (eval_filter t) (fetchTickets_filters (Some u) filters) = true ->
  created_by t = Some (u_id u).
Proof.
  intros Hrole H.
  destruct (fetchTickets_filters_scope (Some u) filters) as [rest E].
  rewrite E, forallb_app in H. apply andb_true_iff in H as [H _].
  cbn in H. rewrite Hrole in H. cbn in H. rewrite andb_true_r in H.
  apply sql_eq_true in H as (x & Hc & Hx). cbn in Hc.
  rewrite Hc. symmetry. exact Hx.
Qed.

(** What [fetchTickets] leaves in the hook over the migration's backend:
    the rows of the query, the console and the rest of the state as they
    were. *)
Lemma fetchTickets_postgres (user : option User) (filters : UseTicketsProps)
    (s : St PgWorld) :
  exists s',
    fetchTickets PgWorld postgres user filters s = (Returned tt, s')
    /\ h_tickets s' = tickets_select (pg_uid (world s))
                        (fetchTickets_filters user filters) (pg_db (world s))
    /\ console s' = console s
    /\ pg_db (world s') = pg_db (world s)
    /\ pg_uid (world s') = pg_uid (world s).
Proof.
  eexists. unfold fetchTickets, try_finally, try_catch, bind, request. cbn.
  repeat split; reflexivity.
Qed.

(** C3.  For a caller who is not an administrator, and for every
    combination of filters, no ticket of the list [fetchTickets] leaves in
    the hook has both a creator and an assignee other than the caller; and
    for a signed-in user of role 'user' every ticket of the list was created
    by that user: the scope is the first condition of the query and does not
    depend on the filters. *)
Theorem fetched_list_within_scope (user : option User) (filters : UseTicketsProps)
    (s s' : St PgWorld) (r : Outcome unit) (t : Ticket) :
  is_admin (users (pg_db (world s))) (pg_uid (world s)) = false ->
  fetchTickets PgWorld postgres user filters s = (r, s') ->
  In t (h_tickets s') ->
  ~ (created_by t <> pg_uid (world s) /\ assigned_to t <> pg_uid (world s))
  /\ (forall u, user = Some u -> u_role u = "user" -> created_by t = Some (u_id u))
  /\ exists rest, fetchTickets_filters user filters = role_scope user ++ rest.
Proof.
  intros Hna Hrun Hin.
  destruct (fetchTickets_postgres user filters s) as (s1 & Hs1 & Hlist & _).
  rewrite Hs1 in Hrun. injection Hrun as _ <-. rewrite Hlist in Hin.
  split; [|split].
  - intros [Hc Ha].
    destruct (select_policy_scope _ _ _ _ Hna Hin); contradiction.
  - intros u -> Hrole. apply In_tickets_select in Hin as (_ & _ & Hfs).
    exact (role_scope_holds u filters t Hrole Hfs).
  - apply fetchTickets_filters_scope.
Qed.

Lemma fetched_list_within_scope_witness :
  let s := initial_state (demo_world (Some user_id)) in
  let filters := mkFilters (Some "open") None None (Some "computer") in
  let run := fetchTickets PgWorld postgres (Some demo_user) filters s in
  is_admin demo_users (Some user_id) = false
  /\ In demo_open (h_tickets (snd run))
  /\ ~ (created_by demo_open <> Some user_id /\ assigned_to demo_open <> Some user_id).
Proof.
  cbv zeta.
  assert (Hin : In demo_open
                  (h_tickets (snd (fetchTickets PgWorld postgres (Some demo_user)
                                     (mkFilters (Some "open") None None (Some "computer"))
                                     (initial_state (demo_world (Some user_id))))))).
  { left. reflexivity. }
  split; [reflexivity|]. split; [exact Hin|].
  exact (proj1 (fetched_list_within_scope (Some demo_user)
                  (mkFilters (Some "open") None None (Some "computer"))
                  (initial_state (demo_world (Some user_id))) _ _ demo_open
                  eq_refl (surjective_pairing _) Hin)).
Defined.

(** ** Search *)

Lemma like_percent (c : ascii) (p t : string) :
  is_percent c = true ->
  like (String c p) t = true ->
  exists pre post, t = (pre ++ post)%string /\ like p post = true.
Proof.
  intros Hc. induction t as [| d t IH]; cbn; rewrite Hc.
  - rewrite orb_false_r. intros H. exists EmptyString, EmptyString. auto.
  - intros H. apply orb_true_iff in H as [H | H].
    + exists EmptyString, (String d t). auto.
    + assert (H' : like (String c p) t = true).
      { cbn. rewrite Hc. exact H. }
      destruct (IH H') as (pre & post & -> & Hp).
      exists (String d pre), post. auto.
Qed.

Lemma special_false (c : ascii) :
  special c = false ->
  is_percent c = false /\ is_underscore c = false /\ is_escape c = false.
Proof.
  unfold special. intros H.
  apply orb_false_iff in H as [H _]. apply orb_false_iff in H as [H He].
  apply orb_false_iff in H as [Hp Hu]. auto.
Qed.

Lemma like_plain_prefix (s p t : string) :
  plain s = true ->
  like (s ++ p) t = true ->
  exists post, t = (s ++ post)%string /\ like p post = true.
Proof.
  revert t. induction s as [| c s IH]; intros t Hs H.
  - exists t. auto.
  - cbn in Hs. apply andb_true_iff in Hs as [Hc Hs].
    apply negb_true_iff in Hc.
    destruct (special_false c Hc) as (Hp & Hu & He).
    cbn in H. rewrite Hp, Hu, He in H.
    destruct t as [| d t]; [discriminate|].
    apply andb_true_iff in H as [Hcd H].
    apply Ascii.eqb_eq in Hcd. subst d.
    destruct (IH t Hs H) as (post & -> & Hpost).
    exists post. auto.
Qed.

(** A pattern [%s%] with no special character in [s] matches only texts
    in which [s] occurs. *)
Lemma like_contains (s t : string) :
  plain s = true ->
  like ("%" ++ s ++ "%") t = true ->
  substring_of s t.
Proof.
  intros Hs H.
  apply (like_percent "%" (s ++ "%") t eq_refl) in H as (pre & post & -> & H).
  apply (like_plain_prefix s "%" post Hs) in H as (post' & -> & _).
  exists pre, post'. reflexivity.
Qed.

Lemma lower_app (a b : string) : lower (a ++ b) = (lower a ++ lower b)%string.
Proof.
  induction a as [| c a IH]; cbn; [reflexivity|]. rewrite IH. reflexivity.
Qed.

Lemma plain_lower_ascii (c : ascii) :
  special c = false -> special (lower_ascii c) = false.
Proof.
  destruct c as [[] [] [] [] [] [] [] []]; cbn; intros H; try reflexivity;
    discriminate H.
Qed.

Lemma plain_lower (s : string) : plain s = true -> plain (lower s) = true.
Proof.
  induction s as [| c s IH]; cbn; [reflexivity|].
  intros H. apply andb_true_iff in H as [Hc Hs].
  apply negb_true_iff in Hc.
  rewrite (plain_lower_ascii c Hc), (IH Hs). reflexivity.
Qed.

Lemma ilike_contains (s text : string) :
  plain s = true ->
  ilike text ("%" ++ s ++ "%") = true ->
  ci_substring s text.
Proof.
  intros Hs H. unfold ilike in H. rewrite !lower_app in H.
  apply like_contains in H; [exact H|]. apply plain_lower, Hs.
Qed.

Lemma eq_filter_relaxed (c : Column) (v' v : option string) (t : Ticket) :
  relaxed v' v ->
  forallb (eval_filter t)
    (if truthy v && negb (String.eqb (str v) "all") then [Feq c (str v)] else []) = true ->
  forallb (eval_filter t)
    (if truthy v' && negb (String.eqb (str v') "all") then [Feq c (str v')] else []) = true.
Proof.
  intros [H | ->] Hv; [|exact Hv]. rewrite H. reflexivity.
Qed.

Lemma search_filter_relaxed (v' v : option string) (t : Ticket) :
  relaxed v' v ->
  forallb (eval_filter t)
    (if truthy v
     then [For_ilike [(col_title, ("%" ++ str v ++ "%")%string);
                      (col_description, ("%" ++ str v ++ "%")%string)]]
     else []) = true ->
  forallb (eval_filter t)
    (if truthy v'
     then [For_ilike [(col_title, ("%" ++ str v' ++ "%")%string);
                      (col_description, ("%" ++ str v' ++ "%")%string)]]
     else []) = true.
Proof.
  intros [H | ->] Hv; [|exact Hv]. rewrite H. reflexivity.
Qed.

Lemma no_filter_value (user : option User) (filters : UseTicketsProps) :
  truthy (f_status filters) = false -> truthy (f_priority filters) = false ->
  truthy (f_assignee filters) = false -> truthy (f_search filters) = false ->
  fetchTickets_filters user filters = role_scope user.
Proof.
  intros Hs Hp Ha Hq. unfold fetchTickets_filters, role_scope.
  rewrite Hs, Hp, Ha, Hq. cbn. rewrite app_nil_r. reflexivity.
Qed.

(** C4 (amended).  For every non-empty search string made of plain
    characters only (none of the pattern characters [%], [*], [_],
    backslash, none of the characters reserved in the or-condition) and
    every non-empty status filter other than 'all', every ticket of the
    query result has that status and contains the search string, letter
    case aside, in its title or in its description.  Emptying or leaving
    out any filter value excludes no row that the query returned with it,
    and with every value empty or absent the result is all the rows the
    caller may read within the role scope. *)
Theorem search_and_status_filter (uid : option uuid) (user : option User)
    (filters : UseTicketsProps) (d : Db) (t : Ticket) :
  (forall s st,
     f_search filters = Some s -> s <> "" -> plain s = true ->
     f_status filters = Some st -> st <> "" -> st <> "all" ->
     In t (tickets_select uid (fetchTickets_filters user filters) d) ->
     status t = st
     /\ (ci_substring s (title t) \/ ci_substring s (description t)))
  /\ (forall filters',
        relaxes filters' filters ->
        In t (tickets_select uid (fetchTickets_filters user filters) d) ->
        In t (tickets_select uid (fetchTickets_filters user filters') d))
  /\ (truthy (f_status filters) = false -> truthy (f_priority filters) = false ->
      truthy (f_assignee filters) = false -> truthy (f_search filters) = false ->
      (In t (tickets_select uid (fetchTickets_filters user filters) d) <->
       In t (tickets d)
       /\ tickets_select_policy (users d) uid t = true
       /\ forallb (eval_filter t) (role_scope user) = true)).
Proof.
  assert (Hparts :
    In t (tickets_select uid (fetchTickets_filters user filters) d) ->
    In t (tickets d) /\ tickets_select_policy (users d) uid t = true
    /\ forallb (eval_filter t) (role_scope user) = true
    /\ forallb (eval_filter t)
         (if truthy (f_status filters)
             && negb (String.eqb (str (f_status filters)) "all")
          then [Feq col_status (str (f_status filters))] else []) = true
    /\ forallb (eval_filter t)
         (if truthy (f_priority filters)
             && negb (String.eqb (str (f_priority filters)) "all")
          then [Feq col_priority (str (f_priority filters))] else []) = true
    /\ forallb (eval_filter t)
         (if truthy (f_assignee filters)
             && negb (String.eqb (str (f_assignee filters)) "all")
          then [Feq col_assigned_to (str (f_assignee filters))] else []) = true
    /\ forallb (eval_filter t)
         (if truthy (f_search filters)
          then [For_ilike [(col_title, ("%" ++ str (f_search filters) ++ "%")%string);
                           (col_description,
                            ("%" ++ str (f_search filters) ++ "%")%string)]]
          else []) = true).
  { intros Hin. apply In_tickets_select in Hin as (Ht & Hpol & Hfs).
    unfold fetchTickets_filters in Hfs. rewrite !forallb_app in Hfs.
    apply andb_true_iff in Hfs as [Hscope Hfs].
    apply andb_true_iff in Hfs as [Hstatus Hfs].
    apply andb_true_iff in Hfs as [Hprio Hfs].
    apply andb_true_iff in Hfs as [Hassig Hsearch].
    unfold role_scope. auto 10. }
  split; [|split].
  - intros s st Es Hs Hplain Est Hst Hall Hin.
    destruct (Hparts Hin) as (_ & _ & _ & Hstatus & _ & _ & Hsearch).
    rewrite Est in Hstatus. rewrite Es in Hsearch. cbn in Hstatus, Hsearch.
    apply String.eqb_neq in Hs, Hst, Hall.
    rewrite Hst, Hall in Hstatus. rewrite Hs in Hsearch.
    cbn in Hstatus, Hsearch.
    rewrite andb_true_r in Hstatus. rewrite !orb_false_r, andb_true_r in Hsearch.
    split.
    + apply String.eqb_eq. exact Hstatus.
    + apply orb_true_iff in Hsearch as [H | H]; [left | right];
        apply ilike_contains; assumption.
  - intros filters' (Rs & Rp & Ra & Rq) Hin.
    destruct (Hparts Hin) as (Ht & Hpol & Hscope & Hstatus & Hprio & Hassig & Hsearch).
    apply In_tickets_select. split; [exact Ht|]. split; [exact Hpol|].
    unfold fetchTickets_filters. rewrite !forallb_app.
    unfold role_scope in Hscope. rewrite Hscope.
    rewrite (eq_filter_relaxed col_status _ _ t Rs Hstatus).
    rewrite (eq_filter_relaxed col_priority _ _ t Rp Hprio).
    rewrite (eq_filter_relaxed col_assigned_to _ _ t Ra Hassig).
    rewrite (search_filter_relaxed _ _ t Rq Hsearch).
    reflexivity.
  - intros Hs Hp Ha Hq.
    rewrite (no_filter_value user filters Hs Hp Ha Hq).
    apply In_tickets_select.
Qed.

Lemma search_and_status_filter_witness :
  let filters := mkFilters (Some "open") None None (Some "WON'T") in
  let q := tickets_select (Some user_id) (fetchTickets_filters (Some demo_user) filters)
             demo_db in
  In demo_open q
  /\ plain "WON'T" = true
  /\ status demo_open = "open"
  /\ (ci_substring "WON'T" (title demo_open)
      \/ ci_substring "WON'T" (description demo_open))
  /\ In demo_open
       (tickets_select (Some user_id)
          (fetchTickets_filters (Some demo_user) (mkFilters (Some "") None None None))
          demo_db).
Proof.
  cbv zeta.
  assert (Hin : In demo_open
                  (tickets_select (Some user_id)
                     (fetchTickets_filters (Some demo_user)
                        (mkFilters (Some "open") None None (Some "WON'T")))
                     demo_db)).
  { left. reflexivity. }
  destruct (search_and_status_filter (Some user_id) (Some demo_user)
              (mkFilters (Some "open") None None (Some "WON'T")) demo_db demo_open)
    as (HA & HB & _).
  split; [exact Hin|]. split; [reflexivity|].
  assert (Hs : "WON'T" <> "") by discriminate.
  assert (Hst : "open" <> "") by discriminate.
  assert (Hall : "open" <> "all") by discriminate.
  destruct (HA "WON'T" "open" eq_refl Hs eq_refl eq_refl Hst Hall Hin) as [H1 H2].
  split; [exact H1|]. split; [exact H2|].
  apply HB; [|exact Hin]. split; [left; reflexivity|].
  split; [right; reflexivity|]. split; [right; reflexivity|]. left. reflexivity.
Defined.

Lemma prefixb_app (s post : string) : prefixb s (s ++ post) = true.
Proof.
  induction s as [| c s IH]; cbn; [reflexivity|].
  rewrite Ascii.eqb_refl. exact IH.
Qed.

Lemma containsb_eq (s t : string) :
  containsb s t =
  prefixb s t || match t with EmptyString => false | String _ t' => containsb s t' end.
Proof. destruct t; reflexivity. Qed.

Lemma containsb_complete (s t : string) : substring_of s t -> containsb s t = true.
Proof.
  intros (pre & post & ->).
  induction pre as [| c pre IH].
  - rewrite containsb_eq. cbn [append]. rewrite prefixb_app. reflexivity.
  - rewrite containsb_eq. cbn [append]. rewrite IH. apply orb_true_r.
Qed.

(** C4 as stated fails: the search string "_" is a pattern that matches any
    character, so the first seed ticket is returned for it although neither
    its title nor its description contains an underscore. *)
Lemma search_wildcard_without_substring :
  let filters := mkFilters (Some "open") None None (Some "_") in
  In demo_open
     (tickets_select (Some user_id) (fetchTickets_filters (Some demo_user) filters) demo_db)
  /\ ~ ci_substring "_" (title demo_open)
  /\ ~ ci_substring "_" (description demo_open).
Proof.
  cbv zeta. split; [left; reflexivity|].
  split; intros H; apply containsb_complete in H; vm_compute in H; discriminate H.
Qed.

(** ** Dashboard *)

Lemma filter_all {A : Type} (l : list A) : filter (fun _ => true) l = l.
Proof.
  induction l as [| x l IH]; cbn; [reflexivity|]. rewrite IH. reflexivity.
Qed.

Lemma length_or_0_length (p : Ticket -> bool) (ts : list Ticket) :
  length_or_0 p (Some ts) = List.length (filter p ts).
Proof.
  unfold length_or_0. destruct (Nat.eqb (List.length (filter p ts)) 0) eqn:E.
  - apply Nat.eqb_eq in E. symmetry. exact E.
  - reflexivity.
Qed.


(** ** Binary64 arithmetic on counts

    What [SpecFloat] computes for the quotient and the product of the
    resolution rate, as bounds on integers: every operation keeps 53 digits
    and is off by at most one unit of the last place. *)























(** ** The resolution rate *)







(** ** The average resolution time *)

Lemma fold_left_map_add (f : Ticket -> number) (l : list Ticket) (a : number) :
  fold_left (fun sum ticket => js_add sum (f ticket)) l a
  = fold_left js_add (map f l) a.
Proof.
  revert a. induction l as [| t l IH]; intros a; cbn; [reflexivity|]. apply IH.
Qed.

(** The tickets averaged over, as durations: with [created_at] set
    everywhere these are the resolved-or-closed tickets that have
    [resolved_at]. *)
Lemma resolved_durations_map (ts : list Ticket) :
  Forall (fun t => created_at t <> None) ts ->
  resolved_durations ts
  = map (fun t => js_sub (getTime (resolved_at t)) (getTime (created_at t)))
        (filter resolved_with_time ts).
Proof.
  unfold resolved_durations, timed_durations.
  induction 1 as [| t ts Hc _ IH]; cbn; [reflexivity|].
  unfold resolved_with_time at 1.
  destruct (resolved_or_closed t); cbn; [|exact IH].
  destruct (created_at t) as [c |] eqn:Ec; [|contradiction].
  destruct (resolved_at t) as [r |] eqn:Er; cbn; rewrite IH; [|reflexivity].
  rewrite Ec, Er. reflexivity.
Qed.

Lemma ms_per_day_value : ms_per_day = num 86400000.
Proof. vm_compute. reflexivity. Qed.

Lemma filter_idem {A : Type} (p : A -> bool) (l : list A) :
  filter p (filter p l) = filter p l.
Proof.
  induction l as [| x l IH]; cbn; [reflexivity|].
  destruct (p x) eqn:E; cbn; [rewrite E, IH|]; auto.
Qed.

(** C6 (amended).  Over a collection in which every ticket has
    [created_at] set, the dashboard's average resolution time is the mean of
    [resolved_at - created_at], converted to days, over exactly the tickets
    whose status is 'resolved' or 'closed' and that have [resolved_at] set;
    every other ticket is excluded from numerator and denominator alike, and
    the average is 0 when there is no such ticket. *)
Theorem avg_resolution_time_spec (ts : list Ticket) :
  Forall (fun t => created_at t <> None) ts ->
  avgResolutionTime (dashboard_stats (Some ts)) = mean_days (resolved_durations ts)
  /\ avgResolutionTime (dashboard_stats (Some ts))
     = avgResolutionTime (dashboard_stats (Some (filter resolved_with_time ts)))
  /\ (filter resolved_with_time ts = [] ->
      avgResolutionTime (dashboard_stats (Some ts)) = num 0).
Proof.
  intros Hc. split; [|split].
  - rewrite (resolved_durations_map ts Hc).
    unfold dashboard_stats. cbn [avgResolutionTime].
    rewrite fold_left_map_add, ms_per_day_value.
    destruct (filter resolved_with_time ts) as [| t l] eqn:E; [reflexivity|].
    cbn [List.length Nat.ltb Nat.leb map mean_days].
    rewrite length_map. reflexivity.
  - unfold dashboard_stats. cbn [avgResolutionTime].
    rewrite filter_idem. reflexivity.
  - intros E. unfold dashboard_stats. cbn [avgResolutionTime].
    rewrite E. reflexivity.
Qed.

Lemma avg_resolution_time_spec_witness :
  Forall (fun t => created_at t <> None) [demo_reopened; demo_closed; demo_resolved]
  /\ avgResolutionTime (dashboard_stats (Some [demo_reopened; demo_closed; demo_resolved]))
     = num 2.
Proof.
  assert (H : Forall (fun t => created_at t <> None)
                [demo_reopened; demo_closed; demo_resolved]).
  { repeat (apply Forall_cons; [discriminate|]). apply Forall_nil. }
  split; [exact H|].
  rewrite (proj1 (avg_resolution_time_spec _ H)). vm_compute. reflexivity.
Defined.

(** C6 as stated fails: a ticket resolved and then reopened has both
    [created_at] and [resolved_at] set, yet the dashboard leaves it out of
    the average, which is 0 here and not the 1000 ms the ticket took. *)
Lemma reopened_ticket_not_averaged :
  updates demo_users demo_open
    [mkUpdate (Some admin_id) (patch_status "resolved") 2000;
     mkUpdate (Some admin_id) (patch_status "open") 3000]
    demo_reopened
  /\ status demo_reopened = "open"
  /\ created_at demo_reopened = Some 1000
  /\ resolved_at demo_reopened = Some 2000
  /\ avgResolutionTime (dashboard_stats (Some [demo_reopened])) = num 0
  /\ spec_avg_resolution_time [demo_reopened] = js_div (num 1000) (num 86400000)
  /\ js_div (num 1000) (num 86400000) <> num 0.
Proof.
  split.
  { eapply updates_cons; [reflexivity|].
    eapply updates_cons; [reflexivity|].
    apply updates_nil. }
  repeat split; try (vm_compute; reflexivity).
  vm_compute. discriminate.
Qed.

(** ** Errors of the backend in the hooks and handlers *)

Section ClientFacts.

Variable World : Type.
Variable sb : Supabase World.
Variable user : option User.
Variable filters : UseTicketsProps.

(** A refresh never throws: a failed fetch is logged and the list stays. *)
Lemma fetchTickets_returns (s : St World) :
  exists s', fetchTickets World sb user filters s = (Returned tt, s')
             /\ formData s' = formData s /\ success s' = success s
             /\ f_loading s' = f_loading s.
Proof.
  unfold fetchTickets, try_finally, try_catch, bind, request, throw, setTickets,
    setLoading, console_error, modify.
  destruct (sb_tickets_select sb _ (world s)) as [[data | error] w];
    eexists; cbn; repeat split; reflexivity.
Qed.

Lemma fetchTickets_error (s : St World) (e : string) (w' : World) :
  sb_tickets_select sb (fetchTickets_filters user filters) (world s) = (Err e, w') ->
  exists s', fetchTickets World sb user filters s = (Returned tt, s')
             /\ h_tickets s' = h_tickets s
             /\ console s' = console s ++ [("Error fetching tickets:", e)]
             /\ world s' = w'.
Proof.
  intros H.
  unfold fetchTickets, try_finally, try_catch, bind, request, throw, setTickets,
    setLoading, console_error, modify.
  rewrite H. eexists. cbn. repeat split; reflexivity.
Qed.

Lemma createTicket_error (ticketData : TicketData) (s : St World) (e : string) (w' : World) :
  sb_tickets_insert sb (insert_body ticketData user) (world s) = (Err e, w') ->
  exists s', createTicket World sb user filters ticketData s = (Thrown e, s')
             /\ console s' = console s ++ [("Error creating ticket:", e)]
             /\ h_tickets s' = h_tickets s
             /\ formData s' = formData s /\ success s' = success s
             /\ f_loading s' = f_loading s
             /\ world s' = w'.
Proof.
  intros H.
  unfold createTicket, try_catch, bind, request, throw, console_error, modify.
  rewrite H. eexists. cbn. repeat split; reflexivity.
Qed.

Lemma updateTicket_error (i : uuid) (updates : TicketPatch) (s : St World)
    (e : string) (w' : World) :
  sb_tickets_update sb i updates (world s) = (Err e, w') ->
  exists s', updateTicket World sb user filters i updates s = (Thrown e, s')
             /\ console s' = console s ++ [("Error updating ticket:", e)]
             /\ h_tickets s' = h_tickets s
             /\ world s' = w'.
Proof.
  intros H.
  unfold updateTicket, try_catch, bind, request, throw, console_error, modify.
  rewrite H. eexists. cbn. repeat split; reflexivity.
Qed.

Lemma deleteTicket_error (i : uuid) (s : St World) (e : string) (w' : World) :
  sb_tickets_delete sb i (world s) = (Err e, w') ->
  exists s', deleteTicket World sb user filters i s = (Thrown e, s')
             /\ console s' = console s ++ [("Error deleting ticket:", e)]
             /\ h_tickets s' = h_tickets s
             /\ world s' = w'.
Proof.
  intros H.
  unfold deleteTicket, try_catch, bind, request, throw, console_error, modify.
  rewrite H. eexists. cbn. repeat split; reflexivity.
Qed.

Lemma fetchComments_error (t : Ticket) (s : St World) (e : string) (w' : World) :
  sb_comments_select sb (id t) (world s) = (Err e, w') ->
  exists s', fetchComments World sb (Some t) s = (Returned tt, s')
             /\ comments s' = comments s
             /\ console s' = console s ++ [("Error fetching comments:", e)]
             /\ world s' = w'.
Proof.
  intros H.
  unfold fetchComments, try_catch, bind, request, throw, setComments, console_error,
    modify.
  rewrite H. eexists. cbn. repeat split; reflexivity.
Qed.

(** [addComment] is itself the click handler: the error of its insert is
    caught there and logged, nothing is thrown and the text and the thread
    stay as they were. *)
Lemma addComment_error (t : Ticket) (s : St World) (e : string) (w' : World) :
  trim (newComment s) <> "" ->
  sb_comments_insert sb (Some (id t)) (option_map u_id user) (newComment s) (world s)
  = (Err e, w') ->
  exists s', addComment World sb user (Some t) s = (Returned tt, s')
             /\ console s' = console s ++ [("Error adding comment:", e)]
             /\ comments s' = comments s
             /\ newComment s' = newComment s
             /\ world s' = w'.
Proof.
  intros Hne H. apply String.eqb_neq in Hne.
  unfold addComment, get, try_catch, bind, request, throw, console_error, modify.
  rewrite Hne, H. eexists. cbn. repeat split; reflexivity.
Qed.

(** [handleSubmit] receives the error [createTicket] rethrows, logs it and
    returns: the form keeps its data and no success is shown. *)
Lemma handleSubmit_error (s : St World) (e : string) (w' : World) :
  sb_tickets_insert sb (insert_body (form_ticket (formData s)) user) (world s)
  = (Err e, w') ->
  exists s', handleSubmit World sb user s = (Returned tt, s')
             /\ console s' = console s ++ [("Error creating ticket:", e);
                                           ("Error creating ticket:", e)]
             /\ formData s' = formData s
             /\ success s' = success s
             /\ f_loading s' = false
             /\ world s' = w'
             /\ h_tickets s' = h_tickets s.
Proof.
  intros H.
  unfold handleSubmit, setFormLoading, setFormData, setSuccess, get, createTicket,
    try_finally, try_catch, bind, request, throw, console_error, modify.
  cbn. rewrite H. eexists. cbn. rewrite <- app_assoc. repeat split; reflexivity.
Qed.

(** [handleUpdate] likewise for the error [updateTicket] rethrows through
    [handleTicketUpdate]: the modal stays open in edit mode. *)
Lemma handleUpdate_error (t : Ticket) (s : St World) (e : string) (w' : World) :
  sb_tickets_update sb (id t) (editData s) (world s) = (Err e, w') ->
  exists s', handleUpdate World sb user (Some t) s = (Returned tt, s')
             /\ console s' = console s ++ [("Error updating ticket:", e);
                                           ("Error updating ticket:", e)]
             /\ editMode s' = editMode s
             /\ isModalOpen s' = isModalOpen s
             /\ m_loading s' = false
             /\ world s' = w'
             /\ selectedTicket s' = selectedTicket s
             /\ h_tickets s' = h_tickets s.
Proof.
  intros H.
  unfold handleUpdate, handleTicketUpdate, setModalLoading, setEditMode,
    setIsModalOpen, setSelectedTicket, get, updateTicket,
    try_finally, try_catch, bind, request, throw, console_error, modify.
  cbn. rewrite H. eexists. cbn. rewrite <- app_assoc. repeat split; reflexivity.
Qed.

End ClientFacts.

(** C8 (amended).  For every error the storage boundary raises in the
    request of [createTicket], [updateTicket] or [deleteTicket], the hook
    logs the error and rethrows it to the UI handler that called it, and the
    list is not refreshed; [handleSubmit] and [handleUpdate] log the error
    they receive, after the entry of the hook, and return with the prior
    state displayed and the loading flag off.  The error of the insert of
    [addComment] is caught in [addComment] itself, logged and not rethrown,
    the text and the thread staying as they were; a failed refresh of the
    list or of the thread is logged and leaves the prior list or thread
    displayed. *)
Theorem mutation_errors (World : Type) (sb : Supabase World) (user : option User)
    (filters : UseTicketsProps) (s : St World) (e : string) (w' : World) :
  (forall ticketData,
     sb_tickets_insert sb (insert_body ticketData user) (world s) = (Err e, w') ->
     exists s', createTicket World sb user filters ticketData s = (Thrown e, s')
                /\ console s' = console s ++ [("Error creating ticket:", e)]
                /\ h_tickets s' = h_tickets s /\ world s' = w')
  /\ (forall i updates,
        sb_tickets_update sb i updates (world s) = (Err e, w') ->
        exists s', updateTicket World sb user filters i updates s = (Thrown e, s')
                   /\ console s' = console s ++ [("Error updating ticket:", e)]
                   /\ h_tickets s' = h_tickets s /\ world s' = w')
  /\ (forall i,
        sb_tickets_delete sb i (world s) = (Err e, w') ->
        exists s', deleteTicket World sb user filters i s = (Thrown e, s')
                   /\ console s' = console s ++ [("Error deleting ticket:", e)]
                   /\ h_tickets s' = h_tickets s /\ world s' = w')
  /\ (forall t,
        trim (newComment s) <> "" ->
        sb_comments_insert sb (Some (id t)) (option_map u_id user) (newComment s) (world s)
        = (Err e, w') ->
        exists s', addComment World sb user (Some t) s = (Returned tt, s')
                   /\ console s' = console s ++ [("Error adding comment:", e)]
                   /\ comments s' = comments s /\ newComment s' = newComment s
                   /\ world s' = w')
  /\ (sb_tickets_insert sb (insert_body (form_ticket (formData s)) user) (world s)
      = (Err e, w') ->
      exists s', handleSubmit World sb user s = (Returned tt, s')
                 /\ console s' = console s ++ [("Error creating ticket:", e);
                                               ("Error creating ticket:", e)]
                 /\ formData s' = formData s /\ success s' = success s
                 /\ f_loading s' = false /\ h_tickets s' = h_tickets s
                 /\ world s' = w')
  /\ (forall t,
        sb_tickets_update sb (id t) (editData s) (world s) = (Err e, w') ->
        exists s', handleUpdate World sb user (Some t) s = (Returned tt, s')
                   /\ console s' = console s ++ [("Error updating ticket:", e);
                                                 ("Error updating ticket:", e)]
                   /\ editMode s' = editMode s /\ isModalOpen s' = isModalOpen s
                   /\ selectedTicket s' = selectedTicket s
                   /\ m_loading s' = false /\ h_tickets s' = h_tickets s
                   /\ world s' = w')
  /\ (sb_tickets_select sb (fetchTickets_filters user filters) (world s) = (Err e, w') ->
      exists s', fetchTickets World sb user filters s = (Returned tt, s')
                 /\ h_tickets s' = h_tickets s
                 /\ console s' = console s ++ [("Error fetching tickets:", e)])
  /\ (forall t,
        sb_comments_select sb (id t) (world s) = (Err e, w') ->
        exists s', fetchComments World sb (Some t) s = (Returned tt, s')
                   /\ comments s' = comments s
                   /\ console s' = console s ++ [("Error fetching comments:", e)]).
Proof.
  repeat split.
  - intros td H.
    destruct (createTicket_error World sb user filters td s e w' H)
      as (s' & H1 & H2 & H3 & _ & _ & _ & H4). eauto.
  - intros i updates H.
    destruct (updateTicket_error World sb user filters i updates s e w' H)
      as (s' & H1 & H2 & H3 & H4). eauto.
  - intros i H.
    destruct (deleteTicket_error World sb user filters i s e w' H)
      as (s' & H1 & H2 & H3 & H4). eauto.
  - intros t Hne H.
    destruct (addComment_error World sb user t s e w' Hne H)
      as (s' & H1 & H2 & H3 & H4 & H5). eauto 6.
  - intros H.
    destruct (handleSubmit_error World sb user s e w' H)
      as (s' & H1 & H2 & H3 & H4 & H5 & H6 & H7). eauto 10.
  - intros t H.
    destruct (handleUpdate_error World sb user t s e w' H)
      as (s' & H1 & H2 & H3 & H4 & H5 & H6 & H7 & H8). eauto 12.
  - intros H.
    destruct (fetchTickets_error World sb user filters s e w' H)
      as (s' & H1 & H2 & H3 & _). eauto.
  - intros t H.
    destruct (fetchComments_error World sb t s e w' H)
      as (s' & H1 & H2 & H3 & _). eauto.
Qed.

(** C8 as stated fails for comments: with the session expired the insert
    is refused by the comment policy, and [addComment] returns normally; the
    refusal is only in the console, the text is still in the box and the
    thread is as it was. *)
Lemma addComment_swallows_denial :
  let run := addComment PgWorld postgres (Some demo_user) (Some demo_open) comment_state in
  fst (sb_comments_insert postgres (Some "t1") (Some user_id) "hello" (world comment_state))
  = Err "42501 row-level security policy"
  /\ fst run = Returned tt
  /\ console (snd run) = [("Error adding comment:", "42501 row-level security policy")]
  /\ newComment (snd run) = "hello"
  /\ comments (snd run) = comments comment_state
  /\ ticket_comments (pg_db (world (snd run))) = [].
Proof. cbv zeta. repeat split; vm_compute; reflexivity. Qed.

Lemma mutation_errors_witness :
  sb_comments_insert postgres (Some (id demo_open)) (option_map u_id (Some demo_user))
    (newComment comment_state) (world comment_state)
  = (Err "42501 row-level security policy", pg_next (demo_world None) demo_db)
  /\ exists s',
       addComment PgWorld postgres (Some demo_user) (Some demo_open) comment_state
       = (Returned tt, s')
       /\ console s' = console comment_state
                       ++ [("Error adding comment:", "42501 row-level security policy")]
       /\ comments s' = comments comment_state
       /\ newComment s' = newComment comment_state
       /\ world s' = pg_next (demo_world None) demo_db.
Proof.
  split; [reflexivity|].
  destruct (mutation_errors PgWorld postgres (Some demo_user) no_filters comment_state
              "42501 row-level security policy" (pg_next (demo_world None) demo_db))
    as (_ & _ & _ & H & _).
  apply (H demo_open); [discriminate | reflexivity].
Defined.

(** ** Creating a ticket *)

Lemma insert_row_created_by (b : TicketBody) (i : uuid) (now : timestamptz) (t : Ticket) :
  insert_row b i now = Some t -> created_by t = b_created_by b.
Proof.
  unfold insert_row.
  destruct (b_title b); [|discriminate]. destruct (b_description b); [|discriminate].
  intros H. injection H as <-. reflexivity.
Qed.

Lemma tickets_insert_ok (uid : option uuid) (i : uuid) (now : timestamptz)
    (b : TicketBody) (d : Db) (t : Ticket) (d' : Db) :
  tickets_insert uid i now b d = (Ok t, d') ->
  insert_row b i now = Some t
  /\ tickets_insert_policy uid t = true
  /\ tickets d' = tickets d ++ [t]
  /\ users d' = users d.
Proof.
  unfold tickets_insert.
  destruct (negb (sql_eq (b_created_by b) uid)) eqn:Hpol; [discriminate|].
  destruct (insert_row b i now) as [t0 |] eqn:Hrow; [|discriminate].
  destruct (negb (priority_check _ && status_check _)); [discriminate|].
  destruct (existsb _ (tickets d)); [discriminate|].
  destruct (negb (references_user _ _ && references_user _ _)); [discriminate|].
  intros H. injection H as <- <-. apply negb_false_iff in Hpol.
  unfold tickets_insert_policy. rewrite (insert_row_created_by _ _ _ _ Hrow). auto.
Qed.

(** An insert that respects the policy and the constraints goes through,
    and so does the [createTicket] that issues it: the refresh that follows
    cannot make it fail. *)
Lemma createTicket_succeeds (U : User) (filters : UseTicketsProps)
    (ticketData : TicketData) (s : St PgWorld) :
  pg_uid (world s) = Some (u_id U) ->
  priority_check (td_priority ticketData) = true ->
  status_check (td_status ticketData) = true ->
  references_user (users (pg_db (world s))) (Some (u_id U)) = true ->
  references_user (users (pg_db (world s))) (td_assigned_to ticketData) = true ->
  existsb (fun t' => String.eqb (id t') (pg_new_id (world s)))
          (tickets (pg_db (world s))) = false ->
  exists t s', createTicket PgWorld postgres (Some U) filters ticketData s
               = (Returned t, s').
Proof.
  intros Huid Hp Hs Hu Ha Hfresh.
  unfold createTicket, fetchTickets, try_finally, try_catch, bind, request, ret,
    throw, setTickets, setLoading, console_error, modify.
  cbn [sb_tickets_insert sb_tickets_select postgres world].
  unfold pg_answer, tickets_insert.
  cbn [insert_body insert_row b_created_by b_title b_description b_priority b_status
       b_category b_assigned_to b_resolved_at option_map set_col priority status id
       created_by assigned_to].
  rewrite Huid. cbn [sql_eq]. rewrite String.eqb_refl. cbn [negb].
  rewrite Hp, Hs, Hfresh, Hu, Ha. cbn.
  eexists. eexists. reflexivity.
Qed.

(** [createTicket] returns a ticket only when the insert returned it, and
    the refresh that follows leaves the database as the insert left it. *)
Lemma createTicket_returned (user : option User) (filters : UseTicketsProps)
    (ticketData : TicketData) (s s' : St PgWorld) (t : Ticket) :
  createTicket PgWorld postgres user filters ticketData s = (Returned t, s') ->
  exists d',
    tickets_insert (pg_uid (world s)) (pg_new_id (world s)) (pg_now (world s))
                   (insert_body ticketData user) (pg_db (world s)) = (Ok t, d')
    /\ pg_db (world s') = d'.
Proof.
  unfold createTicket, fetchTickets, try_finally, try_catch, bind, request, ret,
    throw, setTickets, setLoading, console_error, modify.
  cbn [sb_tickets_insert sb_tickets_select postgres world].
  unfold pg_answer.
  destruct (tickets_insert _ _ _ _ _) as [[data | error] d'] eqn:Hins;
    cbn; intros H; [|discriminate H].
  injection H as <- <-. exists d'. split; reflexivity.
Qed.

(** C7 (amended).  For every caller U and every record supplied to
    [createTicket], whatever creator the record names, a ticket that
    [createTicket] returns is persisted, was inserted under U's own session
    and has [created_by] equal to U's id; it carries the title, description
    and priority of the record, and its status, assignee and [resolved_at]
    are those of the record, which are 'open', NULL and NULL for the record
    the creation form builds. *)
Theorem created_ticket_fields (U : User) (filters : UseTicketsProps)
    (ticketData : TicketData) (s s' : St PgWorld) (t : Ticket) :
  createTicket PgWorld postgres (Some U) filters ticketData s = (Returned t, s') ->
  In t (tickets (pg_db (world s')))
  /\ created_by t = Some (u_id U)
  /\ pg_uid (world s) = Some (u_id U)
  /\ title t = td_title ticketData
  /\ description t = td_description ticketData
  /\ priority t = td_priority ticketData
  /\ status t = td_status ticketData
  /\ assigned_to t = td_assigned_to ticketData
  /\ resolved_at t = td_resolved_at ticketData
  /\ (forall fd, ticketData = form_ticket fd ->
        status t = "open" /\ assigned_to t = None /\ resolved_at t = None).
Proof.
  intros Hrun.
  destruct (createTicket_returned _ _ _ _ _ _ Hrun) as (d' & Hins & Hdb).
  apply tickets_insert_ok in Hins as (Hrow & Hpol & Htab & _).
  cbn in Hrow. injection Hrow as <-. cbn.
  split; [rewrite Hdb, Htab; apply in_or_app; right; left; reflexivity|].
  split; [reflexivity|].
  split.
  { unfold tickets_insert_policy in Hpol. cbn in Hpol.
    destruct (pg_uid (world s)) as [y |]; [|discriminate Hpol].
    apply String.eqb_eq in Hpol. rewrite Hpol. reflexivity. }
  repeat (split; [reflexivity|]).
  intros fd ->. cbn. auto.
Qed.

Lemma created_ticket_fields_witness :
  let s := initial_state (demo_world (Some user_id)) in
  let s1 := mkSt (world s) (console s) (h_tickets s) (h_loading s) printer_form
                 (f_loading s) (success s) (comments s) (newComment s) (editMode s)
                 (editData s) (m_loading s) (selectedTicket s) (isModalOpen s) in
  let run := createTicket PgWorld postgres (Some demo_user) no_filters
               (form_ticket printer_form) s1 in
  exists t, fst run = Returned t
            /\ In t (tickets (pg_db (world (snd run))))
            /\ created_by t = Some user_id
            /\ status t = "open"
            /\ resolved_at t = None.
Proof.
  cbv zeta.
  assert (H : exists t s',
             createTicket PgWorld postgres (Some demo_user) no_filters
               (form_ticket printer_form)
               (mkSt (demo_world (Some user_id)) [] [] true printer_form false false []
                     "" false no_patch false None false) = (Returned t, s')).
  { eexists. eexists. vm_compute. reflexivity. }
  destruct H as (t & s' & H).
  pose proof (created_ticket_fields demo_user no_filters (form_ticket printer_form) _ _ _ H)
    as (H1 & H2 & _ & _ & _ & _ & _ & _ & _ & H10).
  destruct (H10 printer_form eq_refl) as (Hs & _ & Hr).
  exists t. cbn [initial_state world console h_tickets h_loading f_loading success
                 comments newComment editMode editData m_loading selectedTicket
                 isModalOpen].
  rewrite H. cbn [fst snd]. auto.
Defined.

(** C7 as stated fails: [createTicket] passes the status and the
    resolution time of the record on to the insert, so a record that says
    'resolved' is persisted as resolved, with the creator alone replaced. *)
Lemma created_ticket_keeps_status :
  let run := createTicket PgWorld postgres (Some demo_user) no_filters resolved_data
               (initial_state (demo_world (Some user_id))) in
  let t := mkTicket "new" "Printer jam" "Paper stuck in tray 2" "low" "resolved"
                    (Some "Printer") (Some user_id) None (Some 2000) (Some 2000) (Some 5) in
  fst run = Returned t
  /\ In t (tickets (pg_db (world (snd run))))
  /\ created_by t = Some user_id
  /\ status t <> "open"
  /\ resolved_at t <> None.
Proof.
  cbv zeta. split; [vm_compute; reflexivity|].
  split; [vm_compute; auto 6|].
  repeat split; discriminate.
Qed.

(** ** Blank comments *)

Lemma trim_start_blank (s : string) : blank s = true -> trim_start s = "".
Proof.
  induction s as [| c s IH]; cbn; [reflexivity|].
  intros H. apply andb_true_iff in H as [Hc Hs]. rewrite Hc. exact (IH Hs).
Qed.

Lemma trim_blank (s : string) : blank s = true -> trim s = "".
Proof.
  intros H. unfold trim. rewrite (trim_start_blank s H). reflexivity.
Qed.

(** C10.  For every comment body that is empty or white space only,
    [addComment] returns without sending any request and without throwing:
    the whole state, backend, thread, text and console included, is as it
    was. *)
Theorem addComment_blank (World : Type) (sb : Supabase World) (user : option User)
    (ticket : option Ticket) (s : St World) :
  blank (newComment s) = true ->
  addComment World sb user ticket s = (Returned tt, s).
Proof.
  intros H. unfold addComment, get, bind, ret.
  rewrite (trim_blank _ H). destruct ticket; reflexivity.
Qed.

Lemma addComment_blank_witness :
  let s := mkSt (demo_world (Some user_id)) [] [] false empty_form false false []
                "   " false no_patch false (Some demo_open) true in
  blank (newComment s) = true
  /\ addComment PgWorld postgres (Some demo_user) (Some demo_open) s = (Returned tt, s).
Proof.
  cbv zeta. split; [reflexivity|].
  apply (addComment_blank PgWorld postgres (Some demo_user) (Some demo_open)).
  reflexivity.
Defined.

(** * Further properties of the code *)

(** ** App.tsx and AuthContext.tsx *)

(** X1.  [AppContent] renders the dashboard or the users page only for a
    loaded profile whose role is 'admin', whatever the active tab; without a
    user it renders the spinner or the sign-in form. *)
Theorem admin_views_need_admin (a : AuthState) (activeTab : string) :
  (AppContent a activeTab = DashboardView \/ AppContent a activeTab = UsersManagementView ->
   auth_loading a = false
   /\ exists u, auth_user a = Some u /\ u_role u = "admin")
  /\ (auth_user a = None ->
      AppContent a activeTab = Spinner \/ AppContent a activeTab = AuthFormView).
Proof.
  unfold AppContent, renderContent. split.
  - destruct (auth_loading a); [intros [H | H]; discriminate H|].
    destruct (auth_user a) as [u |]; [|intros [H | H]; discriminate H].
    intros H. split; [reflexivity|]. exists u. split; [reflexivity|].
    destruct (String.eqb activeTab "tickets"); [destruct H; discriminate|].
    destruct (String.eqb activeTab "create"); [destruct H; discriminate|].
    destruct (String.eqb (u_role u) "admin") eqn:E;
      [apply String.eqb_eq; exact E|].
    destruct (String.eqb activeTab "dashboard"); [destruct H; discriminate|].
    destruct (String.eqb activeTab "users"); destruct H; discriminate.
  - intros ->. destruct (auth_loading a); auto.
Qed.

Lemma admin_views_need_admin_witness :
  AppContent (mkAuth (Some demo_admin) false []) "dashboard" = DashboardView
  /\ exists u, auth_user (mkAuth (Some demo_admin) false []) = Some u /\ u_role u = "admin".
Proof.
  split; [reflexivity|].
  apply (proj1 (admin_views_need_admin (mkAuth (Some demo_admin) false []) "dashboard")).
  left. reflexivity.
Defined.

Lemma sql_eq_sym (a b : option string) : sql_eq a b = sql_eq b a.
Proof.
  destruct a, b; cbn; try reflexivity. apply String.eqb_sym.
Qed.

Lemma In_users_select (uid : option uuid) (cond : User -> bool) (d : Db) (u : User) :
  In u (users_select uid cond d) <->
  In u (users d) /\ uid = Some (u_id u) /\ cond u = true.
Proof.
  unfold users_select, users_select_policy. rewrite filter_In, andb_true_iff.
  split.
  - intros (Hin & Hp & Hc). apply sql_eq_true in Hp as (x & -> & Hx).
    injection Hx as ->. auto.
  - intros (Hin & -> & Hc). cbn. rewrite String.eqb_refl. auto.
Qed.

(** X2.  The administrators [fetchAdmins] receives for the assignee select
    are rows of the caller only: every row is the caller's own and has role
    'admin', and a caller who is not an administrator receives none. *)
Theorem fetchAdmins_only_self (uid : option uuid) (d : Db) :
  (forall u, In u (fetchAdmins_rows uid d) ->
             uid = Some (u_id u) /\ u_role u = "admin" /\ In u (users d))
  /\ (is_admin (users d) uid = false -> fetchAdmins_rows uid d = []).
Proof.
  unfold fetchAdmins_rows. split.
  - intros u Hin. apply In_users_select in Hin as (Hin & Hu & Hr).
    apply String.eqb_eq in Hr. auto.
  - intros Hna. destruct (users_select uid _ d) as [| u l] eqn:E; [reflexivity|].
    assert (Hin : In u (users_select uid (fun u => String.eqb (u_role u) "admin") d)).
    { rewrite E. left. reflexivity. }
    apply In_users_select in Hin as (Hin & Hu & Hr).
    assert (Ht : is_admin (users d) uid = true).
    { unfold is_admin. apply existsb_exists. exists u. split; [exact Hin|].
      rewrite Hu. cbn. rewrite String.eqb_refl, Hr. reflexivity. }
    rewrite Ht in Hna. discriminate Hna.
Qed.

(** A second administrator beside the one of the seed data. *)
Lemma fetchAdmins_only_self_witness :
  let d := mkDb (mkUser "a2" "second@demo.com" "Second Admin" "admin" None (Some 0)
                 :: demo_users) [] [] in
  fetchAdmins_rows (Some admin_id) d = [demo_admin]
  /\ forall u, In u (fetchAdmins_rows (Some admin_id) d) ->
               Some admin_id = Some (u_id u) /\ u_role u = "admin" /\ In u (users d).
Proof.
  cbv zeta. split; [reflexivity|].
  apply (proj1 (fetchAdmins_only_self (Some admin_id) _)).
Defined.

(** X3.  [fetchUserProfile] always ends with [loading] false.  It loads a
    profile only when the row asked for is the caller's own and exists; the
    profile then carries the id asked for.  Otherwise the user held before
    stays and one error is logged. *)
Theorem fetchUserProfile_own_profile (uid : option uuid) (d : Db) (userId : uuid)
    (a : AuthState) :
  auth_loading (fetchUserProfile uid d userId a) = false
  /\ ((exists u, auth_user (fetchUserProfile uid d userId a) = Some u
                 /\ u_id u = userId /\ uid = Some userId /\ In u (users d)
                 /\ auth_console (fetchUserProfile uid d userId a) = auth_console a)
      \/ (auth_user (fetchUserProfile uid d userId a) = auth_user a
          /\ auth_console (fetchUserProfile uid d userId a)
             = auth_console a
               ++ [("Error fetching user profile:", "PGRST116 not a single row")])).
Proof.
  unfold fetchUserProfile.
  destruct (users_select uid _ d) as [| u [| u' l]] eqn:E; cbn; split;
    try reflexivity; try (right; split; reflexivity).
  left. exists u.
  assert (Hin : In u (users_select uid (fun u => String.eqb (u_id u) userId) d)).
  { rewrite E. left. reflexivity. }
  apply In_users_select in Hin as (Hin & Hu & Hid).
  apply String.eqb_eq in Hid. rewrite Hu, Hid. auto.
Qed.

(** X4.  Whenever [supabase.auth.signUp] hands back a user, [signUp]
    throws: the migration gives [users] no insert policy, so the profile
    insert is refused under any session and the table is left as it was.
    The profile of the new account is therefore not found when the session
    starts, and [AppContent] stays on the sign-in form. *)
Theorem signUp_profile_refused (user : AuthUser) (uid : option uuid)
    (fullName : string) (now : timestamptz) (d : Db) (activeTab : string) :
  signUp (Ok (Some user)) uid fullName now d
  = (Thrown "42501 row-level security policy", d)
  /\ ((forall u, In u (users d) -> u_id u <> au_id user) ->
      let a := onAuthStateChange (Some (au_id user))
                 (snd (signUp (Ok (Some user)) uid fullName now d))
                 (mkAuth None true []) in
      auth_user a = None /\ AppContent a activeTab = AuthFormView).
Proof.
  split; [reflexivity|].
  intros Hnew. cbn [signUp users_insert users_insert_policies existsb negb snd].
  unfold onAuthStateChange, fetchUserProfile.
  destruct (users_select _ _ d) as [| u l] eqn:E.
  - cbn. split; reflexivity.
  - exfalso.
    assert (Hin : In u (users_select (Some (au_id user))
                          (fun u => String.eqb (u_id u) (au_id user)) d)).
    { rewrite E. left. reflexivity. }
    apply In_users_select in Hin as (Hin & _ & Hid).
    apply String.eqb_eq in Hid. exact (Hnew u Hin Hid).
Qed.

Lemma signUp_profile_refused_witness :
  let user := mkAuthUser "new-account" "new@demo.com" in
  (forall u, In u (users demo_db) -> u_id u <> au_id user)
  /\ signUp (Ok (Some user)) (Some "new-account") "New User" 5000 demo_db
     = (Thrown "42501 row-level security policy", demo_db)
  /\ AppContent (onAuthStateChange (Some "new-account") demo_db (mkAuth None true []))
                "tickets" = AuthFormView.
Proof.
  cbv zeta.
  assert (Hnew : forall u, In u (users demo_db) -> u_id u <> "new-account").
  { intros u [<- | [<- | []]]; discriminate. }
  split; [exact Hnew|].
  destruct (signUp_profile_refused (mkAuthUser "new-account" "new@demo.com")
              (Some "new-account") "New User" 5000 demo_db "tickets") as [H1 H2].
  split; [exact H1|]. exact (proj2 (H2 Hnew)).
Defined.

(** ** The edit form of the ticket modal *)

Lemma apply_edits_columns (cs : list Edit) (e : TicketPatch) :
  p_title e = None /\ p_description e = None /\ p_category e = None
  /\ p_created_by e = None /\ p_created_at e = None /\ p_resolved_at e = None ->
  p_title (fold_left apply_edit cs e) = None
  /\ p_description (fold_left apply_edit cs e) = None
  /\ p_category (fold_left apply_edit cs e) = None
  /\ p_created_by (fold_left apply_edit cs e) = None
  /\ p_created_at (fold_left apply_edit cs e) = None
  /\ p_resolved_at (fold_left apply_edit cs e) = None.
Proof.
  revert e. induction cs as [| c cs IH]; intros e H0; [exact H0|].
  cbn. apply IH. destruct c; cbn; exact H0.
Qed.

Lemma edited_columns (ticket : Ticket) (cs : list Edit) :
  p_title (edited ticket cs) = None
  /\ p_description (edited ticket cs) = None
  /\ p_category (edited ticket cs) = None
  /\ p_created_by (edited ticket cs) = None
  /\ p_created_at (edited ticket cs) = None
  /\ p_resolved_at (edited ticket cs) = None.
Proof.
  unfold edited. apply apply_edits_columns. cbn. repeat split; reflexivity.
Qed.

(** The edit form never names the key. *)
Lemma edited_key (ticket : Ticket) (cs : list Edit) : p_id (edited ticket cs) = None.
Proof.
  unfold edited. generalize (eq_refl : p_id (initial_editData ticket) = None).
  generalize (initial_editData ticket).
  induction cs as [| c cs IH]; intros e He; [exact He|].
  cbn. apply IH. destruct c; exact He.
Qed.

(** X5.  Whatever the administrator selects in the edit form, the update
    the modal sends leaves title, description, category, creator and
    creation time of the stored row alone and never writes [resolved_at]
    itself: a stamp that is set stays, and a NULL stamp is set only by the
    trigger, on a transition into resolved or closed.  Saved without any
    edit on an unchanged row, the form changes [updated_at] only. *)
Theorem modal_update_columns (ticket : Ticket) (cs : list Edit) (now : timestamptz)
    (OLD : Ticket) :
  let NEW := update_row (edited ticket cs) now OLD in
  title NEW = title OLD /\ description NEW = description OLD
  /\ category NEW = category OLD /\ created_by NEW = created_by OLD
  /\ created_at NEW = created_at OLD
  /\ (forall r, resolved_at OLD = Some r -> resolved_at NEW = Some r)
  /\ (resolved_at OLD = None ->
      resolved_at NEW
      = if enters_resolved (status OLD) (status NEW) then Some now else None)
  /\ update_row (edited ticket []) now ticket = with_updated_at (Some now) ticket.
Proof.
  cbv zeta.
  destruct (edited_columns ticket cs) as (Ht & Hd & Hc & Hb & Ha & Hr).
  assert (Hres := update_row_resolved_at (edited ticket cs) now OLD).
  assert (Hst := update_row_status (edited ticket cs) now OLD).
  repeat split.
  - unfold update_row, update_updated_at_column.
    destruct (negb _ && _ && _); cbn; rewrite Ht; reflexivity.
  - unfold update_row, update_updated_at_column.
    destruct (negb _ && _ && _); cbn; rewrite Hd; reflexivity.
  - unfold update_row, update_updated_at_column.
    destruct (negb _ && _ && _); cbn; rewrite Hc; reflexivity.
  - unfold update_row, update_updated_at_column.
    destruct (negb _ && _ && _); cbn; rewrite Hb; reflexivity.
  - unfold update_row, update_updated_at_column.
    destruct (negb _ && _ && _); cbn; rewrite Ha; reflexivity.
  - intros r Hold. rewrite Hres, Hold, Hr. cbn. rewrite andb_false_r. reflexivity.
  - intros Hold. rewrite Hres, Hst, Hold, Hr. cbn. rewrite andb_true_r. reflexivity.
  - unfold update_row, update_updated_at_column, edited, initial_editData.
    cbn. rewrite String.eqb_refl. cbn. destruct ticket; reflexivity.
Qed.

Lemma modal_update_columns_witness :
  let NEW := update_row (edited demo_resolved [EditPriority "high"; EditAssignee ""])
                        2000 demo_resolved in
  priority NEW = "high" /\ assigned_to NEW = None
  /\ title NEW = title demo_resolved
  /\ created_by NEW = created_by demo_resolved
  /\ resolved_at NEW = None.
Proof.
  cbv zeta.
  destruct (modal_update_columns demo_resolved [EditPriority "high"; EditAssignee ""]
              2000 demo_resolved) as (H1 & _ & _ & H4 & _ & _ & H7 & _).
  split; [reflexivity|]. split; [reflexivity|]. split; [exact H1|]. split; [exact H4|].
  exact (H7 eq_refl).
Defined.

(** ** The invariants of the tables *)

Lemma existsb_app_l {A : Type} (f : A -> bool) (l l' : list A) :
  existsb f l = true -> existsb f (l ++ l') = true.
Proof.
  intros H. rewrite existsb_app, H. reflexivity.
Qed.

Lemma comment_ok_same_ids (d d' : Db) (c : TicketComment) :
  users d' = users d ->
  (forall i, existsb (fun t => String.eqb (id t) i) (tickets d) = true ->
             existsb (fun t => String.eqb (id t) i) (tickets d') = true) ->
  comment_ok d c -> comment_ok d' c.
Proof.
  intros Hu Hids [Ht Hr]. unfold comment_ok. rewrite Hu. split; [|exact Hr].
  destruct (c_ticket_id c) as [i |]; [|reflexivity]. apply Hids. exact Ht.
Qed.

Lemma ticket_ok_same_users (d d' : Db) (t : Ticket) :
  users d' = users d -> ticket_ok d t -> ticket_ok d' t.
Proof.
  intros Hu H. unfold ticket_ok in *. rewrite Hu. exact H.
Qed.

Lemma tickets_insert_db_ok (uid : option uuid) (new_id : uuid) (now : timestamptz)
    (b : TicketBody) (d : Db) :
  db_ok d -> db_ok (snd (tickets_insert uid new_id now b d)).
Proof.
  intros (Hnd & Ht & Hc). unfold tickets_insert.
  destruct (negb (sql_eq (b_created_by b) uid)); [repeat split; assumption|].
  destruct (insert_row b new_id now) as [t |] eqn:Hrow; [|repeat split; assumption].
  destruct (negb (priority_check _ && status_check _)) eqn:Hchk;
    [repeat split; assumption|].
  destruct (existsb _ (tickets d)) eqn:Hdup; [repeat split; assumption|].
  destruct (negb (references_user _ _ && references_user _ _)) eqn:Hfk;
    [repeat split; assumption|].
  apply negb_false_iff, andb_true_iff in Hchk as [Hp Hs].
  apply negb_false_iff, andb_true_iff in Hfk as [Hcb Hat].
  assert (Hid : id t = new_id).
  { unfold insert_row in Hrow. destruct (b_title b); [|discriminate].
    destruct (b_description b); [|discriminate]. injection Hrow as <-. reflexivity. }
  unfold db_ok. cbn [snd tickets users ticket_comments]. split; [|split].
  - rewrite map_app. cbn [map]. apply NoDup_app; [exact Hnd | repeat constructor; auto |].
    intros a Hin [<- | []]. apply in_map_iff in Hin as (t' & Hid' & Hin').
    assert (Hex : existsb (fun t' => String.eqb (id t') new_id) (tickets d) = true).
    { apply existsb_exists. exists t'. split; [exact Hin'|].
      rewrite Hid', Hid. apply String.eqb_refl. }
    rewrite Hex in Hdup. discriminate Hdup.
  - apply Forall_app. split.
    + eapply Forall_impl; [|exact Ht]. intros t' H. exact H.
    + constructor; [|constructor]. repeat split; assumption.
  - eapply Forall_impl; [|exact Hc]. intros c H.
    apply (comment_ok_same_ids d); [reflexivity| |exact H].
    intros i. cbn. apply existsb_app_l.
Qed.

(** Deleting rows keeps the remaining ids distinct. *)
Lemma ids_unique_after_filter (keep : Ticket -> bool) (rows : list Ticket) :
  NoDup (map id rows) -> NoDup (map id (filter keep rows)).
Proof.
  induction rows as [| t rows IH]; intros Hnd; [exact Hnd|].
  cbn [map] in Hnd. apply NoDup_cons_iff in Hnd as [Hfresh Hrest].
  cbn [filter]. destruct (keep t); [|exact (IH Hrest)].
  cbn [map]. apply NoDup_cons; [|exact (IH Hrest)].
  rewrite in_map_iff. intros (t' & Hid & Hin).
  apply Hfresh. rewrite in_map_iff. exists t'.
  apply filter_In in Hin. tauto.
Qed.

Lemma tickets_update_cases (uid : option uuid) (now : timestamptz) (i : uuid)
    (p : TicketPatch) (d : Db) :
  snd (tickets_update uid now i p d) = d
  \/ exists OLD NEW,
       In OLD (tickets d) /\ id OLD = i
       /\ ticket_update (users d) uid p now OLD = Some NEW
       /\ key_constraints d i NEW = true
       /\ tickets_update uid now i p d
          = (Ok NEW,
             mkDb (users d)
                  (map (fun t => if String.eqb (id t) i then NEW else t) (tickets d))
                  (ticket_comments d)).
Proof.
  unfold tickets_update.
  destruct (empty_patch p); auto.
  destruct (filter _ (tickets d)) as [| OLD [| ? ?]] eqn:E; auto.
  destruct (ticket_update (users d) uid p now OLD) as [NEW |] eqn:Hup; auto.
  destruct (key_constraints d i NEW) eqn:Hkey; auto.
  right. exists OLD, NEW.
  assert (Hin : In OLD (filter (fun t => String.eqb (id t) i
                                          && tickets_update_policy (users d) uid t)
                               (tickets d))).
  { rewrite E. left. reflexivity. }
  apply filter_In in Hin as [Hin Hc]. apply andb_true_iff in Hc as [Hid _].
  apply String.eqb_eq in Hid. auto.
Qed.

(** The key of the row an update writes: the one its [SET] list names, or
    else the old one. *)
Lemma ticket_update_id (us : list User) (uid : option uuid) (p : TicketPatch)
    (now : timestamptz) (OLD NEW : Ticket) :
  ticket_update us uid p now OLD = Some NEW -> id NEW = set_col (p_id p) (id OLD).
Proof.
  intros H. rewrite (ticket_update_row _ _ _ _ _ _ H).
  unfold update_row, update_updated_at_column.
  destruct (negb _ && _ && _); reflexivity.
Qed.

Lemma ticket_update_constraints (us : list User) (uid : option uuid) (p : TicketPatch)
    (now : timestamptz) (OLD NEW : Ticket) :
  ticket_update us uid p now OLD = Some NEW ->
  tickets_update_policy us uid OLD = true
  /\ tickets_update_policy us uid NEW = true
  /\ ticket_constraints us NEW = true.
Proof.
  unfold ticket_update.
  destruct (tickets_update_policy us uid OLD); [|discriminate].
  destruct (_ && _) eqn:E; [|discriminate].
  intros H. injection H as <-. apply andb_true_iff in E. tauto.
Qed.

(** What [key_constraints] says: the key is kept, or the new key is unused
    and no comment refers to the old one. *)
Lemma key_constraints_cases (d : Db) (i : uuid) (NEW : Ticket) :
  key_constraints d i NEW = true ->
  id NEW = i
  \/ (~ In (id NEW) (map id (tickets d))
      /\ forall c, In c (ticket_comments d) -> c_ticket_id c <> Some i).
Proof.
  unfold key_constraints. intros H. apply orb_true_iff in H as [H | H].
  - left. apply String.eqb_eq. exact H.
  - right. apply andb_true_iff in H as [Hnew Hold].
    apply negb_true_iff in Hnew, Hold. split.
    + intros Hin. apply in_map_iff in Hin as (t & Hid & Hin).
      assert (Hex : existsb (fun t => String.eqb (id t) (id NEW)) (tickets d) = true).
      { apply existsb_exists. exists t. split; [exact Hin|].
        rewrite Hid. apply String.eqb_refl. }
      rewrite Hex in Hnew. discriminate Hnew.
    + intros c Hin Hc.
      assert (Hex : existsb (fun c => sql_eq (c_ticket_id c) (Some i)) (ticket_comments d)
                    = true).
      { apply existsb_exists. exists c. split; [exact Hin|].
        rewrite Hc. cbn. apply String.eqb_refl. }
      rewrite Hex in Hold. discriminate Hold.
Qed.

Lemma map_id_replace (i : uuid) (NEW : Ticket) (l : list Ticket) :
  id NEW = i ->
  map id (map (fun t => if String.eqb (id t) i then NEW else t) l) = map id l.
Proof.
  intros Hid. induction l as [| t l IH]; cbn; [reflexivity|].
  rewrite IH. destruct (String.eqb (id t) i) eqn:E; [|reflexivity].
  apply String.eqb_eq in E. rewrite Hid, E. reflexivity.
Qed.

(** Rows with another key than [i] are not touched by the replacement. *)
Lemma replace_other_rows (i : uuid) (NEW : Ticket) (l : list Ticket) :
  ~ In i (map id l) ->
  map (fun t => if String.eqb (id t) i then NEW else t) l = l.
Proof.
  induction l as [| t l IH]; cbn; intros Hni; [reflexivity|].
  destruct (String.eqb (id t) i) eqn:E.
  - apply String.eqb_eq in E. exfalso. apply Hni. left. exact E.
  - rewrite IH; [reflexivity|]. intros Hin. apply Hni. right. exact Hin.
Qed.

(** Distinct keys stay distinct when the row with key [i] takes an unused
    key. *)
Lemma ids_unique_after_replace (i : uuid) (NEW : Ticket) (l : list Ticket) :
  NoDup (map id l) ->
  ~ In (id NEW) (map id l) ->
  NoDup (map id (map (fun t => if String.eqb (id t) i then NEW else t) l)).
Proof.
  induction l as [| t l IH]; cbn [map]; intros Hnd Hnew; [exact Hnd|].
  apply NoDup_cons_iff in Hnd as [Hfresh Hrest].
  assert (Hnew' : ~ In (id NEW) (map id l)).
  { intros Hin. apply Hnew. right. exact Hin. }
  destruct (String.eqb (id t) i) eqn:E.
  - apply String.eqb_eq in E. rewrite replace_other_rows by (rewrite <- E; exact Hfresh).
    apply NoDup_cons; assumption.
  - apply NoDup_cons; [|exact (IH Hrest Hnew')].
    rewrite map_map, in_map_iff. intros (t' & Hid & Hin).
    destruct (String.eqb (id t') i).
    + apply Hnew. left. symmetry. exact Hid.
    + apply Hfresh. apply in_map_iff. eauto.
Qed.

Lemma existsb_id_replace (i j : uuid) (NEW : Ticket) (l : list Ticket) :
  j <> i \/ id NEW = i ->
  existsb (fun t => String.eqb (id t) j) l = true ->
  existsb (fun t => String.eqb (id t) j)
          (map (fun t => if String.eqb (id t) i then NEW else t) l) = true.
Proof.
  intros Hk H. apply existsb_exists in H as (t & Hin & Hid).
  apply String.eqb_eq in Hid. apply existsb_exists.
  exists (if String.eqb (id t) i then NEW else t). split.
  - apply in_map_iff. exists t. split; [reflexivity | exact Hin].
  - destruct (String.eqb (id t) i) eqn:E.
    + apply String.eqb_eq in E. destruct Hk as [Hne | HN].
      * exfalso. apply Hne. rewrite <- Hid. exact E.
      * rewrite HN, <- E, Hid. apply String.eqb_refl.
    + rewrite Hid. apply String.eqb_refl.
Qed.

Lemma tickets_update_db_ok (uid : option uuid) (now : timestamptz) (i : uuid)
    (p : TicketPatch) (d : Db) :
  db_ok d -> db_ok (snd (tickets_update uid now i p d)).
Proof.
  intros Hok.
  destruct (tickets_update_cases uid now i p d)
    as [-> | (OLD & NEW & Hin & Hid & Hup & Hkey & ->)]; [exact Hok|].
  destruct Hok as (Hnd & Ht & Hc).
  destruct (ticket_update_constraints _ _ _ _ _ _ Hup) as (_ & _ & Hcon).
  apply key_constraints_cases in Hkey.
  unfold db_ok. cbn [snd tickets users ticket_comments]. split; [|split].
  - destruct Hkey as [HidN | [Hnew _]].
    + rewrite (map_id_replace i NEW _ HidN). exact Hnd.
    + apply ids_unique_after_replace; assumption.
  - apply Forall_forall. intros t Hint. apply in_map_iff in Hint as (t0 & <- & Hin0).
    destruct (String.eqb (id t0) i).
    + unfold ticket_constraints in Hcon. unfold ticket_ok. cbn [users].
      apply andb_true_iff in Hcon as [Hcon H4]. apply andb_true_iff in Hcon as [Hcon H3].
      apply andb_true_iff in Hcon as [H1 H2]. auto.
    + rewrite Forall_forall in Ht. exact (Ht t0 Hin0).
  - apply Forall_forall. intros c Hinc.
    rewrite Forall_forall in Hc. destruct (Hc c Hinc) as [Hex Hu].
    split; [|exact Hu]. cbn [tickets].
    destruct (c_ticket_id c) as [j |] eqn:Ej; [|reflexivity].
    apply existsb_id_replace; [|exact Hex].
    destruct Hkey as [HidN | [_ Hold]]; [right; exact HidN|].
    left. intros ->. exact (Hold c Hinc Ej).
Qed.

Lemma tickets_delete_db_ok (uid : option uuid) (i : uuid) (d : Db) :
  db_ok d -> db_ok (snd (tickets_delete uid i d)).
Proof.
  intros Hok. unfold tickets_delete.
  destruct (tickets_delete_policy (users d) uid); [|exact Hok].
  destruct Hok as (Hnd & Ht & Hc).
  unfold db_ok. cbn [snd tickets users ticket_comments]. split; [|split].
  - apply ids_unique_after_filter. exact Hnd.
  - apply Forall_forall. intros t Hin. apply filter_In in Hin as [Hin _].
    rewrite Forall_forall in Ht. exact (Ht t Hin).
  - apply Forall_forall. intros c Hin. apply filter_In in Hin as [Hin Hne].
    rewrite Forall_forall in Hc. destruct (Hc c Hin) as [Hex Hu].
    split; [|exact Hu]. cbn [tickets].
    destruct (c_ticket_id c) as [j |]; [|reflexivity].
    apply existsb_exists in Hex as (t & Hint & Hid).
    apply existsb_exists. exists t. split; [|exact Hid].
    apply filter_In. split; [exact Hint|].
    apply String.eqb_eq in Hid. rewrite Hid.
    cbn in Hne. exact Hne.
Qed.

Lemma comments_insert_db_ok (uid : option uuid) (new_id : uuid) (now : timestamptz)
    (tid author : option uuid) (body : string) (d : Db) :
  db_ok d -> db_ok (snd (comments_insert uid new_id now tid author body d)).
Proof.
  intros Hok. unfold comments_insert.
  destruct (negb (comments_insert_policy d uid _)) eqn:Hpol; [exact Hok|].
  destruct (negb (references_user (users d) author)) eqn:Hfk; [exact Hok|].
  destruct Hok as (Hnd & Ht & Hc).
  apply negb_false_iff in Hpol, Hfk.
  unfold db_ok. cbn [snd tickets users ticket_comments].
  split; [exact Hnd|]. split; [exact Ht|].
  apply Forall_app. split; [exact Hc|].
  constructor; [|constructor]. split; [|exact Hfk]. cbn [c_ticket_id].
  unfold comments_insert_policy, parent_ticket_readable in Hpol. cbn in Hpol.
  apply andb_true_iff in Hpol as [_ Hpar].
  apply existsb_exists in Hpar as (t & Hin & Hcond).
  apply andb_true_iff in Hcond as [Hid _].
  destruct tid as [j |]; [|reflexivity].
  apply existsb_exists. exists t. split; [exact Hin | exact Hid].
Qed.

Lemma db_ok_demo : db_ok demo_db.
Proof.
  split; [|split].
  - cbn. repeat constructor; cbn; intuition discriminate.
  - cbn. repeat constructor.
  - constructor.
Qed.

(** X6.  The constraints of the schema are an invariant of everything a
    client can send: after any sequence of ticket inserts, updates and
    deletes and comment inserts, accepted or refused, by any callers, ticket
    ids are still unique, every priority and status is one of the listed
    values, every creator, assignee and comment author names an existing
    user, and every comment belongs to an existing ticket. *)
Theorem db_ok_invariant (d d' : Db) :
  db_ok d -> db_steps d d' -> db_ok d'.
Proof.
  intros Hok Hsteps. induction Hsteps as [d | d d1 d2 Hstep _ IH]; [exact Hok|].
  apply IH. destruct Hstep.
  - apply tickets_insert_db_ok, Hok.
  - apply tickets_update_db_ok, Hok.
  - apply tickets_delete_db_ok, Hok.
  - apply comments_insert_db_ok, Hok.
Qed.

Lemma db_ok_invariant_witness :
  let d1 := snd (comments_insert (Some user_id) "c1" 3000 (Some "t1") (Some user_id)
                   "hello" demo_db) in
  let d2 := snd (tickets_delete (Some admin_id) "t1" d1) in
  db_ok demo_db /\ ticket_comments d1 <> [] /\ ticket_comments d2 = [] /\ db_ok d2.
Proof.
  cbv zeta.
  assert (H0 : db_ok demo_db).
  { split; [|split].
    - cbn. repeat constructor; cbn; intuition discriminate.
    - cbn. repeat constructor.
    - constructor. }
  split; [exact H0|]. split; [discriminate|]. split; [reflexivity|].
  apply (db_ok_invariant demo_db); [exact H0|].
  eapply steps_more;
    [apply (step_comment (Some user_id) "c1" 3000 (Some "t1") (Some user_id) "hello")|].
  eapply steps_more; [apply (step_delete (Some admin_id) "t1")|].
  apply steps_refl.
Defined.

(** ** The dashboard counts *)

Lemma length_filter_cons {A : Type} (p : A -> bool) (x : A) (l : list A) :
  List.length (filter p (x :: l))
  = ((if p x then 1 else 0) + List.length (filter p l))%nat.
Proof. cbn. destruct (p x); reflexivity. Qed.

Lemma one_status (t : Ticket) :
  status_check (status t) = true ->
  ((if has_status "open" t then 1 else 0)
   + (if has_status "in_progress" t then 1 else 0)
   + (if resolved_or_closed t then 1 else 0) = 1)%nat.
Proof.
  unfold status_check, resolved_or_closed, has_status. intros H.
  destruct (String.eqb (status t) "open") eqn:E1.
  { apply String.eqb_eq in E1. rewrite E1. reflexivity. }
  destruct (String.eqb (status t) "in_progress") eqn:E2.
  { apply String.eqb_eq in E2. rewrite E2. reflexivity. }
  cbn in H. rewrite H. reflexivity.
Qed.

Lemma status_partition (ts : list Ticket) :
  Forall (fun t => status_check (status t) = true) ts ->
  (List.length (filter (has_status "open") ts)
   + List.length (filter (has_status "in_progress") ts)
   + List.length (filter resolved_or_closed ts) = List.length ts)%nat.
Proof.
  induction 1 as [| t ts Ht _ IH]; [reflexivity|].
  rewrite !length_filter_cons. pose proof (one_status t Ht). cbn [List.length]. lia.
Qed.

(** X7.  When every fetched ticket has one of the four statuses of the
    schema, the three status cards of the dashboard add up to the total:
    open, in progress and resolved (resolved or closed) tickets partition
    the tickets, and the active tickets are those that are not resolved. *)
Theorem dashboard_counts_partition (ts : list Ticket) :
  Forall (fun t => status_check (status t) = true) ts ->
  let stats := dashboard_stats (Some ts) in
  (openTickets stats + inProgressTickets stats + resolvedTickets stats
   = totalTickets stats)%nat
  /\ (activeTickets stats + resolvedTickets stats = totalTickets stats)%nat
  /\ totalTickets stats = List.length ts.
Proof.
  intros H. cbv zeta. unfold activeTickets, dashboard_stats.
  cbn [openTickets inProgressTickets resolvedTickets totalTickets].
  rewrite !length_or_0_length, filter_all.
  pose proof (status_partition ts H). auto.
Qed.

Lemma dashboard_counts_partition_witness :
  let ts := [demo_open; demo_reopened; demo_closed; demo_resolved] in
  Forall (fun t => status_check (status t) = true) ts
  /\ openTickets (dashboard_stats (Some ts)) = 2%nat
  /\ (openTickets (dashboard_stats (Some ts)) + inProgressTickets (dashboard_stats (Some ts))
      + resolvedTickets (dashboard_stats (Some ts))
      = totalTickets (dashboard_stats (Some ts)))%nat.
Proof.
  cbv zeta.
  assert (H : Forall (fun t => status_check (status t) = true)
                [demo_open; demo_reopened; demo_closed; demo_resolved]).
  { repeat (apply Forall_cons; [reflexivity|]). apply Forall_nil. }
  split; [exact H|]. split; [reflexivity|].
  exact (proj1 (dashboard_counts_partition _ H)).
Defined.

Lemma count_of_bump (k key : string) (acc : Counts) :
  count_of k (bump key acc)
  = (count_of k acc + if String.eqb key k then 1 else 0)%nat.
Proof.
  induction acc as [| [k' n] acc IH]; cbn.
  - destruct (String.eqb key k); reflexivity.
  - destruct (String.eqb k' key) eqn:E; cbn.
    + apply String.eqb_eq in E. subst k'.
      destruct (String.eqb key k); lia.
    + destruct (String.eqb k' k) eqn:E'; [|exact IH].
      apply String.eqb_eq in E'. subst k'. rewrite String.eqb_sym, E. lia.
Qed.

Lemma count_of_group (f : Ticket -> string) (k : string) (ts : list Ticket) (acc : Counts) :
  count_of k (fold_left (fun acc ticket => bump (f ticket) acc) ts acc)
  = (count_of k acc + List.length (filter (fun t => String.eqb (f t) k) ts))%nat.
Proof.
  revert acc. induction ts as [| t ts IH]; intros acc; cbn [fold_left filter].
  - cbn. lia.
  - rewrite IH, count_of_bump. destruct (String.eqb (f t) k); cbn [List.length]; lia.
Qed.

Lemma keys_bump (key : string) (acc : Counts) :
  NoDup (map fst acc) ->
  NoDup (map fst (bump key acc))
  /\ (forall k, In k (map fst (bump key acc)) <-> k = key \/ In k (map fst acc))
  /\ total_count (bump key acc) = S (total_count acc).
Proof.
  induction acc as [| [k' n] acc IH]; cbn; intros Hnd.
  - split; [repeat constructor; auto|]. split; [intuition congruence | reflexivity].
  - inversion Hnd as [| ? ? Hk Hrest]; subst.
    destruct (String.eqb k' key) eqn:E; cbn.
    + apply String.eqb_eq in E. subst k'.
      split; [exact Hnd|]. split; [intuition congruence | reflexivity].
    + apply String.eqb_neq in E.
      destruct (IH Hrest) as (H1 & H2 & H3).
      split; [|split].
      * constructor; [|exact H1]. intros Hin. apply H2 in Hin as [-> | Hin]; auto.
      * intros k. rewrite H2. intuition congruence.
      * rewrite H3. lia.
Qed.

Lemma keys_group (f : Ticket -> string) (ts : list Ticket) (acc : Counts) :
  NoDup (map fst acc) ->
  let r := fold_left (fun acc ticket => bump (f ticket) acc) ts acc in
  NoDup (map fst r)
  /\ (forall k, In k (map fst r) <-> In k (map f ts) \/ In k (map fst acc))
  /\ total_count r = (total_count acc + List.length ts)%nat.
Proof.
  cbv zeta. revert acc. induction ts as [| t ts IH]; intros acc Hnd; cbn [fold_left].
  - split; [exact Hnd|]. split; [cbn; tauto | cbn; lia].
  - destruct (keys_bump (f t) acc Hnd) as (H1 & H2 & H3).
    destruct (IH _ H1) as (G1 & G2 & G3).
    split; [exact G1|]. split.
    + intros k. rewrite G2, H2. cbn. intuition congruence.
    + rewrite G3, H3. cbn. lia.
Qed.

(** X8.  For tickets whose priority is one of the four of the schema, the
    priority chart of the dashboard has one row for each priority that
    occurs, at most four, the count of a row is the number of tickets with
    that priority, and the counts add up to the number of tickets. *)
Theorem tickets_by_priority_counts (ts : list Ticket) :
  Forall (fun t => priority_check (priority t) = true) ts ->
  let chart := ticketsByPriority (Some ts) in
  (forall p, count_of p chart = with_priority p ts)
  /\ NoDup (map fst chart)
  /\ (forall p, In p (map fst chart) <-> In p (map priority ts))
  /\ (List.length chart <= 4)%nat
  /\ total_count chart = List.length ts.
Proof.
  intros Hchk. cbv zeta. unfold ticketsByPriority.
  destruct (keys_group priority ts [] (NoDup_nil _)) as (H1 & H2 & H3).
  split; [|split; [|split; [|split]]].
  - intros p. rewrite count_of_group. reflexivity.
  - exact H1.
  - intros p. rewrite H2. cbn. tauto.
  - rewrite <- (length_map fst).
    change 4%nat with (List.length ["low"; "medium"; "high"; "urgent"]).
    apply NoDup_incl_length; [exact H1|].
    intros p Hp. apply H2 in Hp as [Hp | []].
    apply in_map_iff in Hp as (t & <- & Hin).
    rewrite Forall_forall in Hchk. specialize (Hchk t Hin).
    unfold priority_check in Hchk.
    repeat (apply orb_true_iff in Hchk as [Hchk | Hchk]);
      apply String.eqb_eq in Hchk; rewrite Hchk; cbn; auto.
  - rewrite H3. reflexivity.
Qed.

Lemma tickets_by_priority_counts_witness :
  let ts := [demo_open; demo_resolved; demo_closed] in
  Forall (fun t => priority_check (priority t) = true) ts
  /\ ticketsByPriority (Some ts) = [("high", 2%nat); ("low", 1%nat)]
  /\ forall p, count_of p (ticketsByPriority (Some ts)) = with_priority p ts.
Proof.
  cbv zeta.
  assert (H : Forall (fun t => priority_check (priority t) = true)
                [demo_open; demo_resolved; demo_closed]).
  { repeat (apply Forall_cons; [reflexivity|]). apply Forall_nil. }
  split; [exact H|]. split; [reflexivity|].
  exact (proj1 (tickets_by_priority_counts _ H)).
Defined.

Lemma uncategorized_key (t : Ticket) :
  String.eqb (category_or_default t) "Uncategorized" = uncategorized t.
Proof.
  unfold category_or_default, uncategorized.
  destruct (category t) as [c |]; [|reflexivity].
  destruct (String.eqb c "") eqn:E; [reflexivity|]. reflexivity.
Qed.

(** X9.  For category labels that are not property names of
    [Object.prototype], the category chart counts every ticket once, under
    its category; a ticket whose category is NULL or the empty string is
    counted under 'Uncategorized', together with the tickets that carry
    that label themselves. *)
Theorem tickets_by_category_counts (ts : list Ticket) :
  Forall (fun t => own_key (category_or_default t) = true) ts ->
  let chart := ticketsByCategory (Some ts) in
  (forall c, count_of c chart = with_category c ts)
  /\ count_of "Uncategorized" chart = List.length (filter uncategorized ts)
  /\ NoDup (map fst chart)
  /\ total_count chart = List.length ts.
Proof.
  intros _. cbv zeta. unfold ticketsByCategory.
  destruct (keys_group category_or_default ts [] (NoDup_nil _)) as (H1 & _ & H3).
  split; [|split; [|split]].
  - intros c. rewrite count_of_group. reflexivity.
  - rewrite count_of_group. cbn [count_of Nat.add]. f_equal.
    apply filter_ext. intros t. apply uncategorized_key.
  - exact H1.
  - rewrite H3. reflexivity.
Qed.

Lemma tickets_by_category_counts_witness :
  let blank_category :=
    mkTicket "t4" "No category" "Chosen nothing in the form" "low" "open" (Some "")
             (Some user_id) None (Some 1000) (Some 1000) None in
  let ts := [demo_open; blank_category; demo_resolved] in
  Forall (fun t => own_key (category_or_default t) = true) ts
  /\ ticketsByCategory (Some ts)
     = [("Hardware", 1%nat); ("Uncategorized", 1%nat); ("Software", 1%nat)]
  /\ count_of "Uncategorized" (ticketsByCategory (Some ts))
     = List.length (filter uncategorized ts).
Proof.
  cbv zeta.
  assert (H : Forall (fun t => own_key (category_or_default t) = true)
                [demo_open;
                 mkTicket "t4" "No category" "Chosen nothing in the form" "low" "open"
                          (Some "") (Some user_id) None (Some 1000) (Some 1000) None;
                 demo_resolved]).
  { repeat (apply Forall_cons; [reflexivity|]). apply Forall_nil. }
  split; [exact H|]. split; [reflexivity|].
  exact (proj1 (proj2 (tickets_by_category_counts _ H))).
Defined.

(** ** Ordering *)

Section Sorting.

Context {A : Type} (le : A -> A -> bool).
Hypothesis le_total : forall x y, le x y = true \/ le y x = true.
Hypothesis le_trans : forall x y z, le x y = true -> le y z = true -> le x z = true.

Lemma insert_sorted_perm (x : A) (l : list A) :
  Permutation (insert_sorted le x l) (x :: l).
Proof.
  induction l as [| y l IH]; cbn; [reflexivity|].
  destruct (le x y); [reflexivity|].
  rewrite IH. apply perm_swap.
Qed.

Lemma order_by_perm (l : list A) : Permutation (order_by le l) l.
Proof.
  induction l as [| x l IH]; cbn; [reflexivity|].
  rewrite insert_sorted_perm, IH. reflexivity.
Qed.

Lemma insert_sorted_sorted (x : A) (l : list A) :
  sorted_by le l -> sorted_by le (insert_sorted le x l).
Proof.
  induction l as [| y l IH]; cbn; [auto|].
  intros [Hy Hl]. destruct (le x y) eqn:E; cbn.
  - split; [|auto]. constructor; [exact E|].
    eapply Forall_impl; [|exact Hy]. intros z Hz. exact (le_trans _ _ _ E Hz).
  - split; [|auto].
    apply Forall_forall. intros z Hz. apply In_insert_sorted in Hz as [-> | Hz].
    + destruct (le_total x y) as [H | H]; [rewrite H in E; discriminate | exact H].
    + rewrite Forall_forall in Hy. auto.
Qed.

Lemma order_by_sorted (l : list A) : sorted_by le (order_by le l).
Proof.
  induction l as [| x l IH]; cbn; [exact I|]. apply insert_sorted_sorted, IH.
Qed.

Lemma sorted_by_app (l1 l2 : list A) :
  sorted_by le (l1 ++ l2) ->
  sorted_by le l1 /\ forall x y, In x l1 -> In y l2 -> le x y = true.
Proof.
  induction l1 as [| a l1 IH]; cbn.
  - intros _. split; [exact I|]. intros x y [].
  - intros [Ha Hs]. destruct (IH Hs) as [H1 H2].
    apply Forall_app in Ha as [Ha1 Ha2].
    split; [auto|].
    intros x y [<- | Hx] Hy; [|auto].
    rewrite Forall_forall in Ha2. auto.
Qed.

End Sorting.

(** X10.  The dashboard lists at most six categories, largest count first;
    they are entries of the chart, and no entry left out has a larger count
    than one that is listed. *)
Theorem top_categories_largest (entries : Counts) :
  (List.length (top_categories entries) <= 6)%nat
  /\ sorted_by (fun a b => Nat.leb (snd b) (snd a)) (top_categories entries)
  /\ exists hidden,
       Permutation entries (top_categories entries ++ hidden)
       /\ forall shown rest,
            In shown (top_categories entries) -> In rest hidden ->
            (snd rest <= snd shown)%nat.
Proof.
  unfold top_categories.
  set (le := fun a b : string * nat => Nat.leb (snd b) (snd a)).
  assert (Htot : forall x y, le x y = true \/ le y x = true).
  { intros x y. unfold le. destruct (Nat.leb (snd y) (snd x)) eqn:E; [auto|].
    right. apply Nat.leb_le. apply Nat.leb_gt in E. lia. }
  assert (Htr : forall x y z, le x y = true -> le y z = true -> le x z = true).
  { intros x y z. unfold le. rewrite !Nat.leb_le. lia. }
  pose proof (order_by_sorted le Htot Htr entries) as Hs.
  rewrite <- (firstn_skipn 6 (order_by le entries)) in Hs.
  destruct (sorted_by_app le _ _ Hs) as [H1 H2].
  split; [apply firstn_le_length|]. split; [exact H1|].
  exists (skipn 6 (order_by le entries)). split.
  - rewrite firstn_skipn. symmetry. apply order_by_perm.
  - intros shown rest Hin Hrest. apply Nat.leb_le. exact (H2 shown rest Hin Hrest).
Qed.

Lemma top_categories_largest_witness :
  let entries := [("Hardware", 2%nat); ("Email", 5%nat); ("Printer", 1%nat);
                  ("Network", 5%nat); ("Software", 3%nat); ("Security", 1%nat);
                  ("Other", 4%nat)] in
  top_categories entries
  = [("Email", 5%nat); ("Network", 5%nat); ("Other", 4%nat); ("Software", 3%nat);
     ("Hardware", 2%nat); ("Printer", 1%nat)]
  /\ (List.length (top_categories entries) <= 6)%nat.
Proof.
  cbv zeta. split; [reflexivity|].
  exact (proj1 (top_categories_largest _)).
Defined.

Lemma created_leb_total (a b : option timestamptz) :
  created_leb a b = true \/ created_leb b a = true.
Proof.
  destruct a as [x |], b as [y |]; cbn; auto.
  destruct (Z.leb_spec x y); [auto|]. right. apply Z.leb_le. lia.
Qed.

Lemma created_leb_trans (a b c : option timestamptz) :
  created_leb a b = true -> created_leb b c = true -> created_leb a c = true.
Proof.
  destruct a as [x |], b as [y |], c as [z |]; cbn; try discriminate; auto.
  rewrite !Z.leb_le. lia.
Qed.

(** X11.  After [fetchTickets] the list of the hook holds each row of the
    query exactly once, newest first (a NULL [created_at] before any
    other); the thread [fetchComments] asks for comes oldest first. *)
Theorem fetched_lists_ordered (user : option User) (filters : UseTicketsProps)
    (s : St PgWorld) (i : uuid) :
  let s' := snd (fetchTickets PgWorld postgres user filters s) in
  let uid := pg_uid (world s) in
  let d := pg_db (world s) in
  sorted_by (fun a b => created_leb (created_at b) (created_at a)) (h_tickets s')
  /\ Permutation (h_tickets s') (tickets_rows uid (fetchTickets_filters user filters) d)
  /\ sorted_by (fun a b => created_leb (c_created_at a) (c_created_at b))
               (comments_select uid i d).
Proof.
  cbv zeta.
  destruct (fetchTickets_postgres user filters s) as (s1 & Hs1 & Hlist & _).
  rewrite Hs1. cbn [snd]. rewrite Hlist. unfold tickets_select, comments_select.
  split; [|split].
  - apply order_by_sorted.
    + intros x y. apply created_leb_total.
    + intros x y z H1 H2. exact (created_leb_trans _ _ _ H2 H1).
  - apply order_by_perm.
  - apply order_by_sorted.
    + intros x y. apply created_leb_total.
    + intros x y z. apply created_leb_trans.
Qed.

(** ** Deleting and updating *)

Lemma deleteTicket_postgres (user : option User) (filters : UseTicketsProps)
    (i : uuid) (s : St PgWorld) :
  exists s',
    deleteTicket PgWorld postgres user filters i s = (Returned tt, s')
    /\ pg_db (world s') = snd (tickets_delete (pg_uid (world s)) i (pg_db (world s)))
    /\ console s' = console s
    /\ h_tickets s' = tickets_select (pg_uid (world s)) (fetchTickets_filters user filters)
                        (pg_db (world s')).
Proof.
  unfold deleteTicket, fetchTickets, try_finally, try_catch, bind, request, ret,
    throw, setTickets, setLoading, console_error, modify.
  cbn [sb_tickets_delete sb_tickets_select postgres world].
  unfold pg_answer, tickets_delete.
  destruct (tickets_delete_policy _ _); cbn; eexists; repeat split; reflexivity.
Qed.

(** X12.  [deleteTicket] called by anyone but an administrator returns
    normally and logs nothing, and no ticket and no comment is deleted: the
    delete policy hides every row from the statement, which is no error. *)
Theorem delete_by_non_admin_is_silent (user : option User) (filters : UseTicketsProps)
    (i : uuid) (s : St PgWorld) :
  is_admin (users (pg_db (world s))) (pg_uid (world s)) = false ->
  exists s',
    deleteTicket PgWorld postgres user filters i s = (Returned tt, s')
    /\ pg_db (world s') = pg_db (world s)
    /\ console s' = console s.
Proof.
  intros Hna.
  destruct (deleteTicket_postgres user filters i s) as (s' & H1 & H2 & H3 & _).
  exists s'. split; [exact H1|]. split; [|exact H3].
  rewrite H2. unfold tickets_delete, tickets_delete_policy. rewrite Hna. reflexivity.
Qed.

Lemma delete_by_non_admin_is_silent_witness :
  let s := initial_state (demo_world (Some user_id)) in
  is_admin demo_users (Some user_id) = false
  /\ exists s',
       deleteTicket PgWorld postgres (Some demo_user) no_filters "t1" s = (Returned tt, s')
       /\ pg_db (world s') = demo_db
       /\ console s' = [].
Proof.
  cbv zeta. split; [reflexivity|].
  apply (delete_by_non_admin_is_silent (Some demo_user) no_filters "t1"
           (initial_state (demo_world (Some user_id)))).
  reflexivity.
Defined.

(** X13.  [deleteTicket] called by an administrator removes the ticket with
    that id and, with it, its comments; every other ticket and every
    comment of another ticket stays, and the refreshed list no longer shows
    the ticket. *)
Theorem delete_by_admin_cascades (user : option User) (filters : UseTicketsProps)
    (i : uuid) (s : St PgWorld) :
  is_admin (users (pg_db (world s))) (pg_uid (world s)) = true ->
  exists s',
    deleteTicket PgWorld postgres user filters i s = (Returned tt, s')
    /\ (forall t, In t (tickets (pg_db (world s'))) <->
                  In t (tickets (pg_db (world s))) /\ id t <> i)
    /\ (forall c, In c (ticket_comments (pg_db (world s'))) <->
                  In c (ticket_comments (pg_db (world s))) /\ c_ticket_id c <> Some i)
    /\ (forall t, In t (h_tickets s') -> id t <> i).
Proof.
  intros Ha.
  destruct (deleteTicket_postgres user filters i s) as (s' & H1 & H2 & _ & H4).
  exists s'. split; [exact H1|].
  assert (Hd : pg_db (world s')
               = mkDb (users (pg_db (world s)))
                      (filter (fun t => negb (String.eqb (id t) i))
                              (tickets (pg_db (world s))))
                      (filter (fun c => negb (sql_eq (c_ticket_id c) (Some i)))
                              (ticket_comments (pg_db (world s))))).
  { rewrite H2. unfold tickets_delete, tickets_delete_policy. rewrite Ha. reflexivity. }
  assert (Ht : forall t, In t (tickets (pg_db (world s'))) <->
                         In t (tickets (pg_db (world s))) /\ id t <> i).
  { intros t. rewrite Hd. cbn [tickets]. rewrite filter_In, negb_true_iff.
    rewrite String.eqb_neq. tauto. }
  split; [exact Ht|]. split.
  - intros c. rewrite Hd. cbn [ticket_comments]. rewrite filter_In, negb_true_iff.
    split; intros [Hin Hne]; (split; [exact Hin|]).
    + intros E. rewrite E in Hne. cbn in Hne. rewrite String.eqb_refl in Hne.
      discriminate Hne.
    + destruct (c_ticket_id c) as [j |]; [|reflexivity]. cbn.
      apply String.eqb_neq. intros ->. apply Hne. reflexivity.
  - intros t Hin. rewrite H4 in Hin. apply In_tickets_select in Hin as (Hin & _).
    apply Ht in Hin. tauto.
Qed.

Lemma delete_by_admin_cascades_witness :
  let d1 := snd (comments_insert (Some user_id) "c1" 3000 (Some "t1") (Some user_id)
                   "hello" demo_db) in
  let s := initial_state (mkWorld d1 (Some admin_id) (fun n => 4000 + Z.of_nat n)
                            fresh_id 0) in
  ticket_comments d1 <> []
  /\ exists s',
       deleteTicket PgWorld postgres (Some demo_admin) no_filters "t1" s = (Returned tt, s')
       /\ (forall t, In t (tickets (pg_db (world s'))) <-> In t (tickets d1) /\ id t <> "t1")
       /\ (forall c, In c (ticket_comments (pg_db (world s'))) <->
                     In c (ticket_comments d1) /\ c_ticket_id c <> Some "t1")
       /\ (forall t, In t (h_tickets s') -> id t <> "t1").
Proof.
  cbv zeta. split; [discriminate|].
  apply (delete_by_admin_cascades (Some demo_admin) no_filters "t1").
  reflexivity.
Defined.

(** X14.  [updateTicket] on a ticket that does not exist or that the caller
    may not update (neither its creator nor an administrator) throws: the
    update policy hides the row, [single()] finds no row to return, and the
    database and the list are left as they were. *)
Theorem update_without_permission_throws (user : option User)
    (filters : UseTicketsProps) (i : uuid) (updates : TicketPatch) (s : St PgWorld) :
  (forall t, In t (tickets (pg_db (world s))) -> id t = i ->
             tickets_update_policy (users (pg_db (world s))) (pg_uid (world s)) t = false) ->
  exists s',
    updateTicket PgWorld postgres user filters i updates s
    = (Thrown "PGRST116 not a single row", s')
    /\ pg_db (world s') = pg_db (world s)
    /\ h_tickets s' = h_tickets s
    /\ console s' = console s ++ [("Error updating ticket:", "PGRST116 not a single row")].
Proof.
  intros Hno.
  assert (Hreq : sb_tickets_update postgres i updates (world s)
                 = (Err "PGRST116 not a single row", pg_next (world s) (pg_db (world s)))).
  { cbn [sb_tickets_update postgres]. unfold pg_answer, tickets_update.
    destruct (empty_patch updates); [reflexivity|].
    destruct (filter _ (tickets (pg_db (world s)))) as [| OLD l] eqn:E; [reflexivity|].
    exfalso.
    assert (Hin : In OLD (filter (fun t => String.eqb (id t) i
                                            && tickets_update_policy
                                                 (users (pg_db (world s)))
                                                 (pg_uid (world s)) t)
                                 (tickets (pg_db (world s))))).
    { rewrite E. left. reflexivity. }
    apply filter_In in Hin as [Hin Hc]. apply andb_true_iff in Hc as [Hid Hp].
    apply String.eqb_eq in Hid. rewrite (Hno OLD Hin Hid) in Hp. discriminate Hp. }
  destruct (updateTicket_error PgWorld postgres user filters i updates s _ _ Hreq)
    as (s' & H1 & H2 & H3 & H4).
  exists s'. split; [exact H1|]. split; [rewrite H4; reflexivity|]. auto.
Qed.

Lemma update_without_permission_throws_witness :
  let other := mkTicket "t9" "Server room" "Door stays open" "high" "open" None
                        (Some admin_id) None (Some 1000) (Some 1000) None in
  let d := mkDb demo_users [other] [] in
  let s := initial_state (mkWorld d (Some user_id) (fun n => 2000 + Z.of_nat n)
                            fresh_id 0) in
  tickets_update_policy demo_users (Some user_id) other = false
  /\ exists s',
       updateTicket PgWorld postgres (Some demo_user) no_filters "t9"
         (patch_status "closed") s = (Thrown "PGRST116 not a single row", s')
       /\ pg_db (world s') = d
       /\ h_tickets s' = []
       /\ console s' = [("Error updating ticket:", "PGRST116 not a single row")].
Proof.
  cbv zeta. split; [reflexivity|].
  apply (update_without_permission_throws (Some demo_user) no_filters "t9"
           (patch_status "closed")).
  intros t [<- | []] _. reflexivity.
Defined.

(** X15.  Through an update by a caller who is not an administrator a
    ticket cannot change hands: the update goes through only on a ticket the
    caller created, and only if the new row still names the caller as its
    creator. *)
Theorem creator_kept_by_non_admin (us : list User) (uid : option uuid)
    (p : TicketPatch) (now : timestamptz) (OLD NEW : Ticket) :
  is_admin us uid = false ->
  ticket_update us uid p now OLD = Some NEW ->
  created_by OLD = uid /\ created_by NEW = uid /\ uid <> None.
Proof.
  intros Hna Hup.
  destruct (ticket_update_constraints _ _ _ _ _ _ Hup) as (H1 & H2 & _).
  unfold tickets_update_policy in H1, H2. rewrite Hna, orb_false_r in H1, H2.
  apply sql_eq_true in H1 as (x & Hx & Hu).
  apply sql_eq_true in H2 as (y & Hy & Hu').
  rewrite Hx, Hy, Hu. rewrite Hu in Hu'. injection Hu' as ->.
  repeat split; discriminate.
Qed.

Lemma creator_kept_by_non_admin_witness :
  is_admin demo_users (Some user_id) = false
  /\ ticket_update demo_users (Some user_id) (patch_status "closed") 2000 demo_open
     = Some (update_row (patch_status "closed") 2000 demo_open)
  /\ ticket_update demo_users (Some user_id)
       (mkPatch None None None None None None (Some (Some admin_id)) None None None None)
       2000 demo_open = None
  /\ created_by (update_row (patch_status "closed") 2000 demo_open) = Some user_id.
Proof.
  split; [reflexivity|]. split; [reflexivity|]. split; [reflexivity|].
  exact (proj1 (proj2 (creator_kept_by_non_admin demo_users (Some user_id)
                         (patch_status "closed") 2000 demo_open _ eq_refl eq_refl))).
Defined.

Lemma tickets_update_ok (uid : option uuid) (now : timestamptz) (i : uuid)
    (p : TicketPatch) (d : Db) (NEW : Ticket) (d' : Db) :
  tickets_update uid now i p d = (Ok NEW, d') ->
  exists OLD,
    In OLD (tickets d) /\ id OLD = i
    /\ ticket_update (users d) uid p now OLD = Some NEW
    /\ key_constraints d i NEW = true
    /\ d' = mkDb (users d)
                 (map (fun t => if String.eqb (id t) i then NEW else t) (tickets d))
                 (ticket_comments d).
Proof.
  unfold tickets_update.
  destruct (empty_patch p); [discriminate|].
  destruct (filter _ (tickets d)) as [| OLD [| ? ?]] eqn:E; try discriminate.
  destruct (ticket_update (users d) uid p now OLD) as [N |] eqn:Hup; [|discriminate].
  destruct (key_constraints d i N) eqn:Hkey; [|discriminate].
  intros H. injection H as <- <-. exists OLD.
  assert (Hin : In OLD (filter (fun t => String.eqb (id t) i
                                          && tickets_update_policy (users d) uid t)
                               (tickets d))).
  { rewrite E. left. reflexivity. }
  apply filter_In in Hin as [Hin Hc]. apply andb_true_iff in Hc as [Hid _].
  apply String.eqb_eq in Hid. auto.
Qed.

(** X16.  A successful update through the request of [updateTicket] returns
    the row it has written, whose key is the one the [SET] list names or
    else the id asked for, stores it in place of the row asked for, and
    touches nothing else: every ticket with another id, every comment and
    every user is as before, and no row is added or lost.  A new key is
    accepted only if no other ticket carries it; where the [SET] list does
    not name the key, as with the edit form of the modal, the keys of the
    table are as before. *)
Theorem update_touches_one_row (uid : option uuid) (now : timestamptz) (i : uuid)
    (p : TicketPatch) (d : Db) (NEW : Ticket) (d' : Db) :
  tickets_update uid now i p d = (Ok NEW, d') ->
  id NEW = set_col (p_id p) i
  /\ (forall t, In t (tickets d') <-> t = NEW \/ (In t (tickets d) /\ id t <> i))
  /\ List.length (tickets d') = List.length (tickets d)
  /\ (id NEW <> i -> ~ In (id NEW) (map id (tickets d)))
  /\ (p_id p = None -> map id (tickets d') = map id (tickets d))
  /\ (forall cs ticket, p = edited ticket cs -> id NEW = i)
  /\ ticket_comments d' = ticket_comments d
  /\ users d' = users d.
Proof.
  intros Hup.
  destruct (tickets_update_ok _ _ _ _ _ _ _ Hup)
    as (OLD & Hin & Hid & Hrow & Hkey & ->).
  pose proof (ticket_update_id _ _ _ _ _ _ Hrow) as HidN. rewrite Hid in HidN.
  cbn [tickets ticket_comments users].
  split; [exact HidN|]. split; [|split; [|split; [|split; [|split]]]].
  - intros t. rewrite in_map_iff. split.
    + intros (t0 & Ht0 & Hin0). destruct (String.eqb (id t0) i) eqn:E.
      * left. symmetry. exact Ht0.
      * right. subst t. apply String.eqb_neq in E. auto.
    + intros [-> | [Hint Hne]].
      * exists OLD. split; [|exact Hin]. rewrite Hid, String.eqb_refl. reflexivity.
      * exists t. split; [|exact Hint].
        apply String.eqb_neq in Hne. rewrite Hne. reflexivity.
  - apply length_map.
  - intros Hne. apply key_constraints_cases in Hkey as [HN | [Hnew _]];
      [contradiction | exact Hnew].
  - intros Hp. apply map_id_replace. rewrite HidN, Hp. reflexivity.
  - intros cs ticket ->. rewrite HidN, edited_key. reflexivity.
  - split; reflexivity.
Qed.

Lemma update_touches_one_row_witness :
  let rekey := mkPatch (Some "t9") None None None (Some "resolved") None None None None
                       None None in
  let r := tickets_update (Some admin_id) 2000 "t2" rekey demo_db in
  exists NEW d',
    r = (Ok NEW, d')
    /\ id NEW = "t9" /\ status NEW = "resolved" /\ resolved_at NEW = Some 2000
    /\ (forall t, In t (tickets d') <-> t = NEW \/ (In t (tickets demo_db) /\ id t <> "t2"))
    /\ map id (tickets d') = ["t1"; "t9"; "t3"].
Proof.
  cbv zeta.
  assert (H : exists NEW d',
             tickets_update (Some admin_id) 2000 "t2"
               (mkPatch (Some "t9") None None None (Some "resolved") None None None None
                        None None) demo_db
             = (Ok NEW, d')
             /\ status NEW = "resolved" /\ resolved_at NEW = Some 2000
             /\ map id (tickets d') = ["t1"; "t9"; "t3"]).
  { eexists. eexists. split; [vm_compute; reflexivity|]. repeat split; reflexivity. }
  destruct H as (NEW & d' & H & Hs & Hr & Hm).
  destruct (update_touches_one_row _ _ _ _ _ _ _ H) as (H1 & H2 & _).
  exists NEW, d'. auto 8.
Defined.

(** ** Creating, listing, commenting *)

Lemma createTicket_postgres (user : option User) (filters : UseTicketsProps)
    (ticketData : TicketData) (s s' : St PgWorld) (t : Ticket) :
  createTicket PgWorld postgres user filters ticketData s = (Returned t, s') ->
  h_tickets s' = tickets_select (pg_uid (world s)) (fetchTickets_filters user filters)
                   (pg_db (world s'))
  /\ h_loading s' = false
  /\ console s' = console s
  /\ formData s' = formData s
  /\ success s' = success s
  /\ f_loading s' = f_loading s.
Proof.
  unfold createTicket, fetchTickets, try_finally, try_catch, bind, request, ret,
    throw, setTickets, setLoading, console_error, modify.
  cbn [sb_tickets_insert sb_tickets_select postgres world].
  unfold pg_answer.
  destruct (tickets_insert _ _ _ _ _) as [[data | error] d'];
    cbn; intros H; [|discriminate H].
  injection H as <- <-. repeat split; reflexivity.
Qed.

Lemma created_ticket_fields_aux (U : User) (filters : UseTicketsProps)
    (ticketData : TicketData) (s s' : St PgWorld) (t : Ticket) :
  createTicket PgWorld postgres (Some U) filters ticketData s = (Returned t, s') ->
  In t (tickets (pg_db (world s')))
  /\ created_by t = Some (u_id U)
  /\ pg_uid (world s) = Some (u_id U).
Proof.
  intros Hrun.
  destruct (createTicket_returned _ _ _ _ _ _ Hrun) as (d' & Hins & Hdb).
  apply tickets_insert_ok in Hins as (Hrow & Hpol & Htab & _).
  pose proof (insert_row_created_by _ _ _ _ Hrow) as Hcb. cbn in Hcb.
  split; [rewrite Hdb, Htab; apply in_or_app; right; left; reflexivity|].
  split; [exact Hcb|].
  unfold tickets_insert_policy in Hpol. rewrite Hcb in Hpol.
  apply sql_eq_true in Hpol as (x & Hx & Hu). rewrite Hu. symmetry. exact Hx.
Qed.

(** X17.  A ticket [createTicket] returns is in the list the hook holds
    afterwards exactly when it passes the hook's own filters; without
    filters, as in the creation form, it always is. *)
Theorem created_ticket_listed (U : User) (filters : UseTicketsProps)
    (ticketData : TicketData) (s s' : St PgWorld) (t : Ticket) :
  createTicket PgWorld postgres (Some U) filters ticketData s = (Returned t, s') ->
  (In t (h_tickets s') <->
   forallb (eval_filter t) (fetchTickets_filters (Some U) filters) = true)
  /\ (filters = no_filters -> In t (h_tickets s')).
Proof.
  intros Hrun.
  destruct (createTicket_postgres _ _ _ _ _ _ Hrun) as (Hlist & _).
  destruct (created_ticket_fields_aux U filters ticketData s s' t Hrun)
    as (Hin & Hcb & Huid).
  assert (Hiff : In t (h_tickets s') <->
                 forallb (eval_filter t) (fetchTickets_filters (Some U) filters) = true).
  { rewrite Hlist, In_tickets_select. split; [tauto|].
    intros H. split; [exact Hin|]. split; [|exact H].
    unfold tickets_select_policy. rewrite Hcb, Huid. cbn.
    rewrite String.eqb_refl. reflexivity. }
  split; [exact Hiff|].
  intros ->. apply Hiff.
  rewrite (no_filter_value (Some U) no_filters eq_refl eq_refl eq_refl eq_refl).
  cbn. destruct (String.eqb (u_role U) "user"); [|reflexivity].
  cbn. rewrite Hcb. cbn. rewrite String.eqb_refl. reflexivity.
Qed.

Lemma created_ticket_listed_witness :
  let s := initial_state (demo_world (Some user_id)) in
  let run := createTicket PgWorld postgres (Some demo_user) no_filters
               (form_ticket printer_form) s in
  exists t, fst run = Returned t /\ title t = "Printer jam" /\ In t (h_tickets (snd run)).
Proof.
  cbv zeta.
  assert (H : exists t s',
             createTicket PgWorld postgres (Some demo_user) no_filters
               (form_ticket printer_form) (initial_state (demo_world (Some user_id)))
             = (Returned t, s') /\ title t = "Printer jam").
  { eexists. eexists. split; [vm_compute; reflexivity | reflexivity]. }
  destruct H as (t & s' & H & Ht).
  pose proof (proj2 (created_ticket_listed demo_user no_filters _ _ _ _ H) eq_refl) as Hin.
  exists t. rewrite H. cbn [fst snd]. auto.
Defined.

(** X18.  A submission of the creation form by a signed-in user whose form
    holds one of the four priorities goes through: the handler returns, the
    form is reset to its initial values, the success message is on and the
    loading flag off, nothing is logged, and the database holds a new ticket
    with the title, description, priority and category of the form (an
    unchosen category is stored as the empty string, not NULL), status
    'open', the user as creator, no assignee and no resolution time. *)
Theorem handleSubmit_success (U : User) (s : St PgWorld) :
  pg_uid (world s) = Some (u_id U) ->
  priority_check (fd_priority (formData s)) = true ->
  references_user (users (pg_db (world s))) (Some (u_id U)) = true ->
  existsb (fun t' => String.eqb (id t') (pg_new_id (world s)))
          (tickets (pg_db (world s))) = false ->
  exists s',
    handleSubmit PgWorld postgres (Some U) s = (Returned tt, s')
    /\ formData s' = empty_form /\ success s' = true /\ f_loading s' = false
    /\ console s' = console s
    /\ tickets (pg_db (world s'))
       = tickets (pg_db (world s))
         ++ [mkTicket (pg_new_id (world s)) (fd_title (formData s))
                      (fd_description (formData s)) (fd_priority (formData s)) "open"
                      (Some (fd_category (formData s))) (Some (u_id U)) None
                      (Some (pg_now (world s))) (Some (pg_now (world s))) None].
Proof.
  intros Huid Hp Hu Hfresh.
  unfold handleSubmit, setFormLoading, setFormData, setSuccess, get, createTicket,
    fetchTickets, try_finally, try_catch, bind, request, ret, throw, setTickets,
    setLoading, console_error, modify.
  cbn [sb_tickets_insert sb_tickets_select postgres world formData].
  unfold pg_answer, tickets_insert.
  cbn [insert_body form_ticket insert_row b_created_by b_title b_description b_priority
       b_status b_category b_assigned_to b_resolved_at option_map set_col priority
       status id created_by assigned_to td_title td_description td_priority td_status
       td_category td_assigned_to td_resolved_at].
  rewrite Huid. cbn [sql_eq]. rewrite String.eqb_refl. cbn [negb].
  rewrite Hp, Hfresh. cbn [status_check String.eqb Ascii.eqb Bool.eqb andb orb negb].
  cbn [references_user] in Hu |- *. rewrite Hu. cbn.
  eexists. repeat split; reflexivity.
Qed.

Lemma handleSubmit_success_witness :
  let s0 := initial_state (demo_world (Some user_id)) in
  let s := mkSt (world s0) (console s0) (h_tickets s0) (h_loading s0) printer_form
                (f_loading s0) (success s0) (comments s0) (newComment s0) (editMode s0)
                (editData s0) (m_loading s0) (selectedTicket s0) (isModalOpen s0) in
  priority_check (fd_priority (formData s)) = true
  /\ exists s',
       handleSubmit PgWorld postgres (Some demo_user) s = (Returned tt, s')
       /\ formData s' = empty_form /\ success s' = true /\ f_loading s' = false
       /\ console s' = []
       /\ tickets (pg_db (world s'))
          = tickets demo_db
            ++ [mkTicket "new" "Printer jam" "..." "low" "open" (Some "Printer")
                         (Some user_id) None (Some 2000) (Some 2000) None].
Proof.
  cbv zeta. split; [reflexivity|].
  apply (handleSubmit_success demo_user
           (mkSt (demo_world (Some user_id)) [] [] true printer_form false false []
                 "" false no_patch false None false));
    reflexivity.
Defined.

(** X19.  When the update of the edit form goes through, [handleUpdate]
    returns with the modal closed, no ticket selected, edit mode and the
    loading flag off and nothing logged; the database is the one the update
    left. *)
Theorem handleUpdate_success (user : option User) (t : Ticket) (s : St PgWorld)
    (NEW : Ticket) (d' : Db) :
  tickets_update (pg_uid (world s)) (pg_now (world s)) (id t) (editData s)
                 (pg_db (world s)) = (Ok NEW, d') ->
  exists s',
    handleUpdate PgWorld postgres user (Some t) s = (Returned tt, s')
    /\ isModalOpen s' = false /\ selectedTicket s' = None
    /\ editMode s' = false /\ m_loading s' = false
    /\ console s' = console s
    /\ pg_db (world s') = d'.
Proof.
  intros Hup.
  unfold handleUpdate, handleTicketUpdate, setModalLoading, setEditMode,
    setIsModalOpen, setSelectedTicket, get, updateTicket, fetchTickets,
    try_finally, try_catch, bind, request, ret, throw, setTickets, setLoading,
    console_error, modify.
  cbn [sb_tickets_update sb_tickets_select postgres world editData].
  unfold pg_answer. rewrite Hup. cbn.
  eexists. repeat split; reflexivity.
Qed.

Lemma handleUpdate_success_witness :
  let s0 := initial_state (demo_world (Some admin_id)) in
  let s := mkSt (world s0) [] [] false empty_form false false [] "" true
                (change_status "resolved" (initial_editData demo_open)) false
                (Some demo_open) true in
  exists NEW s',
    fst (tickets_update (Some admin_id) 2000 "t1" (editData s) demo_db) = Ok NEW
    /\ resolved_at NEW = Some 2000
    /\ handleUpdate PgWorld postgres (Some demo_admin) (Some demo_open) s
       = (Returned tt, s')
    /\ isModalOpen s' = false /\ selectedTicket s' = None.
Proof.
  cbv zeta.
  assert (H : exists NEW d',
             tickets_update (Some admin_id) 2000 "t1"
               (change_status "resolved" (initial_editData demo_open)) demo_db
             = (Ok NEW, d') /\ resolved_at NEW = Some 2000).
  { eexists. eexists. split; [vm_compute; reflexivity | reflexivity]. }
  destruct H as (NEW & d' & H & Hr).
  destruct (handleUpdate_success (Some demo_admin) demo_open
              (mkSt (demo_world (Some admin_id)) [] [] false empty_form false false []
                    "" true (change_status "resolved" (initial_editData demo_open))
                    false (Some demo_open) true) NEW d' H)
    as (s' & H1 & H2 & H3 & _).
  exists NEW, s'. cbn [editData]. rewrite H. cbn [fst]. auto.
Defined.

Lemma addComment_postgres_ok (user : option User) (t : Ticket) (s : St PgWorld)
    (d' : Db) :
  trim (newComment s) <> "" ->
  comments_insert (pg_uid (world s)) (pg_new_id (world s)) (pg_now (world s))
    (Some (id t)) (option_map u_id user) (newComment s) (pg_db (world s)) = (Ok tt, d') ->
  exists s',
    addComment PgWorld postgres user (Some t) s = (Returned tt, s')
    /\ newComment s' = "" /\ console s' = console s
    /\ pg_db (world s') = d'
    /\ comments s' = comments_select (pg_uid (world s)) (id t) d'.
Proof.
  intros Hne Hins. apply String.eqb_neq in Hne.
  unfold addComment, fetchComments, setNewComment, setComments, get, try_catch, bind,
    request, ret, throw, console_error, modify.
  rewrite Hne.
  cbn [sb_comments_insert sb_comments_select postgres world newComment].
  unfold pg_answer. rewrite Hins. cbn.
  eexists. repeat split; reflexivity.
Qed.

(** X20.  A comment that is not blank, sent by a signed-in user on a ticket
    that user may read, is stored as typed, surrounding white space
    included, under the user's id and the ticket's id; [addComment] then
    empties the text box, logs nothing, and the refreshed thread shows the
    new comment. *)
Theorem addComment_success (U : User) (t : Ticket) (s : St PgWorld) :
  pg_uid (world s) = Some (u_id U) ->
  references_user (users (pg_db (world s))) (Some (u_id U)) = true ->
  parent_ticket_readable (pg_db (world s)) (Some (u_id U)) (Some (id t)) = true ->
  trim (newComment s) <> "" ->
  let c := mkComment (pg_new_id (world s)) (Some (id t)) (Some (u_id U)) (newComment s)
                     (Some (pg_now (world s))) in
  exists s',
    addComment PgWorld postgres (Some U) (Some t) s = (Returned tt, s')
    /\ newComment s' = "" /\ console s' = console s
    /\ ticket_comments (pg_db (world s')) = ticket_comments (pg_db (world s)) ++ [c]
    /\ tickets (pg_db (world s')) = tickets (pg_db (world s))
    /\ comments s' = comments_select (Some (u_id U)) (id t) (pg_db (world s'))
    /\ In c (comments s').
Proof.
  intros Huid Hu Hread Hne. cbv zeta.
  set (c := mkComment (pg_new_id (world s)) (Some (id t)) (Some (u_id U)) (newComment s)
                      (Some (pg_now (world s)))).
  set (d := pg_db (world s)) in *.
  assert (Hins : comments_insert (pg_uid (world s)) (pg_new_id (world s))
                   (pg_now (world s)) (Some (id t)) (option_map u_id (Some U))
                   (newComment s) d
                 = (Ok tt, mkDb (users d) (tickets d) (ticket_comments d ++ [c]))).
  { unfold comments_insert, comments_insert_policy.
    cbn [c_user_id c_ticket_id option_map]. rewrite Huid. cbn [sql_eq].
    rewrite String.eqb_refl, Hread, Hu. reflexivity. }
  destruct (addComment_postgres_ok (Some U) t s _ Hne Hins)
    as (s' & H1 & H2 & H3 & H4 & H5).
  exists s'. rewrite H4, H5, Huid. cbn [ticket_comments tickets].
  repeat (split; [first [assumption | reflexivity]|]).
  unfold comments_select. apply In_order_by. apply filter_In. split.
  - cbn [ticket_comments]. apply in_or_app. right. left. reflexivity.
  - unfold comments_select_policy. subst c. cbn [c_ticket_id].
    unfold parent_ticket_readable in *. cbn [tickets users].
    rewrite Hread. cbn. apply String.eqb_refl.
Qed.

Lemma addComment_success_witness :
  let s := mkSt (demo_world (Some user_id)) [] [] false empty_form false false []
                "  thanks  " false no_patch false (Some demo_open) true in
  trim (newComment s) <> ""
  /\ exists s',
       addComment PgWorld postgres (Some demo_user) (Some demo_open) s = (Returned tt, s')
       /\ newComment s' = ""
       /\ comments s'
          = [mkComment "new" (Some "t1") (Some user_id) "  thanks  " (Some 2000)].
Proof.
  cbv zeta. split; [discriminate|].
  destruct (addComment_success demo_user demo_open
              (mkSt (demo_world (Some user_id)) [] [] false empty_form false false []
                    "  thanks  " false no_patch false (Some demo_open) true))
    as (s' & H1 & H2 & _ & _ & _ & H6 & _);
    [reflexivity | reflexivity | reflexivity | discriminate |].
  exists s'. split; [exact H1|]. split; [exact H2|]. rewrite H6.
  assert (Hd : pg_db (world s')
               = snd (comments_insert (Some user_id) "new" 2000 (Some "t1") (Some user_id)
                        "  thanks  " demo_db)).
  { revert H1. vm_compute. intros H1. injection H1 as <-. reflexivity. }
  rewrite Hd. reflexivity.
Defined.

(** X21.  The comments of a ticket follow the ticket: a caller who may not
    read the ticket gets an empty thread and every comment that caller
    sends for it is refused, whoever it names as author, with the store
    unchanged; a caller who may read the ticket gets all of its comments
    and no comment of another ticket. *)
Theorem comments_follow_ticket_access (uid : option uuid) (i : uuid) (d : Db) :
  (parent_ticket_readable d uid (Some i) = false ->
   comments_select uid i d = []
   /\ forall new_id now author body,
        comments_insert uid new_id now (Some i) author body d
        = (Err "42501 row-level security policy", d))
  /\ (parent_ticket_readable d uid (Some i) = true ->
      forall c, In c (comments_select uid i d) <->
                In c (ticket_comments d) /\ c_ticket_id c = Some i).
Proof.
  split.
  - intros Hno. split.
    + unfold comments_select.
      assert (E : filter (fun c => comments_select_policy d uid c
                                   && sql_eq (c_ticket_id c) (Some i))
                         (ticket_comments d) = []).
      { induction (ticket_comments d) as [| c l IH]; [reflexivity|].
        cbn [filter]. unfold comments_select_policy at 1.
        destruct (sql_eq (c_ticket_id c) (Some i)) eqn:E.
        - apply sql_eq_true in E as (x & Hx & Hi). injection Hi as Hi. subst x.
          assert (Hc : parent_ticket_readable d uid (c_ticket_id c) = false)
            by (rewrite Hx; exact Hno).
          rewrite Hc. exact IH.
        - rewrite andb_false_r. exact IH. }
      rewrite E. reflexivity.
    + intros new_id now author body. unfold comments_insert, comments_insert_policy.
      cbn [c_ticket_id c_user_id]. rewrite Hno, andb_false_r. reflexivity.
  - intros Hyes c. unfold comments_select.
    rewrite In_order_by, filter_In, andb_true_iff. unfold comments_select_policy.
    split.
    + intros (Hin & _ & He). apply sql_eq_true in He as (x & Hx & Hi).
      injection Hi as Hi. subst x. auto.
    + intros (Hin & Hc).
      assert (Hp : parent_ticket_readable d uid (c_ticket_id c) = true)
        by (rewrite Hc; exact Hyes).
      rewrite Hp, Hc. cbn. rewrite String.eqb_refl. auto.
Qed.

Lemma comments_follow_ticket_access_witness :
  let other := mkTicket "t9" "Server room" "Door stays open" "high" "open" None
                        (Some admin_id) None (Some 1000) (Some 1000) None in
  let d := mkDb demo_users [other]
                [mkComment "c1" (Some "t9") (Some admin_id) "On it" (Some 1500)] in
  parent_ticket_readable d (Some user_id) (Some "t9") = false
  /\ comments_select (Some user_id) "t9" d = []
  /\ comments_insert (Some user_id) "c2" 2000 (Some "t9") (Some user_id) "Me too" d
     = (Err "42501 row-level security policy", d).
Proof.
  cbv zeta.
  destruct (proj1 (comments_follow_ticket_access (Some user_id) "t9"
                     (mkDb demo_users
                        [mkTicket "t9" "Server room" "Door stays open" "high" "open" None
                                  (Some admin_id) None (Some 1000) (Some 1000) None]
                        [mkComment "c1" (Some "t9") (Some admin_id) "On it" (Some 1500)]))
              eq_refl) as [H1 H2].
  split; [reflexivity|]. split; [exact H1|]. apply H2.
Defined.

Lemma like_plain_match (s p post : string) :
  plain s = true -> like p post = true -> like (s ++ p) (s ++ post) = true.
Proof.
  intros Hs Hp. induction s as [| c s IH]; [exact Hp|].
  cbn in Hs. apply andb_true_iff in Hs as [Hc Hs]. apply negb_true_iff in Hc.
  destruct (special_false c Hc) as (H1 & H2 & H3).
  cbn. rewrite H1, H2, H3, Ascii.eqb_refl. exact (IH Hs).
Qed.

Lemma like_percent_skip (c : ascii) (p pre t : string) :
  is_percent c = true -> like p t = true -> like (String c p) (pre ++ t) = true.
Proof.
  intros Hc Hp. induction pre as [| a pre IH].
  - destruct t; cbn; rewrite Hc, Hp; reflexivity.
  - cbn. rewrite Hc. cbn in IH. rewrite Hc in IH. rewrite IH. apply orb_true_r.
Qed.

Lemma like_percent_any (t : string) : like "%" t = true.
Proof.
  induction t as [| a t IH]; [reflexivity|].
  cbn. cbn in IH. rewrite IH. reflexivity.
Qed.

Lemma ilike_finds (s text : string) :
  plain s = true -> ci_substring s text -> ilike text ("%" ++ s ++ "%") = true.
Proof.
  intros Hs (pre & post & E). unfold ilike. rewrite !lower_app, E.
  apply (like_percent_skip "%" _ pre _ eq_refl).
  apply like_plain_match; [apply plain_lower, Hs|].
  apply like_percent_any.
Qed.

(** X22.  For a non-empty search string of plain characters and no other
    filter, the list is exactly the tickets within the caller's scope whose
    title or description contains the string, letter case aside: the search
    returns nothing else and misses none. *)
Theorem search_exact_for_plain_strings (uid : option uuid) (user : option User)
    (s : string) (d : Db) (t : Ticket) :
  s <> "" -> plain s = true ->
  (In t (tickets_select uid (fetchTickets_filters user (mkFilters None None None (Some s))) d)
   <->
   In t (tickets_select uid (role_scope user) d)
   /\ (ci_substring s (title t) \/ ci_substring s (description t))).
Proof.
  intros Hne Hs. apply String.eqb_neq in Hne.
  rewrite !In_tickets_select.
  unfold fetchTickets_filters. cbn [f_status f_priority f_assignee f_search truthy str].
  rewrite Hne. cbn [negb andb app].
  change (match user with
          | Some u => if String.eqb (u_role u) "user"
                      then [Feq col_created_by (u_id u)] else []
          | None => []
          end) with (role_scope user).
  rewrite forallb_app. cbn [forallb eval_filter existsb column fst snd].
  rewrite !andb_true_iff, orb_false_r, orb_true_iff.
  split.
  - intros (Hin & Hpol & Hsc & [H | H] & _); (split; [auto|]);
      [left | right]; apply ilike_contains; assumption.
  - intros ((Hin & Hpol & Hsc) & Hsub). repeat split; auto.
    destruct Hsub as [H | H]; [left | right]; apply ilike_finds; assumption.
Qed.

Lemma search_exact_for_plain_strings_witness :
  "email" <> "" /\ plain "email" = true
  /\ tickets_select (Some user_id)
       (fetchTickets_filters (Some demo_user) (mkFilters None None None (Some "email")))
       demo_db
     = [nth 1 (tickets demo_db) demo_open]
  /\ (In demo_open
        (tickets_select (Some user_id)
           (fetchTickets_filters (Some demo_user) (mkFilters None None None (Some "email")))
           demo_db)
      <-> In demo_open (tickets_select (Some user_id) (role_scope (Some demo_user)) demo_db)
          /\ (ci_substring "email" (title demo_open)
              \/ ci_substring "email" (description demo_open))).
Proof.
  assert (Hne : "email" <> "") by discriminate.
  split; [exact Hne|]. split; [reflexivity|]. split; [reflexivity|].
  exact (search_exact_for_plain_strings (Some user_id) (Some demo_user) "email" demo_db
           demo_open Hne eq_refl).
Defined.

(** ** Refreshes *)

(** X23.  Over any backend, [fetchTickets] and [fetchComments] never throw.
    [fetchTickets] always ends with the loading flag off; each of the two
    either shows the rows of a successful answer or keeps what was shown and
    logs the error. *)
Theorem refreshes_never_throw (World : Type) (sb : Supabase World)
    (user : option User) (filters : UseTicketsProps) (ticket : option Ticket)
    (s : St World) :
  (exists s',
     fetchTickets World sb user filters s = (Returned tt, s')
     /\ h_loading s' = false
     /\ ((exists data w,
            sb_tickets_select sb (fetchTickets_filters user filters) (world s)
            = (Ok data, w)
            /\ h_tickets s' = data /\ console s' = console s)
         \/ (exists e w,
               sb_tickets_select sb (fetchTickets_filters user filters) (world s)
               = (Err e, w)
               /\ h_tickets s' = h_tickets s
               /\ console s' = console s ++ [("Error fetching tickets:", e)])))
  /\ (exists s',
        fetchComments World sb ticket s = (Returned tt, s')
        /\ (comments s' = comments s
            \/ exists t data w,
                 ticket = Some t
                 /\ sb_comments_select sb (id t) (world s) = (Ok data, w)
                 /\ comments s' = data)).
Proof.
  split.
  - unfold fetchTickets, try_finally, try_catch, bind, request, throw, setTickets,
      setLoading, console_error, modify.
    destruct (sb_tickets_select sb _ (world s)) as [[data | e] w] eqn:E;
      eexists; cbn; (split; [reflexivity|]); (split; [reflexivity|]).
    + left. exists data, w. auto.
    + right. exists e, w. auto.
  - destruct ticket as [t |]; cbn [fetchComments].
    + unfold try_catch, bind, request, throw, setComments, console_error, modify.
      destruct (sb_comments_select sb (id t) (world s)) as [[data | e] w] eqn:E;
        eexists; cbn; (split; [reflexivity|]).
      * right. exists t, data, w. auto.
      * left. reflexivity.
    + exists s. split; [reflexivity|]. left. reflexivity.
Qed.

(** X24.  Without filters, the list of a signed-in user of role 'user' is
    exactly the tickets that user created: a ticket that was only assigned
    to the user is readable under the policy but is not listed.  The list
    of an administrator is the whole table. *)
Theorem unfiltered_list (U : User) (s : St PgWorld) (t : Ticket) :
  pg_uid (world s) = Some (u_id U) ->
  let s' := snd (fetchTickets PgWorld postgres (Some U) no_filters s) in
  (u_role U = "user" ->
   (In t (h_tickets s') <->
    In t (tickets (pg_db (world s))) /\ created_by t = Some (u_id U)))
  /\ (u_role U = "admin" -> In U (users (pg_db (world s))) ->
      (In t (h_tickets s') <-> In t (tickets (pg_db (world s))))).
Proof.
  intros Huid. cbv zeta.
  destruct (fetchTickets_postgres (Some U) no_filters s) as (s1 & Hs1 & Hlist & _).
  rewrite Hs1. cbn [snd]. rewrite Hlist, Huid, In_tickets_select.
  rewrite (no_filter_value (Some U) no_filters eq_refl eq_refl eq_refl eq_refl).
  unfold role_scope, tickets_select_policy. split.
  - intros Hrole. rewrite Hrole. cbn. rewrite andb_true_r. split.
    + intros (Hin & _ & Hc). apply sql_eq_true in Hc as (x & Hx & Hu).
      injection Hu as Hu. subst x. auto.
    + intros (Hin & Hc). rewrite Hc. cbn. rewrite String.eqb_refl. auto.
  - intros Hrole HU. rewrite Hrole. cbn.
    assert (Ha : is_admin (users (pg_db (world s))) (Some (u_id U)) = true).
    { unfold is_admin. apply existsb_exists. exists U. split; [exact HU|].
      cbn. rewrite String.eqb_refl, Hrole. reflexivity. }
    rewrite Ha, !orb_true_r. tauto.
Qed.

Lemma unfiltered_list_witness :
  let assigned := mkTicket "t9" "Server room" "Door stays open" "high" "open" None
                           (Some admin_id) (Some user_id) (Some 1000) (Some 1000) None in
  let d := mkDb demo_users [assigned] [] in
  let s := initial_state (mkWorld d (Some user_id) (fun n => 2000 + Z.of_nat n)
                            fresh_id 0) in
  tickets_select_policy demo_users (Some user_id) assigned = true
  /\ h_tickets (snd (fetchTickets PgWorld postgres (Some demo_user) no_filters s)) = []
  /\ (In assigned (h_tickets (snd (fetchTickets PgWorld postgres (Some demo_user)
                                     no_filters s)))
      <-> In assigned (tickets d) /\ created_by assigned = Some user_id).
Proof.
  cbv zeta. split; [reflexivity|]. split; [reflexivity|].
  apply (proj1 (unfiltered_list demo_user
                  (initial_state
                     (mkWorld (mkDb demo_users
                                 [mkTicket "t9" "Server room" "Door stays open" "high"
                                           "open" None (Some admin_id) (Some user_id)
                                           (Some 1000) (Some 1000) None] [])
                              (Some user_id) (fun n => 2000 + Z.of_nat n) fresh_id 0))
                  _ eq_refl)).
  reflexivity.
Defined.
